(** * SCPI command channel: SocketConnection and VISAConnection

    A shallow embedding of the two connection classes of the PPST Python
    examples (python_scpi_command_example.py, whose SocketConnection is
    repeated verbatim in python_basic_configuration_example.py, and
    python_scpi_command_by_visa_example.py), and the properties of the
    command/query channel checked against them.

    Python values are modelled as follows.
    - [str]: a list of Unicode code points (N);
    - [bytes]: a list of [Byte.byte];
    - [str.encode()] / [bytes.decode()]: strict UTF-8, the default codec;
    - [str.strip()]: removal of leading and trailing Unicode white space;
    - exceptions: the type [exn]; every value of it is an instance of
      Python's [Exception], so that [except Exception] catches it.
      Asynchronous [BaseException]s (KeyboardInterrupt, SystemExit) are not
      raised by a transport and are outside the model;
    - [print]: appends a line to the [stdout] component of the state and
      does not raise. *)

From Stdlib Require Import List NArith ZArith Lia Bool Ascii String.
From Stdlib Require Import Strings.Byte.
Import ListNotations.

Set Implicit Arguments.

(** ** Python text: str, bytes and the UTF-8 codec *)

Module Py.

Local Open Scope N_scope.

Definition codepoint := N.
Definition str := list codepoint.
Definition bytes := list byte.

Definition LF : codepoint := 10.
Definition LF_byte : byte := x0a.

(** A Rocq ASCII literal read as a Python str literal. *)
Definition lit (s : string) : str :=
  List.map (fun a => Ascii.N_of_ascii a) (list_ascii_of_string s).

(** [s.endswith('\n')] *)
Definition endswith_LF (s : str) : bool :=
  match rev s with
  | c :: _ => c =? LF
  | [] => false
  end.

(** [str.isspace] on one code point: the characters CPython's
    [_PyUnicode_IsWhitespace] accepts. *)
Definition isspace (c : codepoint) : bool :=
  ((0x09 <=? c) && (c <=? 0x0D)) || ((0x1C <=? c) && (c <=? 0x20))
  || (c =? 0x85) || (c =? 0xA0) || (c =? 0x1680)
  || ((0x2000 <=? c) && (c <=? 0x200A))
  || (c =? 0x2028) || (c =? 0x2029) || (c =? 0x202F) || (c =? 0x205F)
  || (c =? 0x3000).

Fixpoint lstrip (s : str) : str :=
  match s with
  | c :: r => if isspace c then lstrip r else s
  | [] => []
  end.

Definition rstrip (s : str) : str := rev (lstrip (rev s)).

(** [s.strip()] *)
Definition strip (s : str) : str := lstrip (rstrip s).

(** No white space at the end of [s]. *)
Definition ends_nonspace (s : str) : Prop :=
  match rev s with
  | c :: _ => isspace c = false
  | [] => True
  end.

(** The byte with value [n], for [n < 256]. *)
Definition b8 (n : N) : byte :=
  match Byte.of_N n with
  | Some b => b
  | None => x00
  end.

Definition is_surrogate (c : codepoint) : bool :=
  (0xD800 <=? c) && (c <? 0xE000).

(** UTF-8 encoding of one code point; [None] is UnicodeEncodeError
    (a lone surrogate, which a Python str can hold). *)
Definition encode_cp (c : codepoint) : option bytes :=
  if c <? 0x80 then Some [b8 c]
  else if c <? 0x800 then Some [b8 (0xC0 + c / 64); b8 (0x80 + c mod 64)]
  else if c <? 0x10000 then
    if is_surrogate c then None
    else Some [b8 (0xE0 + c / 4096); b8 (0x80 + (c / 64) mod 64);
               b8 (0x80 + c mod 64)]
  else if c <? 0x110000 then
    Some [b8 (0xF0 + c / 262144); b8 (0x80 + (c / 4096) mod 64);
          b8 (0x80 + (c / 64) mod 64); b8 (0x80 + c mod 64)]
  else None.

(** [s.encode()] *)
Fixpoint encode (s : str) : option bytes :=
  match s with
  | [] => Some []
  | c :: r =>
      match encode_cp c, encode r with
      | Some bc, Some br => Some (bc ++ br)
      | _, _ => None
      end
  end.

Definition is_cont (n : N) : bool := (0x80 <=? n) && (n <? 0xC0).

Definition cons_opt (c : codepoint) (o : option str) : option str :=
  match o with
  | Some s => Some (c :: s)
  | None => None
  end.

(** [b.decode()]: strict UTF-8; [None] is UnicodeDecodeError (a stray or
    missing continuation byte, an overlong form, an encoded surrogate, a
    value above U+10FFFF). *)
Fixpoint decode (bs : bytes) : option str :=
  match bs with
  | [] => Some []
  | b0 :: r0 =>
      let n0 := Byte.to_N b0 in
      if n0 <? 0x80 then cons_opt n0 (decode r0)
      else if n0 <? 0xC0 then None
      else if n0 <? 0xE0 then
        match r0 with
        | b1 :: r1 =>
            let n1 := Byte.to_N b1 in
            let c := (n0 - 0xC0) * 64 + (n1 - 0x80) in
            if is_cont n1 && (0x80 <=? c) then cons_opt c (decode r1)
            else None
        | _ => None
        end
      else if n0 <? 0xF0 then
        match r0 with
        | b1 :: b2 :: r2 =>
            let n1 := Byte.to_N b1 in
            let n2 := Byte.to_N b2 in
            let c := (n0 - 0xE0) * 4096 + (n1 - 0x80) * 64 + (n2 - 0x80) in
            if is_cont n1 && is_cont n2 && (0x800 <=? c)
               && negb (is_surrogate c)
            then cons_opt c (decode r2)
            else None
        | _ => None
        end
      else if n0 <? 0xF8 then
        match r0 with
        | b1 :: b2 :: b3 :: r3 =>
            let n1 := Byte.to_N b1 in
            let n2 := Byte.to_N b2 in
            let n3 := Byte.to_N b3 in
            let c := (n0 - 0xF0) * 262144 + (n1 - 0x80) * 4096
                     + (n2 - 0x80) * 64 + (n3 - 0x80) in
            if is_cont n1 && is_cont n2 && is_cont n3
               && (0x10000 <=? c) && (c <? 0x110000)
            then cons_opt c (decode r3)
            else None
        | _ => None
        end
      else None
  end.

End Py.

(** ** Exceptions and the effect monad *)

(** The exceptions the modelled code can meet.  [AttributeError_NoneType a]
    is the AttributeError raised by [None.a]; [TimeoutError] is
    [socket.timeout]; [OSError n] is any other OSError with errno [n];
    [OtherError] stands for every remaining subclass of Exception
    (ValueError, OverflowError, pyvisa's VisaIOError, ...). *)
Inductive exn : Type :=
| AttributeError_NoneType (attr : string)
| UnicodeEncodeError
| UnicodeDecodeError
| TimeoutError
| OSError (errno : Z)
| OtherError (what : string).

Module Eff.
Section WithState.

Variable S : Type.

(** A computation over a state [S] that returns a value or raises. *)
Definition M (A : Type) : Type := S -> S * (exn + A).

Definition ret {A} (a : A) : M A := fun s => (s, inr a).

Definition raise {A} (e : exn) : M A := fun s => (s, inl e).

Definition bind {A B} (m : M A) (k : A -> M B) : M B :=
  fun s =>
    match m s with
    | (s', inr a) => k a s'
    | (s', inl e) => (s', inl e)
    end.

(** [try: body except Exception as e: handler e].  The state changes made
    by [body] before it raised are kept. *)
Definition try_except {A} (body : M A) (handler : exn -> M A) : M A :=
  fun s =>
    match body s with
    | (s', inr a) => (s', inr a)
    | (s', inl e) => handler e s'
    end.

Definition gets {A} (f : S -> A) : M A := fun s => (s, inr (f s)).

Definition modify (f : S -> S) : M unit := fun s => (f s, inr tt).

End WithState.
End Eff.

Declare Scope eff_scope.
Delimit Scope eff_scope with eff.
Notation "x <- m ;; k" := (Eff.bind m (fun x => k))
  (at level 61, m at next level, right associativity) : eff_scope.
Notation "m ;; k" := (Eff.bind m (fun _ => k))
  (at level 61, right associativity) : eff_scope.

(** ** SocketConnection (python_scpi_command_example.py,
       python_basic_configuration_example.py) *)

Module Socket.

Import Py.

(** A socket object, named by the position of its creation in the history
    of library calls. *)
Definition handle := nat.

(** One call into the socket library together with its outcome. *)
Inductive event : Type :=
| EvSocket (r : exn + handle)
| EvSetTimeout (h : handle) (t : Z) (r : option exn)
| EvConnect (h : handle) (ip : str) (port : Z) (r : option exn)
| EvSendall (h : handle) (data : bytes) (r : option exn)
| EvRecv (h : handle) (bufsize : N) (r : exn + bytes)
| EvClose (h : handle) (r : option exn).

(** The transport: the behaviour of the socket library and of the peer.
    Every answer may depend on the whole history of calls.  [None] is a
    normal return, [Some e] the exception raised.  [t_recv] answers with the
    bytes that are available when the call returns; [recv] hands the caller
    at most [bufsize] of them. *)
Record transport : Type := {
  t_socket : list event -> option exn;
  t_settimeout : list event -> handle -> Z -> option exn;
  t_connect : list event -> handle -> str -> Z -> option exn;
  t_sendall : list event -> handle -> bytes -> option exn;
  t_recv : list event -> handle -> exn + bytes;
  t_close : list event -> handle -> option exn
}.

Record SocketConnection : Type := {
  ip : str;
  port : Z;
  timeout : Z;
  socket : option handle
}.

(** The lines the class prints, one constructor per [print] statement,
    carrying the values its f-string interpolates. *)
Inductive line : Type :=
| PrConnected (ip : str) (port : Z)
| PrConnectionError (e : exn)
| PrSent (s : str)
| PrSendError (e : exn)
| PrQuery (s : str)
| PrResponse (s : str)
| PrQueryError (e : exn)
| PrDisconnected (ip : str).

Record state : Type := {
  self : SocketConnection;
  calls : list event;
  stdout : list line
}.

Definition DEFAULT_PORT : Z := 5025.
Definition CONNECTION_TIMEOUT : Z := 5.
Definition BUFSIZE : N := 65535.

(** [SocketConnection.__init__] *)
Definition init (ip : str) (port timeout : Z) : SocketConnection :=
  {| ip := ip; port := port; timeout := timeout; socket := None |}.

(** The program state right after [SocketConnection(ip, port, timeout)]. *)
Definition fresh (ip : str) (port timeout : Z) : state :=
  {| self := init ip port timeout; calls := []; stdout := [] |}.

Definition M := Eff.M state.

Definition record (ev : event) (s : state) : state :=
  {| self := self s; calls := calls s ++ [ev]; stdout := stdout s |}.

Definition emit (l : line) (s : state) : state :=
  {| self := self s; calls := calls s; stdout := stdout s ++ [l] |}.

Definition print (l : line) : M unit := Eff.modify (emit l).

Definition set_socket (o : option handle) : M unit :=
  Eff.modify (fun s =>
    {| self := {| ip := ip (self s); port := port (self s);
                  timeout := timeout (self s); socket := o |};
       calls := calls s; stdout := stdout s |}).

(** [self.socket.<attr>]: the attribute lookup fails on [None]. *)
Definition self_socket (attr : string) : M handle :=
  fun s =>
    match socket (self s) with
    | Some h => (s, inr h)
    | None => (s, inl (AttributeError_NoneType attr))
    end.

Definition take (n : N) (b : bytes) : bytes := firstn (N.to_nat n) b.

Section Methods.

Variable T : transport.

Local Open Scope eff_scope.

Definition unit_call (r : option exn) (ev : event) : M unit :=
  fun s =>
    match r with
    | None => (record ev s, inr tt)
    | Some e => (record ev s, inl e)
    end.

(** [socket.socket(socket.AF_INET, socket.SOCK_STREAM)] *)
Definition sock_new : M handle :=
  fun s =>
    match t_socket T (calls s) with
    | None =>
        let h := List.length (calls s) in
        (record (EvSocket (inr h)) s, inr h)
    | Some e => (record (EvSocket (inl e)) s, inl e)
    end.

Definition sock_settimeout (h : handle) (t : Z) : M unit :=
  fun s =>
    let r := t_settimeout T (calls s) h t in
    unit_call r (EvSetTimeout h t r) s.

Definition sock_connect (h : handle) (a : str) (p : Z) : M unit :=
  fun s =>
    let r := t_connect T (calls s) h a p in
    unit_call r (EvConnect h a p r) s.

Definition sock_sendall (h : handle) (data : bytes) : M unit :=
  fun s =>
    let r := t_sendall T (calls s) h data in
    unit_call r (EvSendall h data r) s.

Definition sock_recv (h : handle) (bufsize : N) : M bytes :=
  fun s =>
    match t_recv T (calls s) h with
    | inr avail =>
        let got := take bufsize avail in
        (record (EvRecv h bufsize (inr got)) s, inr got)
    | inl e => (record (EvRecv h bufsize (inl e)) s, inl e)
    end.

Definition sock_close (h : handle) : M unit :=
  fun s =>
    let r := t_close T (calls s) h in
    unit_call r (EvClose h r) s.

Definition str_encode (s : str) : M bytes :=
  match encode s with
  | Some b => Eff.ret b
  | None => Eff.raise UnicodeEncodeError
  end.

Definition bytes_decode (b : bytes) : M str :=
  match decode b with
  | Some s => Eff.ret s
  | None => Eff.raise UnicodeDecodeError
  end.

(** [if not command.endswith('\n'): command += '\n'] *)
Definition terminate (command : str) : str :=
  if endswith_LF command then command else command ++ [LF].

(** [SocketConnection.connect] *)
Definition connect : M bool :=
  Eff.try_except
    (h <- sock_new ;;
     set_socket (Some h) ;;
     h1 <- self_socket "settimeout" ;;
     t <- Eff.gets (fun s => timeout (self s)) ;;
     sock_settimeout h1 t ;;
     h2 <- self_socket "connect" ;;
     a <- Eff.gets (fun s => ip (self s)) ;;
     p <- Eff.gets (fun s => port (self s)) ;;
     sock_connect h2 a p ;;
     print (PrConnected a p) ;;
     Eff.ret true)
    (fun e => print (PrConnectionError e) ;; Eff.ret false).

(** [SocketConnection.send_command]; the value is Python's [None]. *)
Definition send_command (command : str) : M unit :=
  Eff.try_except
    (let command := terminate command in
     h <- self_socket "sendall" ;;
     data <- str_encode command ;;
     sock_sendall h data ;;
     print (PrSent (strip command)))
    (fun e => print (PrSendError e)).

(** [SocketConnection.query]; [None] is Python's [None]. *)
Definition query (command : str) : M (option str) :=
  Eff.try_except
    (let command := terminate command in
     h <- self_socket "sendall" ;;
     data <- str_encode command ;;
     sock_sendall h data ;;
     print (PrQuery (strip command)) ;;
     h' <- self_socket "recv" ;;
     raw <- sock_recv h' BUFSIZE ;;
     text <- bytes_decode raw ;;
     let response := strip text in
     print (PrResponse response) ;;
     Eff.ret (Some response))
    (fun e => print (PrQueryError e) ;; Eff.ret None).

(** [SocketConnection.disconnect]; a socket object is truthy, [None] is
    not. *)
Definition disconnect : M unit :=
  o <- Eff.gets (fun s => socket (self s)) ;;
  match o with
  | Some _ =>
      h <- self_socket "close" ;;
      sock_close h ;;
      a <- Eff.gets (fun s => ip (self s)) ;;
      print (PrDisconnected a)
  | None => Eff.ret tt
  end.

End Methods.

(** *** Observations on a run *)

(** The state a call leaves and the value it returns or exception it
    raises. *)
Definition final {A} (r : state * (exn + A)) : state := fst r.
Definition outcome {A} (r : state * (exn + A)) : exn + A := snd r.

(** The library calls made between state [s] and the later state [s']. *)
Definition new_calls (s s' : state) : list event :=
  skipn (List.length (calls s)) (calls s').

Definition new_lines (s s' : state) : list line :=
  skipn (List.length (stdout s)) (stdout s').

Definition is_write (ev : event) : bool :=
  match ev with EvSendall _ _ _ => true | _ => false end.

Definition is_read (ev : event) : bool :=
  match ev with EvRecv _ _ _ => true | _ => false end.

(** [close()] was called on [h]. *)
Definition closed (h : handle) (evs : list event) : bool :=
  existsb (fun ev =>
    match ev with EvClose h' _ => Nat.eqb h' h | _ => false end) evs.

(** [connect()] on [h] returned normally. *)
Definition connected (h : handle) (evs : list event) : bool :=
  existsb (fun ev =>
    match ev with EvConnect h' _ _ None => Nat.eqb h' h | _ => false end)
    evs.

(** The Channel states of the specification, read off the object and the
    history: without a socket object the channel is as constructed. *)
Inductive channel_state : Type := Disconnected | Connected | Closed.

Definition channel_state_of (s : state) : channel_state :=
  match socket (self s) with
  | None => Disconnected
  | Some h =>
      if closed h (calls s) then Closed
      else if connected h (calls s) then Connected
      else Disconnected
  end.

(** [disconnect()] called [n] times in a row. *)
Fixpoint disconnect_times (T : transport) (n : nat) : M unit :=
  match n with
  | O => Eff.ret tt
  | S k => Eff.bind (disconnect T) (fun _ => disconnect_times T k)
  end.

(** The result [recv(bufsize)] gives at history [evs]. *)
Definition recv_result (T : transport) (evs : list event) (h : handle)
  (bufsize : N) : exn + bytes :=
  match t_recv T evs h with
  | inr avail => inr (take bufsize avail)
  | inl e => inl e
  end.

(** The write of [data] on [h] and the read that follows it, as the
    transport answers them after the history [evs] when the write succeeds. *)
Definition round_trip (T : transport) (evs : list event) (h : handle)
  (data : bytes) : list event :=
  [EvSendall h data None;
   EvRecv h BUFSIZE (recv_result T (evs ++ [EvSendall h data None]) h BUFSIZE)].

(** The transmitted bytes end in one terminator and hold no other. *)
Definition one_terminator (data : bytes) : Prop :=
  exists body, data = body ++ [LF_byte] /\ ~ In LF_byte body.

(** One write followed by one read, and nothing else. *)
Definition write_then_read (evs : list event) : Prop :=
  exists h d r h' n r', evs = [EvSendall h d r; EvRecv h' n r'].

(** *** Test doubles *)

Definition count_reads (evs : list event) : nat :=
  List.length (filter is_read evs).

(** A TCP peer.  The connection is accepted when [reachable] and refused
    (ECONNREFUSED, 111) otherwise; a write on a closed socket gives EBADF
    (9), on a socket that is not connected EPIPE (32); the k-th read on the
    connection gives the k-th scripted reply, and times out when the script
    is exhausted. *)
Definition tcp (reachable : bool) (replies : list (exn + bytes))
  : transport :=
  {| t_socket := fun _ => None;
     t_settimeout := fun _ _ _ => None;
     t_connect := fun _ _ _ _ =>
       if reachable then None else Some (OSError 111);
     t_sendall := fun evs h _ =>
       if closed h evs then Some (OSError 9)
       else if connected h evs then None
       else Some (OSError 32);
     t_recv := fun evs h =>
       if closed h evs then inl (OSError 9)
       else if connected h evs
            then nth (count_reads evs) replies (inl TimeoutError)
            else inl (OSError 107);
     t_close := fun _ _ => None |}.

(** Run a computation from a state, keeping the state it leaves. *)
Definition after {A} (m : M A) (s : state) : state := fst (m s).

(** The state of [query] between its write and its read. *)
Definition query_sent (h : handle) (data : bytes) (command : str)
  (s : state) : state :=
  emit (PrQuery (strip (terminate command)))
    (record (EvSendall h data None) s).

(** Two queries issued one after the other. *)
Definition query_twice (T : transport) (a b : str) : M (option str) :=
  Eff.bind (query T a) (fun _ => query T b).

(** The ways a call of [send_command] can go: the library calls it makes
    and the lines it prints. *)
Inductive send_path (command : str) : list event -> list line -> Prop :=
| SNotSent (e : exn) :
    send_path command [] [PrSendError e]
| SWriteFailed (h : handle) (d : bytes) (e : exn) :
    encode (terminate command) = Some d ->
    send_path command [EvSendall h d (Some e)] [PrSendError e]
| SWritten (h : handle) (d : bytes) :
    encode (terminate command) = Some d ->
    send_path command [EvSendall h d None]
      [PrSent (strip (terminate command))].

(** The ways a call of [query] can go: the library calls it makes, the
    lines it prints and the value it returns. *)
Inductive query_path (command : str)
  : list event -> list line -> option str -> Prop :=
| QNotSent (e : exn) :
    query_path command [] [PrQueryError e] None
| QWriteFailed (h : handle) (d : bytes) (e : exn) :
    encode (terminate command) = Some d ->
    query_path command [EvSendall h d (Some e)] [PrQueryError e] None
| QReadFailed (h : handle) (d : bytes) (e : exn) :
    encode (terminate command) = Some d ->
    query_path command
      [EvSendall h d None; EvRecv h BUFSIZE (inl e)]
      [PrQuery (strip (terminate command)); PrQueryError e] None
| QUndecodable (h : handle) (d raw : bytes) :
    encode (terminate command) = Some d ->
    decode raw = None ->
    query_path command
      [EvSendall h d None; EvRecv h BUFSIZE (inr raw)]
      [PrQuery (strip (terminate command)); PrQueryError UnicodeDecodeError]
      None
| QAnswered (h : handle) (d raw : bytes) (text : str) :
    encode (terminate command) = Some d ->
    decode raw = Some text ->
    query_path command
      [EvSendall h d None; EvRecv h BUFSIZE (inr raw)]
      [PrQuery (strip (terminate command)); PrResponse (strip text)]
      (Some (strip text)).

(** The state [s] after further library calls and printed lines. *)
Definition extend (s : state) (evs : list event) (lines : list line)
  : state :=
  {| self := self s; calls := calls s ++ evs; stdout := stdout s ++ lines |}.

(** The ways [connect] can go on a connection just constructed with
    address [a], port [p] and timeout [t]: the library calls it makes, the
    line it prints, the socket attribute it leaves and the value it
    returns.  The socket object created first is number 0. *)
Inductive connect_path (a : str) (p t : Z)
  : list event -> list line -> option handle -> bool -> Prop :=
| CNoSocket (e : exn) :
    connect_path a p t [EvSocket (inl e)] [PrConnectionError e] None false
| CTimeoutRejected (e : exn) :
    connect_path a p t
      [EvSocket (inr 0%nat); EvSetTimeout 0 t (Some e)]
      [PrConnectionError e] (Some 0%nat) false
| CRefused (e : exn) :
    connect_path a p t
      [EvSocket (inr 0%nat); EvSetTimeout 0 t None;
       EvConnect 0 a p (Some e)]
      [PrConnectionError e] (Some 0%nat) false
| CConnected :
    connect_path a p t
      [EvSocket (inr 0%nat); EvSetTimeout 0 t None; EvConnect 0 a p None]
      [PrConnected a p] (Some 0%nat) true.

(** The ways [connect] can go from any state: [c] is the connection object
    before the call and [n] the number of library calls made so far, so
    that the socket object created is number [n].  When no socket can be
    created the assignment to [self.socket] is not reached, and the
    attribute keeps what it held. *)
Inductive connect_from (c : SocketConnection) (n : nat)
  : list event -> list line -> option handle -> bool -> Prop :=
| FNoSocket (e : exn) :
    connect_from c n [EvSocket (inl e)] [PrConnectionError e] (socket c)
      false
| FTimeoutRejected (e : exn) :
    connect_from c n
      [EvSocket (inr n); EvSetTimeout n (timeout c) (Some e)]
      [PrConnectionError e] (Some n) false
| FRefused (e : exn) :
    connect_from c n
      [EvSocket (inr n); EvSetTimeout n (timeout c) None;
       EvConnect n (ip c) (port c) (Some e)]
      [PrConnectionError e] (Some n) false
| FConnected :
    connect_from c n
      [EvSocket (inr n); EvSetTimeout n (timeout c) None;
       EvConnect n (ip c) (port c) None]
      [PrConnected (ip c) (port c)] (Some n) true.

End Socket.

(** ** VISAConnection (python_scpi_command_by_visa_example.py) *)

Module Visa.

Import Py.

Definition handle := nat.

(** One call into pyvisa together with its outcome. *)
Inductive event : Type :=
| EvResourceManager (r : exn + handle)
| EvOpenResource (rm : handle) (name : str) (r : exn + handle)
| EvSetTimeout (h : handle) (t : Z) (r : option exn)
| EvWrite (h : handle) (message : str) (r : option exn)
| EvQuery (h : handle) (message : str) (r : exn + str)
| EvCloseInstrument (h : handle) (r : option exn)
| EvCloseManager (h : handle) (r : option exn).

(** The behaviour of pyvisa and of the instrument behind it; the library is
    not part of the repository, so each of its entry points is an answer
    that may depend on the history of calls. *)
Record library : Type := {
  v_resource_manager : list event -> option exn;
  v_open_resource : list event -> handle -> str -> option exn;
  v_set_timeout : list event -> handle -> Z -> option exn;
  v_write : list event -> handle -> str -> option exn;
  v_query : list event -> handle -> str -> exn + str;
  v_close_instrument : list event -> handle -> option exn;
  v_close_manager : list event -> handle -> option exn
}.

Record VISAConnection : Type := {
  resource_string : str;
  timeout : Z;
  instrument : option handle;
  rm : option handle
}.

Inductive line : Type :=
| PrConnected (resource : str)
| PrConnectionError (e : exn)
| PrSent (s : str)
| PrSendError (e : exn)
| PrQuery (s : str)
| PrResponse (s : str)
| PrQueryError (e : exn)
| PrDisconnected (resource : str).

Record state : Type := {
  self : VISAConnection;
  calls : list event;
  stdout : list line
}.

Definition CONNECTION_TIMEOUT : Z := 5000.

(** [VISAConnection.__init__] *)
Definition init (resource : str) (timeout : Z) : VISAConnection :=
  {| resource_string := resource; timeout := timeout;
     instrument := None; rm := None |}.

Definition fresh (resource : str) (timeout : Z) : state :=
  {| self := init resource timeout; calls := []; stdout := [] |}.

Definition M := Eff.M state.

Definition record (ev : event) (s : state) : state :=
  {| self := self s; calls := calls s ++ [ev]; stdout := stdout s |}.

Definition emit (l : line) (s : state) : state :=
  {| self := self s; calls := calls s; stdout := stdout s ++ [l] |}.

Definition print (l : line) : M unit := Eff.modify (emit l).

Definition set_rm (o : option handle) : M unit :=
  Eff.modify (fun s =>
    {| self := {| resource_string := resource_string (self s);
                  timeout := timeout (self s);
                  instrument := instrument (self s); rm := o |};
       calls := calls s; stdout := stdout s |}).

Definition set_instrument (o : option handle) : M unit :=
  Eff.modify (fun s =>
    {| self := {| resource_string := resource_string (self s);
                  timeout := timeout (self s);
                  instrument := o; rm := rm (self s) |};
       calls := calls s; stdout := stdout s |}).

Definition self_rm (attr : string) : M handle :=
  fun s =>
    match rm (self s) with
    | Some h => (s, inr h)
    | None => (s, inl (AttributeError_NoneType attr))
    end.

Definition self_instrument (attr : string) : M handle :=
  fun s =>
    match instrument (self s) with
    | Some h => (s, inr h)
    | None => (s, inl (AttributeError_NoneType attr))
    end.

Section Methods.

Variable L : library.

Local Open Scope eff_scope.

Definition unit_call (r : option exn) (ev : event) : M unit :=
  fun s =>
    match r with
    | None => (record ev s, inr tt)
    | Some e => (record ev s, inl e)
    end.

Definition new_call (r : option exn) (ev : exn + handle -> event)
  : M handle :=
  fun s =>
    match r with
    | None =>
        let h := List.length (calls s) in
        (record (ev (inr h)) s, inr h)
    | Some e => (record (ev (inl e)) s, inl e)
    end.

(** [pyvisa.ResourceManager()] *)
Definition resource_manager : M handle :=
  fun s => new_call (v_resource_manager L (calls s)) EvResourceManager s.

(** [rm.open_resource(name)] *)
Definition open_resource (m : handle) (name : str) : M handle :=
  fun s =>
    new_call (v_open_resource L (calls s) m name) (EvOpenResource m name) s.

(** [instrument.timeout = t] *)
Definition assign_timeout (h : handle) (t : Z) : M unit :=
  fun s =>
    let r := v_set_timeout L (calls s) h t in
    unit_call r (EvSetTimeout h t r) s.

Definition inst_write (h : handle) (message : str) : M unit :=
  fun s =>
    let r := v_write L (calls s) h message in
    unit_call r (EvWrite h message r) s.

Definition inst_query (h : handle) (message : str) : M str :=
  fun s =>
    let r := v_query L (calls s) h message in
    (record (EvQuery h message r) s, r).

Definition inst_close (h : handle) : M unit :=
  fun s =>
    let r := v_close_instrument L (calls s) h in
    unit_call r (EvCloseInstrument h r) s.

Definition rm_close (h : handle) : M unit :=
  fun s =>
    let r := v_close_manager L (calls s) h in
    unit_call r (EvCloseManager h r) s.

(** [VISAConnection.connect] *)
Definition connect : M bool :=
  Eff.try_except
    (m <- resource_manager ;;
     set_rm (Some m) ;;
     m1 <- self_rm "open_resource" ;;
     name <- Eff.gets (fun s => resource_string (self s)) ;;
     i <- open_resource m1 name ;;
     set_instrument (Some i) ;;
     i1 <- self_instrument "timeout" ;;
     t <- Eff.gets (fun s => timeout (self s)) ;;
     assign_timeout i1 t ;;
     name' <- Eff.gets (fun s => resource_string (self s)) ;;
     print (PrConnected name') ;;
     Eff.ret true)
    (fun e => print (PrConnectionError e) ;; Eff.ret false).

(** [VISAConnection.send_command] *)
Definition send_command (command : str) : M unit :=
  Eff.try_except
    (i <- self_instrument "write" ;;
     inst_write i command ;;
     print (PrSent (strip command)))
    (fun e => print (PrSendError e)).

(** [VISAConnection.query] *)
Definition query (command : str) : M (option str) :=
  Eff.try_except
    (i <- self_instrument "query" ;;
     text <- inst_query i command ;;
     let response := strip text in
     print (PrQuery (strip command)) ;;
     print (PrResponse response) ;;
     Eff.ret (Some response))
    (fun e => print (PrQueryError e) ;; Eff.ret None).

(** [VISAConnection.disconnect] *)
Definition disconnect : M unit :=
  oi <- Eff.gets (fun s => instrument (self s)) ;;
  match oi with
  | Some _ =>
      i <- self_instrument "close" ;;
      inst_close i ;;
      name <- Eff.gets (fun s => resource_string (self s)) ;;
      print (PrDisconnected name)
  | None => Eff.ret tt
  end ;;
  om <- Eff.gets (fun s => rm (self s)) ;;
  match om with
  | Some _ => m <- self_rm "close" ;; rm_close m
  | None => Eff.ret tt
  end.

End Methods.

(** *** Observations on a run *)

Definition final {A} (r : state * (exn + A)) : state := fst r.
Definition outcome {A} (r : state * (exn + A)) : exn + A := snd r.

Definition new_calls (s s' : state) : list event :=
  skipn (List.length (calls s)) (calls s').

Definition after {A} (m : M A) (s : state) : state := fst (m s).

(** [close()] was called on the instrument (or the manager) [h]. *)
Definition closed (h : handle) (evs : list event) : bool :=
  existsb (fun ev =>
    match ev with
    | EvCloseInstrument h' _ => Nat.eqb h' h
    | EvCloseManager h' _ => Nat.eqb h' h
    | _ => false
    end) evs.

Fixpoint disconnect_times (L : library) (n : nat) : M unit :=
  match n with
  | O => Eff.ret tt
  | S k => Eff.bind (disconnect L) (fun _ => disconnect_times L k)
  end.

(** The ways a call of [send_command] can go: the library calls it makes
    and the lines it prints. *)
Inductive send_path (command : str) : list event -> list line -> Prop :=
| SNotSent :
    send_path command [] [PrSendError (AttributeError_NoneType "write")]
| SWriteFailed (i : handle) (e : exn) :
    send_path command [EvWrite i command (Some e)] [PrSendError e]
| SWritten (i : handle) :
    send_path command [EvWrite i command None] [PrSent (strip command)].

(** The state [s] after further library calls and printed lines. *)
Definition extend (s : state) (evs : list event) (lines : list line)
  : state :=
  {| self := self s; calls := calls s ++ evs; stdout := stdout s ++ lines |}.

(** The ways [connect] can go on a connection just constructed for
    resource [name] with timeout [t]; the resource manager is object 0 and
    the instrument object 1. *)
Inductive connect_path (name : str) (t : Z)
  : list event -> list line -> option handle -> option handle -> bool
    -> Prop :=
| CNoManager (e : exn) :
    connect_path name t [EvResourceManager (inl e)] [PrConnectionError e]
      None None false
| CNotOpened (e : exn) :
    connect_path name t
      [EvResourceManager (inr 0%nat); EvOpenResource 0 name (inl e)]
      [PrConnectionError e] None (Some 0%nat) false
| CTimeoutRejected (e : exn) :
    connect_path name t
      [EvResourceManager (inr 0%nat); EvOpenResource 0 name (inr 1%nat);
       EvSetTimeout 1 t (Some e)]
      [PrConnectionError e] (Some 1%nat) (Some 0%nat) false
| CConnected :
    connect_path name t
      [EvResourceManager (inr 0%nat); EvOpenResource 0 name (inr 1%nat);
       EvSetTimeout 1 t None]
      [PrConnected name] (Some 1%nat) (Some 0%nat) true.

(** The ways [connect] can go from any state: [c] is the connection object
    before the call and [n] the number of library calls made so far, so
    that the resource manager created is object [n] and the instrument
    object [n + 1].  An attribute whose assignment is not reached keeps
    what it held. *)
Inductive connect_from (c : VISAConnection) (n : nat)
  : list event -> list line -> option handle -> option handle -> bool
    -> Prop :=
| FNoManager (e : exn) :
    connect_from c n [EvResourceManager (inl e)] [PrConnectionError e]
      (instrument c) (rm c) false
| FNotOpened (e : exn) :
    connect_from c n
      [EvResourceManager (inr n);
       EvOpenResource n (resource_string c) (inl e)]
      [PrConnectionError e] (instrument c) (Some n) false
| FTimeoutRejected (e : exn) :
    connect_from c n
      [EvResourceManager (inr n);
       EvOpenResource n (resource_string c) (inr (S n));
       EvSetTimeout (S n) (timeout c) (Some e)]
      [PrConnectionError e] (Some (S n)) (Some n) false
| FConnected :
    connect_from c n
      [EvResourceManager (inr n);
       EvOpenResource n (resource_string c) (inr (S n));
       EvSetTimeout (S n) (timeout c) None]
      [PrConnected (resource_string c)] (Some (S n)) (Some n) true.

(** The library calls and the lines of one [disconnect] whose closes
    succeed. *)
Definition disconnect_calls (c : VISAConnection) : list event :=
  match instrument c with
  | Some i => [EvCloseInstrument i None]
  | None => []
  end ++
  match rm c with
  | Some m => [EvCloseManager m None]
  | None => []
  end.

Definition disconnect_lines (c : VISAConnection) : list line :=
  match instrument c with
  | Some _ => [PrDisconnected (resource_string c)]
  | None => []
  end.

(** *** Test doubles *)

Definition count_queries (evs : list event) : nat :=
  List.length
    (filter (fun ev => match ev with EvQuery _ _ _ => true | _ => false end)
       evs).

(** An instrument on the bench: the resource opens when [present]; the
    k-th query is answered by the k-th scripted reply, and by a timeout when
    the script is exhausted. *)
Definition bench (present : bool) (replies : list (exn + str)) : library :=
  {| v_resource_manager := fun _ => None;
     v_open_resource := fun _ _ _ =>
       if present then None else Some (OtherError "VisaIOError");
     v_set_timeout := fun _ _ _ => None;
     v_write := fun _ _ _ => None;
     v_query := fun evs _ _ =>
       nth (count_queries evs) replies (inl (OtherError "VisaIOError"));
     v_close_instrument := fun _ _ => None;
     v_close_manager := fun _ _ => None |}.

End Visa.

(** ** Concrete runs used as examples *)

Module Demo.

Import Py.

Definition ip : str := lit "127.0.0.1".
Definition port : Z := 5025.

(** A connection object right after construction. *)
Definition created : Socket.state :=
  Socket.fresh ip port Socket.CONNECTION_TIMEOUT.

(** The connection after [connect()] to a peer that answers the reads with
    [replies]. *)
Definition online (replies : list (exn + bytes)) : Socket.state :=
  Socket.after (Socket.connect (Socket.tcp true replies)) created.

(** The connection after [connect()] was refused. *)
Definition refused : Socket.state :=
  Socket.after (Socket.connect (Socket.tcp false [])) created.

Definition resource : str := lit "TCPIP0::192.168.123.1::inst0::INSTR".

Definition visa_created : Visa.state :=
  Visa.fresh resource Visa.CONNECTION_TIMEOUT.

Definition visa_online (replies : list (exn + str)) : Visa.state :=
  Visa.after (Visa.connect (Visa.bench true replies)) visa_created.

(** The bytes of an ASCII literal. *)
Definition ascii_bytes (s : string) : bytes :=
  List.map (fun a => b8 (Ascii.N_of_ascii a)) (list_ascii_of_string s).

(** The reply of the instrument to [MEAS:VOLT?]. *)
Definition volt_value : str := lit "100.000000".
Definition volt_reply : bytes := ascii_bytes "100.000000" ++ [LF_byte].

(** A reply longer than the receive buffer: 70000 letters A. *)
Definition long_reply : bytes := repeat x41 (N.to_nat 70000).

Definition opc : str := lit "*OPC?".
Definition opc_data : bytes := ascii_bytes "*OPC?" ++ [LF_byte].
Definition opc_reply : bytes := ascii_bytes "1" ++ [LF_byte].

Definition meas_volt : str := lit "MEAS:VOLT?".

(** The script of the double in the scenario: "1\n" for *OPC? and
    "100.000000\n" for MEAS:VOLT?. *)
Definition replies : list (exn + bytes) := [inr opc_reply; inr volt_reply].
Definition meas_volt_data : bytes := ascii_bytes "MEAS:VOLT?" ++ [LF_byte].

(** The scenario of the specification: connect, send OUTP 1, query *OPC?
    and MEAS:VOLT?; the value is what the three calls with a result
    returned. *)
Definition scenario (T : Socket.transport)
  : Socket.M (bool * option str * option str) :=
  (ok <- Socket.connect T ;;
   Socket.send_command T (lit "OUTP 1") ;;
   a <- Socket.query T opc ;;
   b <- Socket.query T meas_volt ;;
   Eff.ret (ok, a, b))%eff.

End Demo.

(** ** Scripts: the functions around the connection classes

    The functions of the three scripts outside the classes ([scpi_command],
    [basic_configuration], [wait_for_key_press], [main],
    [install_dependencies]) run in a process that has, besides the state of
    the connection class, a console, a keyboard and a clock.  The keyboard
    is the finite list of what the calls of [input()] will meet; when it is
    used up the process waits for input for ever, outcome [Blocked].
    [KeyboardInterrupt] arises at [input()] only.  [argparse] is outside the
    model: [main] takes the parsed arguments. *)

Module Proc.

Import Py.

(** What a call of [input()] meets: a line of text, without its newline;
    end of file (EOFError); Ctrl-C (KeyboardInterrupt). *)
Inductive key : Type :=
| Line (text : str)
| Eof
| CtrlC.

(** How a piece of script ends: it returns, raises an instance of
    Exception, raises KeyboardInterrupt, raises SystemExit, or waits for
    input that never comes. *)
Inductive outcome (A : Type) : Type :=
| Returned (a : A)
| Raised (e : exn)
| Interrupted
| Exited (code : Z)
| Blocked.

Arguments Returned {A} a.
Arguments Raised {A} e.
Arguments Interrupted {A}.
Arguments Exited {A} code.
Arguments Blocked {A}.

Definition EOFError : exn := OtherError "EOFError".

(** [break] and [continue] of a loop body. *)
Inductive control : Type := Continue | Break.

Section WithTypes.

(** [C]: the state of the connection class (object, library calls, lines
    printed by the class); [L]: the lines of the class; [O]: the lines of the
    console. *)
Variables C L O : Type.
Variable class_lines : C -> list L.
Variable from_class : L -> O.

Record state : Type := {
  conn : C;
  console : list O;
  keys : list key;
  naps : list Z
}.

Definition P (A : Type) : Type := state -> state * outcome A.

Definition ret {A} (a : A) : P A := fun s => (s, Returned a).

Definition bind {A B} (m : P A) (k : A -> P B) : P B :=
  fun s =>
    match m s with
    | (s', Returned a) => k a s'
    | (s', Raised e) => (s', Raised e)
    | (s', Interrupted) => (s', Interrupted)
    | (s', Exited c) => (s', Exited c)
    | (s', Blocked) => (s', Blocked)
    end.

Definition emit (o : O) (s : state) : state :=
  {| conn := conn s; console := console s ++ [o]; keys := keys s;
     naps := naps s |}.

Definition with_keys (ks : list key) (s : state) : state :=
  {| conn := conn s; console := console s; keys := ks; naps := naps s |}.

Definition print (o : O) : P unit := fun s => (emit o s, Returned tt).

(** [time.sleep(seconds)] *)
Definition sleep (seconds : Z) : P unit :=
  fun s =>
    ({| conn := conn s; console := console s; keys := keys s;
        naps := naps s ++ [seconds] |}, Returned tt).

(** [sys.exit(code)] *)
Definition sys_exit {A} (code : Z) : P A := fun s => (s, Exited code).

(** The process after a method took the connection to [c']: the lines the
    class printed meanwhile are on the console. *)
Definition moved (c' : C) (s : state) : state :=
  {| conn := c';
     console :=
       console s
       ++ List.map from_class
            (skipn (List.length (class_lines (conn s))) (class_lines c'));
     keys := keys s; naps := naps s |}.

(** A method of the connection class, run in the process: the lines it
    prints go to the console, its exception is raised in the script. *)
Definition lift {A} (m : Eff.M C A) : P A :=
  fun s =>
    match m (conn s) with
    | (c', r) =>
        (moved c' s,
         match r with
         | inr a => Returned a
         | inl e => Raised e
         end)
    end.

(** [input(prompt)] when the keyboard gives [k]. *)
Definition input_key (prompt : O) (k : key) : P str :=
  fun s =>
    match k with
    | Line text => (emit prompt s, Returned text)
    | Eof => (emit prompt s, Raised EOFError)
    | CtrlC => (emit prompt s, Interrupted)
    end.

(** [input(prompt)] *)
Definition input (prompt : O) : P str :=
  fun s =>
    match keys s with
    | [] => (emit prompt s, Blocked)
    | k :: ks => input_key prompt k (with_keys ks s)
    end.

(** [try: body / except KeyboardInterrupt: on_interrupt /
     except Exception as e: on_exception e] *)
Definition try_except {A} (body : P A) (on_interrupt : P A)
  (on_exception : exn -> P A) : P A :=
  fun s =>
    match body s with
    | (s', Returned a) => (s', Returned a)
    | (s', Raised e) => on_exception e s'
    | (s', Interrupted) => on_interrupt s'
    | (s', Exited c) => (s', Exited c)
    | (s', Blocked) => (s', Blocked)
    end.

(** [try: body / except: handler]: the bare clause catches every exception,
    KeyboardInterrupt and SystemExit included. *)
Definition try_bare {A} (body : P A) (handler : P A) : P A :=
  fun s =>
    match body s with
    | (s', Returned a) => (s', Returned a)
    | (s', Raised _) => handler s'
    | (s', Interrupted) => handler s'
    | (s', Exited _) => handler s'
    | (s', Blocked) => (s', Blocked)
    end.

(** [try: body / finally: final]: [final] runs however [body] ends, and
    what it raises replaces the pending outcome. *)
Definition try_finally {A} (body : P A) (final : P unit) : P A :=
  fun s =>
    match body s with
    | (s', Blocked) => (s', Blocked)
    | (s', pending) =>
        match final s' with
        | (s'', Returned _) => (s'', pending)
        | (s'', Raised e) => (s'', Raised e)
        | (s'', Interrupted) => (s'', Interrupted)
        | (s'', Exited c) => (s'', Exited c)
        | (s'', Blocked) => (s'', Blocked)
        end
    end.

(** [wait_for_key_press(message)]:
    [try: input(message) / except: pass] *)
Definition wait_for_key_press (message : O) : P unit :=
  try_bare (bind (input message) (fun _ => ret tt)) (ret tt).

(** [command.lower() in ['exit', 'quit']].  [str.lower] maps A-Z to a-z and
    gives no character outside A-Z a lowercase form made of the letters of
    these two words, so the test is decided by folding A-Z. *)
Definition fold_ascii (c : codepoint) : codepoint :=
  if (65 <=? c)%N && (c <=? 90)%N then (c + 32)%N else c.

Definition str_eqb (a b : str) : bool :=
  if list_eq_dec N.eq_dec a b then true else false.

Definition lower_in_exit_quit (command : str) : bool :=
  str_eqb (List.map fold_ascii command) (lit "exit")
  || str_eqb (List.map fold_ascii command) (lit "quit").

(** [command.endswith('?')] *)
Definition endswith_question (command : str) : bool :=
  match rev command with
  | c :: _ => (c =? 63)%N
  | [] => false
  end.

(** [not command] *)
Definition is_empty (command : str) : bool :=
  match command with
  | [] => true
  | _ :: _ => false
  end.

(** *** [scpi_command], the same function in python_scpi_command_example.py
    and python_scpi_command_by_visa_example.py, over the connection object
    it is given *)

Section Interactive.

Variable send_command : str -> Eff.M C unit.
Variable query : str -> Eff.M C (option str).
Variables enter_commands use_question_mark prompt exiting : O.
Variable error : exn -> O.

(** One turn of the [while True] loop, for the key its [input()] meets. *)
Definition iteration (k : key) : P control :=
  try_except
    (bind (input_key prompt k) (fun text =>
     let command := strip text in
     if lower_in_exit_quit command then ret Break
     else if is_empty command then ret Continue
     else if endswith_question command
          then bind (lift (query command)) (fun _ => ret Continue)
          else bind (lift (send_command command)) (fun _ => ret Continue)))
    (bind (print exiting) (fun _ => ret Break))
    (fun e => bind (print (error e)) (fun _ => ret Continue)).

(** The loop, on the keys still to come. *)
Fixpoint prompt_loop (ks : list key) : P unit :=
  fun s =>
    match ks with
    | [] => (emit prompt (with_keys [] s), Blocked)
    | k :: ks' =>
        match iteration k (with_keys ks' s) with
        | (s', Returned Continue) => prompt_loop ks' s'
        | (s', Returned Break) => (s', Returned tt)
        | (s', Raised e) => (s', Raised e)
        | (s', Interrupted) => (s', Interrupted)
        | (s', Exited c) => (s', Exited c)
        | (s', Blocked) => (s', Blocked)
        end
    end.

Definition scpi_command : P unit :=
  bind (print enter_commands) (fun _ =>
  bind (print use_question_mark) (fun _ =>
  fun s => prompt_loop (keys s) s)).

(** The key ends the session: exit or quit was typed, or Ctrl-C. *)
Definition ends_session (k : key) : bool :=
  match k with
  | Line text => lower_in_exit_quit (strip text)
  | Eof => false
  | CtrlC => true
  end.

(** The keys before the first one that ends the session, and those after
    it. *)
Fixpoint before_end (ks : list key) : list key :=
  match ks with
  | [] => []
  | k :: ks' => if ends_session k then [] else k :: before_end ks'
  end.

Fixpoint after_end (ks : list key) : list key :=
  match ks with
  | [] => []
  | k :: ks' => if ends_session k then ks' else after_end ks'
  end.

(** What a key that does not end the session does to the connection: a
    line that is not blank is handed to [query] when it ends in a question
    mark and to [send_command] otherwise; nothing else reaches the
    connection. *)
Definition apply_key (c : C) (k : key) : C :=
  match k with
  | Line text =>
      let command := strip text in
      if is_empty command then c
      else if endswith_question command then fst (query command c)
      else fst (send_command command c)
  | _ => c
  end.

End Interactive.

End WithTypes.

(** The text of a key, stripped as the loop strips it; nothing for end of
    file and Ctrl-C. *)
Definition typed (k : key) : str :=
  match k with
  | Line text => strip text
  | _ => []
  end.

(** The key is a command: a line that is not blank. *)
Definition is_command (k : key) : bool := negb (is_empty (typed k)).

(** The key is a query: a line that ends in a question mark. *)
Definition is_question (k : key) : bool := endswith_question (typed k).

(** The text of a line of input holds no newline, as [input()] returns
    it. *)
Definition one_line (k : key) : Prop :=
  match k with
  | Line text => ~ In LF text
  | _ => True
  end.

Arguments conn {C O} s.
Arguments console {C O} s.
Arguments keys {C O} s.
Arguments naps {C O} s.

End Proc.

(** ** The scripts over SocketConnection (python_scpi_command_example.py,
       python_basic_configuration_example.py) *)

Module SocketCli.

Import Py.

(** The two scripts, told apart by the title of their banner. *)
Inductive script : Type := ScpiCommands | BasicConfiguration.

(** The lines of the console: those of the class, and one constructor per
    [print] statement (or prompt of [input]) of the scripts. *)
Inductive out : Type :=
| Class (l : Socket.line)
| PrEnterCommands
| PrUseQuestionMark
| PromptSCPI
| PrExiting
| PrError (e : exn)
| PrStarting
| PrCompleted
| PrRule
| PrTitle (t : script)
| PrIP (ip : str)
| PrPort (port : Z)
| PrCouldNotConnect
| PrVerifyPower
| PrVerifyAddress
| PrVerifyNetwork
| PrVerifyFirewall
| PromptPressEnter
| PrInterrupted
| PrUnexpected (e : exn)
| PrTraceback (e : exn)
| PrFinished.

Definition state := Proc.state Socket.state out.
Definition P := Proc.P Socket.state out.

Definition lift {A} (m : Socket.M A) : P A :=
  Proc.lift Socket.stdout Class m.

Declare Scope proc_scope.
Delimit Scope proc_scope with proc.
Notation "x <- m ;; k" := (Proc.bind m (fun x => k))
  (at level 61, m at next level, right associativity) : proc_scope.
Notation "m ;; k" := (Proc.bind m (fun _ => k))
  (at level 61, right associativity) : proc_scope.

(** The process before [main]: nothing printed, no library call made, the
    keys [ks] to come.  The connection object is the one [main] will
    construct over. *)
Definition boot (ks : list Proc.key) : state :=
  {| Proc.conn := Socket.fresh [] 0 0; Proc.console := [];
     Proc.keys := ks; Proc.naps := [] |}.

(** A process that holds the connection state [c]. *)
Definition holding (c : Socket.state) (ks : list Proc.key) : state :=
  {| Proc.conn := c; Proc.console := []; Proc.keys := ks; Proc.naps := [] |}.

Section Scripts.

Variable T : Socket.transport.

Local Open Scope proc_scope.

(** [scpi_command(socket)] of python_scpi_command_example.py *)
Definition scpi_command : P unit :=
  Proc.scpi_command Socket.stdout Class (Socket.send_command T)
    (Socket.query T) PrEnterCommands PrUseQuestionMark PromptSCPI PrExiting
    PrError.

(** [basic_configuration(socket)] of python_basic_configuration_example.py *)
Definition basic_configuration : P unit :=
  Proc.print PrStarting ;;
  Proc.sleep 2 ;;
  lift (Socket.send_command T (lit "VOLT:MODE AC")) ;;
  lift (Socket.send_command T (lit "VOLT:AC 100")) ;;
  lift (Socket.send_command T (lit "FREQ 60")) ;;
  lift (Socket.send_command T (lit "OUTP 1;")) ;;
  lift (Socket.query T (lit ":*OPC?")) ;;
  lift (Socket.query T (lit "MEAS:VOLT?")) ;;
  lift (Socket.query T (lit "MEAS:FREQ?")) ;;
  Proc.print PrCompleted.

(** [socket = SocketConnection(args.ip, args.port)] *)
Definition construct (ip : str) (port : Z) : P unit :=
  lift (Eff.modify (fun c =>
    {| Socket.self := Socket.init ip port Socket.CONNECTION_TIMEOUT;
       Socket.calls := Socket.calls c; Socket.stdout := Socket.stdout c |})).

(** The body of [main] after [parse_args()], for the script [t] whose
    session is [session]: [scpi_command(socket)] or
    [basic_configuration(socket)]. *)
Definition main_of (t : script) (session : P unit) (ip : str) (port : Z)
  : P unit :=
  Proc.print PrRule ;;
  Proc.print (PrTitle t) ;;
  Proc.print PrRule ;;
  Proc.print (PrIP ip) ;;
  Proc.print (PrPort port) ;;
  Proc.print PrRule ;;
  construct ip port ;;
  ok <- lift (Socket.connect T) ;;
  (if negb ok
   then
     Proc.print PrCouldNotConnect ;;
     Proc.print PrVerifyPower ;;
     Proc.print PrVerifyAddress ;;
     Proc.print PrVerifyNetwork ;;
     Proc.print PrVerifyFirewall ;;
     Proc.wait_for_key_press PromptPressEnter ;;
     Proc.sys_exit 1
   else Proc.ret tt) ;;
  Proc.try_finally
    (Proc.try_except session
       (Proc.print PrInterrupted)
       (fun e =>
          Proc.print (PrUnexpected e) ;;
          Proc.print (PrTraceback e) ;;
          Proc.wait_for_key_press PromptPressEnter))
    (lift (Socket.disconnect T) ;;
     Proc.print PrFinished ;;
     Proc.wait_for_key_press PromptPressEnter).

(** [main] of python_scpi_command_example.py *)
Definition main : str -> Z -> P unit := main_of ScpiCommands scpi_command.

(** [main] of python_basic_configuration_example.py *)
Definition main_basic : str -> Z -> P unit :=
  main_of BasicConfiguration basic_configuration.

End Scripts.

(** The library calls a run of the process added to those of [s]. *)
Definition new_calls (s s' : state) : list Socket.event :=
  Socket.new_calls (Proc.conn s) (Proc.conn s').

Definition is_close (ev : Socket.event) : bool :=
  match ev with Socket.EvClose _ _ => true | _ => false end.

(** The library calls that one key of a session can cause: none, one
    write of the framed command, or that write and the read of a query. *)
Inductive turn (k : Proc.key) : list Socket.event -> Prop :=
| TurnQuiet : turn k []
| TurnWrite (h : Socket.handle) (d : bytes) (r : option exn) :
    Proc.is_command k = true ->
    encode (Socket.terminate (Proc.typed k)) = Some d ->
    turn k [Socket.EvSendall h d r]
| TurnWriteRead (h : Socket.handle) (d : bytes) (r : exn + bytes) :
    Proc.is_command k = true ->
    Proc.is_question k = true ->
    encode (Socket.terminate (Proc.typed k)) = Some d ->
    turn k [Socket.EvSendall h d None; Socket.EvRecv h Socket.BUFSIZE r].

(** The bytes a key makes the session write when the connection holds a
    socket: the framed command, if the line is not blank and can be
    encoded. *)
Definition frame (k : Proc.key) : list bytes :=
  if Proc.is_command k
  then match encode (Socket.terminate (Proc.typed k)) with
       | Some d => [d]
       | None => []
       end
  else [].

(** The byte strings handed to the transport's write, in order. *)
Definition written (evs : list Socket.event) : list bytes :=
  flat_map (fun ev =>
    match ev with
    | Socket.EvSendall _ d _ => [d]
    | _ => []
    end) evs.

End SocketCli.

(** ** The script over VISAConnection
       (python_scpi_command_by_visa_example.py) *)

Module VisaCli.

Import Py.

Inductive out : Type :=
| Class (l : Visa.line)
| PrEnterCommands
| PrUseQuestionMark
| PromptSCPI
| PrExiting
| PrError (e : exn)
| PrRule
| PrTitle
| PrResource (resource : str)
| PrTimeout (ms : Z)
| PrCouldNotConnect
| PrVerifyBackend
| PrVerifyPower
| PrVerifyResource
| PrVerifyAccessible
| PromptPressEnter
| PrQueryingIdentification
| PrInterrupted
| PrUnexpected (e : exn)
| PrTraceback (e : exn)
| PrFinished.

Definition state := Proc.state Visa.state out.
Definition P := Proc.P Visa.state out.

Definition lift {A} (m : Visa.M A) : P A :=
  Proc.lift Visa.stdout Class m.

Definition boot (ks : list Proc.key) : state :=
  {| Proc.conn := Visa.fresh [] 0; Proc.console := [];
     Proc.keys := ks; Proc.naps := [] |}.

Definition holding (c : Visa.state) (ks : list Proc.key) : state :=
  {| Proc.conn := c; Proc.console := []; Proc.keys := ks; Proc.naps := [] |}.

Section Scripts.

Variable L : Visa.library.

(** [scpi_command(visa_conn)] *)
Definition scpi_command : P unit :=
  Proc.scpi_command Visa.stdout Class (Visa.send_command L)
    (Visa.query L) PrEnterCommands PrUseQuestionMark PromptSCPI PrExiting
    PrError.

(** [visa_conn = VISAConnection(args.resource, args.timeout)] *)
Definition construct (resource : str) (timeout : Z) : P unit :=
  lift (Eff.modify (fun c =>
    {| Visa.self := Visa.init resource timeout;
       Visa.calls := Visa.calls c; Visa.stdout := Visa.stdout c |})).

(** What [main] runs inside its [try]: the identification query, whose
    answer is not used, and the interactive loop. *)
Definition session : P unit :=
  Proc.bind (Proc.print PrQueryingIdentification) (fun _ =>
  Proc.bind (lift (Visa.query L (lit "*IDN?"))) (fun _ =>
  scpi_command)).

(** The body of [main] after [parse_args()]. *)
Definition main (resource : str) (timeout : Z) : P unit :=
  Proc.bind (Proc.print PrRule) (fun _ =>
  Proc.bind (Proc.print PrTitle) (fun _ =>
  Proc.bind (Proc.print PrRule) (fun _ =>
  Proc.bind (Proc.print (PrResource resource)) (fun _ =>
  Proc.bind (Proc.print (PrTimeout timeout)) (fun _ =>
  Proc.bind (Proc.print PrRule) (fun _ =>
  Proc.bind (construct resource timeout) (fun _ =>
  Proc.bind (lift (Visa.connect L)) (fun ok =>
  Proc.bind
    (if negb ok
     then
       Proc.bind (Proc.print PrCouldNotConnect) (fun _ =>
       Proc.bind (Proc.print PrVerifyBackend) (fun _ =>
       Proc.bind (Proc.print PrVerifyPower) (fun _ =>
       Proc.bind (Proc.print PrVerifyResource) (fun _ =>
       Proc.bind (Proc.print PrVerifyAccessible) (fun _ =>
       Proc.bind (Proc.wait_for_key_press PromptPressEnter) (fun _ =>
       Proc.sys_exit 1))))))
     else Proc.ret tt) (fun _ =>
  Proc.try_finally
    (Proc.try_except session
       (Proc.print PrInterrupted)
       (fun e =>
          Proc.bind (Proc.print (PrUnexpected e)) (fun _ =>
          Proc.bind (Proc.print (PrTraceback e)) (fun _ =>
          Proc.wait_for_key_press PromptPressEnter))))
    (Proc.bind (lift (Visa.disconnect L)) (fun _ =>
     Proc.bind (Proc.print PrFinished) (fun _ =>
     Proc.wait_for_key_press PromptPressEnter)))))))))))).

End Scripts.

Definition new_calls (s s' : state) : list Visa.event :=
  Visa.new_calls (Proc.conn s) (Proc.conn s').

(** The message of a call of pyvisa's write or query, if the event is
    one. *)
Definition message_of (ev : Visa.event) : option str :=
  match ev with
  | Visa.EvWrite _ m _ => Some m
  | Visa.EvQuery _ m _ => Some m
  | _ => None
  end.

Definition is_query (ev : Visa.event) : bool :=
  match ev with Visa.EvQuery _ _ _ => true | _ => false end.

(** The calls into pyvisa that one key of a session can cause: none, one
    write of the stripped line, or one query of it when it ends in a
    question mark. *)
Inductive turn (k : Proc.key) : list Visa.event -> Prop :=
| TurnQuiet : turn k []
| TurnWrite (i : Visa.handle) (r : option exn) :
    Proc.is_command k = true ->
    Proc.is_question k = false ->
    turn k [Visa.EvWrite i (Proc.typed k) r]
| TurnQuery (i : Visa.handle) (r : exn + str) :
    Proc.is_command k = true ->
    Proc.is_question k = true ->
    turn k [Visa.EvQuery i (Proc.typed k) r].

End VisaCli.

(** ** [install_dependencies]
       (python_scpi_command_by_visa_example.py) *)

Module Deps.

Import Py.

(** How [__import__(name)] ends: the module is there; ImportError (or a
    subclass of it) is raised; another exception is raised. *)
Inductive import_result : Type :=
| Imported
| NotFound
| Crashed (e : exn).

(** What [subprocess.run] gives back: the return code and the captured
    stderr of pip. *)
Record completed : Type := { returncode : Z; stderr : str }.

Inductive event : Type :=
| EvImport (name : string) (r : import_result)
| EvPip (packages : list string) (r : exn + completed).

(** The interpreter and the system: each answer may depend on what was
    imported and run before. *)
Record system : Type := {
  sys_import : list event -> string -> import_result;
  sys_pip : list event -> list string -> exn + completed
}.

Inductive out : Type :=
| PrMissing (packages : list string)
| PrAttempting
| PrInstalled
| PrStillNotFound (package : string)
| PrTryRestarting
| PrFailedCode (code : Z)
| PrErrorDetails (details : str)
| PrAutomaticFailed (e : exn)
| PrPleaseInstall
| PrHintPip
| PrHintPip3
| PrHintPython3
| PrHintApt.

Definition state := Proc.state (list event) out.
Definition P := Proc.P (list event) out.

Definition boot : state :=
  {| Proc.conn := []; Proc.console := []; Proc.keys := [];
     Proc.naps := [] |}.

Definition required_packages : list string :=
  ["pyvisa"%string; "pyvisa-py"%string].

(** [package.replace('-', '_')] *)
Fixpoint replace_dash (s : string) : string :=
  match s with
  | EmptyString => EmptyString
  | String c r =>
      String (if Ascii.eqb c "-"%char then "_"%char else c) (replace_dash r)
  end.

(** [raise Exception("pip install failed")] *)
Definition pip_install_failed : exn := OtherError "pip install failed".

Definition log (ev : event) (s : state) : state :=
  {| Proc.conn := Proc.conn s ++ [ev]; Proc.console := Proc.console s;
     Proc.keys := Proc.keys s; Proc.naps := Proc.naps s |}.

Section Install.

Variable Y : system.

(** [__import__(name)], its ImportError kept as a value for the
    [except ImportError] of the caller. *)
Definition import_module (name : string) : P import_result :=
  fun s =>
    let r := sys_import Y (Proc.conn s) name in
    (log (EvImport name r) s, Proc.Returned r).

(** [subprocess.run([sys.executable, '-m', 'pip', 'install', '--user']
     + packages, capture_output=True, text=True, timeout=60)] *)
Definition run_pip (packages : list string) : P completed :=
  fun s =>
    let r := sys_pip Y (Proc.conn s) packages in
    (log (EvPip packages r) s,
     match r with
     | inr c => Proc.Returned c
     | inl e => Proc.Raised e
     end).

Definition raise {A} (e : exn) : P A := fun s => (s, Proc.Raised e).

(** The first loop: the packages whose import raises ImportError. *)
Fixpoint find_missing (packages : list string) : P (list string) :=
  match packages with
  | [] => Proc.ret []
  | package :: rest =>
      Proc.bind (import_module (replace_dash package)) (fun r =>
      match r with
      | Imported => find_missing rest
      | NotFound =>
          Proc.bind (find_missing rest) (fun m => Proc.ret (package :: m))
      | Crashed e => raise e
      end)
  end.

(** The loop after a successful pip run: every package must import now. *)
Fixpoint verify_installed (packages : list string) : P unit :=
  match packages with
  | [] => Proc.ret tt
  | package :: rest =>
      Proc.bind (import_module (replace_dash package)) (fun r =>
      match r with
      | Imported => verify_installed rest
      | NotFound =>
          Proc.bind (Proc.print (PrStillNotFound package)) (fun _ =>
          Proc.bind (Proc.print PrTryRestarting) (fun _ =>
          Proc.sys_exit 1))
      | Crashed e => raise e
      end)
  end.

(** [install_dependencies()] *)
Definition install_dependencies : P unit :=
  Proc.bind (find_missing required_packages) (fun missing_packages =>
  match missing_packages with
  | [] => Proc.ret tt
  | _ :: _ =>
      Proc.bind (Proc.print (PrMissing missing_packages)) (fun _ =>
      Proc.bind (Proc.print PrAttempting) (fun _ =>
      Proc.try_except
        (Proc.bind (run_pip missing_packages) (fun result =>
         if (returncode result =? 0)%Z
         then
           Proc.bind (Proc.print PrInstalled) (fun _ =>
           verify_installed missing_packages)
         else
           Proc.bind (Proc.print (PrFailedCode (returncode result))) (fun _ =>
           Proc.bind
             (match stderr result with
              | [] => Proc.ret tt
              | _ :: _ =>
                  Proc.print (PrErrorDetails (firstn 500 (stderr result)))
              end) (fun _ =>
           raise pip_install_failed))))
        (fun s => (s, Proc.Interrupted))
        (fun e =>
           Proc.bind (Proc.print (PrAutomaticFailed e)) (fun _ =>
           Proc.bind (Proc.print PrPleaseInstall) (fun _ =>
           Proc.bind (Proc.print PrHintPip) (fun _ =>
           Proc.bind (Proc.print PrHintPip3) (fun _ =>
           Proc.bind (Proc.print PrHintPython3) (fun _ =>
           Proc.bind (Proc.print PrHintApt) (fun _ =>
           Proc.sys_exit 1)))))))))
  end).

End Install.

(** The module of a required package was imported successfully. *)
Definition imported (package : string) (evs : list event) : Prop :=
  In (EvImport (replace_dash package) Imported) evs.

Definition is_pip (ev : event) : bool :=
  match ev with EvPip _ _ => true | _ => false end.

End Deps.

(** ** More doubles and runs used as examples *)

Module Play.

Import Py.

(** A peer whose socket cannot be closed: [close] raises EIO (5). *)
Definition stuck : Socket.transport :=
  {| Socket.t_socket := Socket.t_socket (Socket.tcp true []);
     Socket.t_settimeout := Socket.t_settimeout (Socket.tcp true []);
     Socket.t_connect := Socket.t_connect (Socket.tcp true []);
     Socket.t_sendall := Socket.t_sendall (Socket.tcp true []);
     Socket.t_recv := Socket.t_recv (Socket.tcp true []);
     Socket.t_close := fun _ _ => Some (OSError 5) |}.

(** An instrument whose session cannot be closed. *)
Definition visa_stuck : Visa.library :=
  {| Visa.v_resource_manager := fun _ => None;
     Visa.v_open_resource := fun _ _ _ => None;
     Visa.v_set_timeout := fun _ _ _ => None;
     Visa.v_write := fun _ _ _ => None;
     Visa.v_query := fun _ _ _ => inl (OtherError "VisaIOError");
     Visa.v_close_instrument := fun _ _ => Some (OtherError "VisaIOError");
     Visa.v_close_manager := fun _ _ => None |}.

(** An instrument that opens but rejects the timeout. *)
Definition visa_picky : Visa.library :=
  {| Visa.v_resource_manager := fun _ => None;
     Visa.v_open_resource := fun _ _ _ => None;
     Visa.v_set_timeout := fun _ _ _ => Some (OtherError "ValueError");
     Visa.v_write := fun _ _ _ => None;
     Visa.v_query := fun _ _ _ => inr (lit "PPST,1.0" ++ [LF]);
     Visa.v_close_instrument := fun _ _ => None;
     Visa.v_close_manager := fun _ _ => None |}.

(** What a user types in a session: a command, a blank line, a query, a
    query after end of file, then EXIT between blanks, then more. *)
Definition typing : list Proc.key :=
  [Proc.Line (lit "OUTP 1");
   Proc.Line (lit "   ");
   Proc.Line (lit " *OPC? ");
   Proc.Eof;
   Proc.Line (lit "MEAS:VOLT?");
   Proc.Line (lit "  EXIT ");
   Proc.Line (lit "OUTP 0");
   Proc.Line []].

(** A pip run that returned 0 and named the package of module [name]. *)
Definition installed_by (name : string) (ev : Deps.event) : bool :=
  match ev with
  | Deps.EvPip packages (inr c) =>
      (Deps.returncode c =? 0)%Z
      && existsb (fun p => String.eqb (Deps.replace_dash p) name) packages
  | _ => false
  end.

(** A machine without the two packages, on which pip works: a module
    imports once pip has installed its package. *)
Definition bare : Deps.system :=
  {| Deps.sys_import := fun evs name =>
       if existsb (installed_by name) evs
       then Deps.Imported else Deps.NotFound;
     Deps.sys_pip := fun _ _ =>
       inr {| Deps.returncode := 0; Deps.stderr := [] |} |}.

(** A machine that has both packages, and no pip. *)
Definition ready : Deps.system :=
  {| Deps.sys_import := fun _ _ => Deps.Imported;
     Deps.sys_pip := fun _ _ => inl (OSError 2) |}.

(** A reply with white space around the value: two blanks, the value, a
    blank and a carriage return, then the terminator. *)
Definition padded_value : str := lit "  100.000000 " ++ [13%N].
Definition padded_reply : bytes :=
  Demo.ascii_bytes "  100.000000 " ++ [x0d; LF_byte].

(** A reply that is valid UTF-8 and longer than the receive buffer, in
    which the cut of [recv(65535)] falls inside a character: 65534 letters
    A, the three bytes of the euro sign (U+20AC) and the terminator. *)
Definition split_text : str :=
  repeat 0x41%N (N.to_nat 65534) ++ [0x20AC%N; LF].
Definition split_reply : bytes :=
  repeat x41 (N.to_nat 65534) ++ [xe2; x82; xac; LF_byte].

(** A machine that runs out of descriptors once one socket exists:
    [socket()] then raises EMFILE (24).  The peer is reachable. *)
Definition exhausted : Socket.transport :=
  {| Socket.t_socket := fun evs =>
       if existsb
            (fun ev =>
               match ev with Socket.EvSocket _ => true | _ => false end)
            evs
       then Some (OSError 24) else None;
     Socket.t_settimeout := Socket.t_settimeout (Socket.tcp true []);
     Socket.t_connect := Socket.t_connect (Socket.tcp true []);
     Socket.t_sendall := Socket.t_sendall (Socket.tcp true []);
     Socket.t_recv := Socket.t_recv (Socket.tcp true []);
     Socket.t_close := Socket.t_close (Socket.tcp true []) |}.

End Play.

(** ** The response of a query, in the words of the specification

    The specification describes the value of a query as the text read
    back with the trailing terminator and the surrounding white space
    stripped.  This is said here without [strip]: the result is what is
    left of the value between a run of white space before it and one
    after it, and has white space at neither end.  White space is the set
    of characters Python documents for [str.isspace], listed one by
    one. *)

Module Response.

Import Py.

Local Open Scope N_scope.

Definition white_space : list codepoint :=
  [0x09; 0x0A; 0x0B; 0x0C; 0x0D; 0x1C; 0x1D; 0x1E; 0x1F; 0x20; 0x85; 0xA0;
   0x1680; 0x2000; 0x2001; 0x2002; 0x2003; 0x2004; 0x2005; 0x2006; 0x2007;
   0x2008; 0x2009; 0x200A; 0x2028; 0x2029; 0x202F; 0x205F; 0x3000].

Definition is_white (c : codepoint) : bool := existsb (N.eqb c) white_space.

(** Nothing but white space. *)
Definition blank (s : str) : bool := forallb is_white s.

(** White space neither at the start nor at the end. *)
Definition trimmed (s : str) : bool :=
  match s with
  | c :: _ => negb (is_white c)
  | [] => true
  end
  &&
  match rev s with
  | c :: _ => negb (is_white c)
  | [] => true
  end.

(** [r] is [value] with the white space around it taken off. *)
Definition stripped_of (value r : str) : Prop :=
  exists before after,
    value = before ++ r ++ after
    /\ blank before = true
    /\ blank after = true
    /\ trimmed r = true.

End Response.

Module PyFacts.
Import Py.
Local Open Scope N_scope.

Ltac Zify.zify_post_hook ::= Z.to_euclidean_division_equations.

Lemma to_N_b8 (n : N) : n < 256 -> Byte.to_N (b8 n) = n.
Proof.
  intros Hn. unfold b8.
  destruct (Byte.of_N n) eqn:E.
  - now apply Byte.to_of_N.
  - apply Byte.of_N_None_iff in E. lia.
Qed.

Ltac decide_tests :=
  repeat match goal with
  | |- context [?a <? ?b] =>
      destruct (N.ltb_spec a b); try lia
  | |- context [?a <=? ?b] =>
      destruct (N.leb_spec a b); try lia
  end.

Lemma decode_encode_cp_match (c : codepoint) (rest : bytes) :
  match encode_cp c with
  | Some bs => decode (bs ++ rest) = cons_opt c (decode rest)
  | None => True
  end.
Proof.
  unfold encode_cp, is_surrogate.
  destruct (N.ltb_spec c 0x80).
  { cbn [app decode]. rewrite to_N_b8 by lia.
    destruct (N.ltb_spec c 0x80); [reflexivity | lia]. }
  destruct (N.ltb_spec c 0x800).
  { cbn [app decode].
    rewrite !to_N_b8 by lia. unfold is_cont. cbv zeta.
    decide_tests. cbn [andb]. f_equal. lia. }
  destruct (N.ltb_spec c 0x10000).
  { destruct (N.leb_spec 0xD800 c); destruct (N.ltb_spec c 0xE000);
      cbn [andb]; try exact I;
      cbn [app decode];
      rewrite !to_N_b8 by lia; unfold is_cont, is_surrogate; cbv zeta;
      decide_tests; cbn [andb negb]; f_equal; lia. }
  destruct (N.ltb_spec c 0x110000); [| exact I].
  cbn [app decode].
  rewrite !to_N_b8 by lia. unfold is_cont. cbv zeta.
  decide_tests. cbn [andb]. f_equal. lia.
Qed.

Lemma decode_encode_cp (c : codepoint) (bs rest : bytes) :
  encode_cp c = Some bs -> decode (bs ++ rest) = cons_opt c (decode rest).
Proof.
  intros E. generalize (decode_encode_cp_match c rest).
  rewrite E. trivial.
Qed.

Lemma decode_encode (s : str) (b : bytes) :
  encode s = Some b -> decode b = Some s.
Proof.
  revert b. induction s as [| c r IH]; intros b.
  - intros [= <-]. reflexivity.
  - cbn [encode].
    destruct (encode_cp c) as [bc |] eqn:Ec; [| discriminate].
    destruct (encode r) as [br |] eqn:Er; [| discriminate].
    intros [= <-].
    rewrite (decode_encode_cp _ _ Ec), (IH br eq_refl). reflexivity.
Qed.

Lemma encode_app (s t : str) :
  encode (s ++ t) =
  match encode s, encode t with
  | Some a, Some b => Some (a ++ b)
  | _, _ => None
  end.
Proof.
  induction s as [| c r IH]; cbn [app encode].
  - destruct (encode t); reflexivity.
  - rewrite IH.
    destruct (encode_cp c), (encode r), (encode t);
      try reflexivity.
    now rewrite app_assoc.
Qed.

Lemma encode_LF : encode [LF] = Some [LF_byte].
Proof. reflexivity. Qed.

(** Appending the terminator to the text appends the terminator byte to its
    encoding. *)
Lemma encode_snoc_LF (s : str) (d : bytes) :
  encode (s ++ [LF]) = Some d ->
  exists d0, encode s = Some d0 /\ d = d0 ++ [LF_byte].
Proof.
  rewrite encode_app, encode_LF.
  destruct (encode s) as [d0 |]; [| discriminate].
  intros [= <-]. now exists d0.
Qed.

Lemma b8_LF (n : N) : n < 256 -> b8 n = LF_byte -> n = LF.
Proof.
  intros Hn E. apply (f_equal Byte.to_N) in E.
  rewrite to_N_b8 in E by exact Hn. exact E.
Qed.

(** Only the code point U+000A produces the byte 0x0A. *)
Lemma encode_cp_LF (c : codepoint) :
  match encode_cp c with
  | Some bs => In LF_byte bs -> c = LF
  | None => True
  end.
Proof.
  unfold encode_cp, is_surrogate.
  destruct (N.ltb_spec c 0x80).
  { intros [E | []]. apply b8_LF; [lia | exact E]. }
  destruct (N.ltb_spec c 0x800).
  { cbn [In]. intros [E | [E | []]];
      apply b8_LF in E; unfold LF in *; lia. }
  destruct (N.ltb_spec c 0x10000).
  { destruct (N.leb_spec 0xD800 c); destruct (N.ltb_spec c 0xE000);
      cbn [andb]; try exact I;
      cbn [In]; intros [E | [E | [E | []]]];
      apply b8_LF in E; unfold LF in *; lia. }
  destruct (N.ltb_spec c 0x110000); [| exact I].
  cbn [In]. intros [E | [E | [E | [E | []]]]];
    apply b8_LF in E; unfold LF in *; lia.
Qed.

Lemma encode_In_LF (s : str) (d : bytes) :
  encode s = Some d -> In LF_byte d -> In LF s.
Proof.
  revert d. induction s as [| c r IH]; intros d.
  - intros [= <-] [].
  - cbn [encode].
    destruct (encode_cp c) as [bc |] eqn:Ec; [| discriminate].
    destruct (encode r) as [br |] eqn:Er; [| discriminate].
    intros [= <-] Hin. apply in_app_or in Hin. destruct Hin as [Hin | Hin].
    + left. generalize (encode_cp_LF c). rewrite Ec.
      intros Hc. now apply Hc.
    + right. now apply (IH br).
Qed.

Lemma endswith_LF_snoc (s : str) (c : codepoint) :
  endswith_LF (s ++ [c]) = (c =? LF).
Proof. unfold endswith_LF. now rewrite rev_app_distr. Qed.

Lemma endswith_LF_true (s : str) :
  endswith_LF s = true -> exists p, s = p ++ [LF].
Proof.
  destruct s as [| c r] using rev_ind.
  - discriminate.
  - rewrite endswith_LF_snoc. intros E. apply N.eqb_eq in E.
    subst c. now exists r.
Qed.

(** *** [strip] *)

Lemma isspace_LF : isspace LF = true.
Proof. reflexivity. Qed.

Lemma lstrip_head (s : str) :
  match lstrip s with
  | c :: _ => isspace c = false
  | [] => True
  end.
Proof.
  induction s as [| c r IH]; cbn [lstrip]; [exact I |].
  destruct (isspace c) eqn:E; [exact IH | exact E].
Qed.

Lemma lstrip_suffix (s : str) : exists p, s = p ++ lstrip s.
Proof.
  induction s as [| c r [p IH]]; cbn [lstrip].
  - now exists [].
  - destruct (isspace c).
    + exists (c :: p). cbn [app]. now rewrite <- IH.
    + now exists [].
Qed.

Lemma lstrip_idem (s : str) : lstrip (lstrip s) = lstrip s.
Proof.
  generalize (lstrip_head s). destruct (lstrip s) as [| c r]; [reflexivity |].
  intros E. cbn [lstrip]. now rewrite E.
Qed.

Lemma rstrip_snoc_space (s : str) (c : codepoint) :
  isspace c = true -> rstrip (s ++ [c]) = rstrip s.
Proof.
  intros E. unfold rstrip. rewrite rev_app_distr. cbn [rev app lstrip].
  now rewrite E.
Qed.

(** The terminator at the end of a response does not survive [strip]. *)
Lemma strip_snoc_LF (s : str) : strip (s ++ [LF]) = strip s.
Proof. unfold strip. now rewrite rstrip_snoc_space. Qed.

Lemma rstrip_ends (s : str) : ends_nonspace (rstrip s).
Proof.
  unfold ends_nonspace, rstrip. rewrite rev_involutive. apply lstrip_head.
Qed.

Lemma ends_nonspace_suffix (p s : str) :
  ends_nonspace (p ++ s) -> ends_nonspace s.
Proof.
  unfold ends_nonspace. rewrite rev_app_distr.
  destruct (rev s); [trivial | now cbn [app]].
Qed.

Lemma rstrip_fixed (s : str) : ends_nonspace s -> rstrip s = s.
Proof.
  unfold ends_nonspace, rstrip. intros H.
  destruct (rev s) as [| c r] eqn:E.
  - cbn. apply (f_equal (@rev _)) in E. now rewrite rev_involutive in E.
  - cbn [lstrip]. rewrite H, <- E. apply rev_involutive.
Qed.

(** What [strip] returns has no white space left at either end. *)
Lemma strip_idem (s : str) : strip (strip s) = strip s.
Proof.
  unfold strip at 1.
  assert (E : rstrip (strip s) = strip s).
  { apply rstrip_fixed. unfold strip.
    destruct (lstrip_suffix (rstrip s)) as [p Hp].
    apply (ends_nonspace_suffix p). rewrite <- Hp. apply rstrip_ends. }
  rewrite E. unfold strip. apply lstrip_idem.
Qed.

Lemma strip_fixed (s : str) :
  lstrip s = s -> ends_nonspace s -> strip s = s.
Proof. intros Hl Hr. unfold strip. now rewrite rstrip_fixed. Qed.

Lemma take_length (n : N) (b : bytes) :
  (List.length (Socket.take n b) <= N.to_nat n)%nat.
Proof. unfold Socket.take. apply firstn_le_length. Qed.

Lemma take_all (n : N) (b : bytes) :
  (List.length b <= N.to_nat n)%nat -> Socket.take n b = b.
Proof. unfold Socket.take. apply firstn_all2. Qed.

End PyFacts.

(** ** SocketConnection: how each method runs *)

Module SocketFacts.
Import Py Socket.

Ltac run :=
  unfold query, send_command, connect, disconnect, Eff.try_except, Eff.bind,
    Eff.ret, Eff.raise, Eff.gets, Eff.modify, self_socket, str_encode,
    bytes_decode, sock_sendall, sock_recv, sock_close, sock_new,
    sock_settimeout, sock_connect, set_socket, unit_call, print;
  cbn [self calls stdout socket ip port timeout record emit fst snd app
       Datatypes.length].

Section Steps.

Variable T : transport.
Variable s : state.
Variable command : str.

Lemma send_no_socket :
  socket (self s) = None ->
  send_command T command s =
  (emit (PrSendError (AttributeError_NoneType "sendall")) s, inr tt).
Proof. intros E. run. now rewrite E. Qed.

Lemma query_no_socket :
  socket (self s) = None ->
  query T command s =
  (emit (PrQueryError (AttributeError_NoneType "sendall")) s, inr None).
Proof. intros E. run. now rewrite E. Qed.

Variable h : handle.
Hypothesis Hsock : socket (self s) = Some h.

Lemma send_unencodable :
  encode (terminate command) = None ->
  send_command T command s = (emit (PrSendError UnicodeEncodeError) s, inr tt).
Proof. intros E. run. now rewrite Hsock, E. Qed.

Lemma query_unencodable :
  encode (terminate command) = None ->
  query T command s = (emit (PrQueryError UnicodeEncodeError) s, inr None).
Proof. intros E. run. now rewrite Hsock, E. Qed.

Variable data : bytes.
Hypothesis Henc : encode (terminate command) = Some data.

Lemma send_write_failed (e : exn) :
  t_sendall T (calls s) h data = Some e ->
  send_command T command s =
  (emit (PrSendError e) (record (EvSendall h data (Some e)) s), inr tt).
Proof. intros E. run. rewrite Hsock, Henc. run. now rewrite E. Qed.

Lemma send_written :
  t_sendall T (calls s) h data = None ->
  send_command T command s =
  (emit (PrSent (strip (terminate command)))
     (record (EvSendall h data None) s), inr tt).
Proof. intros E. run. rewrite Hsock, Henc. run. now rewrite E. Qed.

Lemma query_write_failed (e : exn) :
  t_sendall T (calls s) h data = Some e ->
  query T command s =
  (emit (PrQueryError e) (record (EvSendall h data (Some e)) s), inr None).
Proof. intros E. run. rewrite Hsock, Henc. run. now rewrite E. Qed.

Hypothesis Hsent : t_sendall T (calls s) h data = None.

Lemma query_read_failed (e : exn) :
  t_recv T (calls s ++ [EvSendall h data None]) h = inl e ->
  query T command s =
  (emit (PrQueryError e) (record (EvRecv h BUFSIZE (inl e)) (query_sent h data command s)),
   inr None).
Proof.
  intros E. run. rewrite Hsock, Henc. run. rewrite Hsent. run.
  rewrite Hsock. run. now rewrite E.
Qed.

Variable avail : bytes.
Hypothesis Hrecv :
  t_recv T (calls s ++ [EvSendall h data None]) h = inr avail.

Lemma query_undecodable :
  decode (take BUFSIZE avail) = None ->
  query T command s =
  (emit (PrQueryError UnicodeDecodeError)
     (record (EvRecv h BUFSIZE (inr (take BUFSIZE avail)))
        (query_sent h data command s)), inr None).
Proof.
  intros E. run. rewrite Hsock, Henc. run. rewrite Hsent. run.
  rewrite Hsock. run. rewrite Hrecv. run. now rewrite E.
Qed.

Lemma query_answered (text : str) :
  decode (take BUFSIZE avail) = Some text ->
  query T command s =
  (emit (PrResponse (strip text))
     (record (EvRecv h BUFSIZE (inr (take BUFSIZE avail)))
        (query_sent h data command s)),
   inr (Some (strip text))).
Proof.
  intros E. run. rewrite Hsock, Henc. run. rewrite Hsent. run.
  rewrite Hsock. run. rewrite Hrecv. run. now rewrite E.
Qed.

End Steps.


Lemma new_calls_extend (s : state) evs lines :
  new_calls s (extend s evs lines) = evs.
Proof.
  unfold new_calls, extend. cbn [calls].
  rewrite skipn_app, Nat.sub_diag, skipn_all. reflexivity.
Qed.

Lemma new_lines_extend (s : state) evs lines :
  new_lines s (extend s evs lines) = lines.
Proof.
  unfold new_lines, extend. cbn [stdout].
  rewrite skipn_app, Nat.sub_diag, skipn_all. reflexivity.
Qed.

Lemma extend_nil (s : state) : extend s [] [] = s.
Proof. destruct s. unfold extend. cbn. now rewrite !app_nil_r. Qed.

Lemma extend_extend (s : state) e1 l1 e2 l2 :
  extend (extend s e1 l1) e2 l2 = extend s (e1 ++ e2) (l1 ++ l2).
Proof. unfold extend. cbn. now rewrite !app_assoc. Qed.

Lemma emit_extend (s : state) (l : line) : emit l s = extend s [] [l].
Proof. unfold emit, extend. now rewrite app_nil_r. Qed.

Lemma record_extend (s : state) (ev : event) : record ev s = extend s [ev] [].
Proof. unfold record, extend. now rewrite app_nil_r. Qed.

Ltac to_extend :=
  unfold query_sent;
  rewrite ?emit_extend, ?record_extend, ?extend_extend; cbn [app].

(** Every call of [send_command] follows one of the paths of [send_path],
    and returns None. *)
Lemma send_command_paths (T : transport) (command : str) (s : state) :
  exists evs lines,
    send_command T command s = (extend s evs lines, inr tt)
    /\ send_path command evs lines.
Proof.
  destruct (socket (self s)) as [h |] eqn:Hsock.
  2:{ rewrite (@send_no_socket T s command Hsock). to_extend.
      eexists _, _. split; [reflexivity | constructor]. }
  destruct (encode (terminate command)) as [data |] eqn:Henc.
  2:{ rewrite (@send_unencodable T s command h Hsock Henc). to_extend.
      eexists _, _. split; [reflexivity | constructor]. }
  destruct (t_sendall T (calls s) h data) as [e |] eqn:Hsend.
  - rewrite (@send_write_failed T s command h Hsock data Henc e Hsend). to_extend.
    eexists _, _. split; [reflexivity | now constructor].
  - rewrite (@send_written T s command h Hsock data Henc Hsend). to_extend.
    eexists _, _. split; [reflexivity | now constructor].
Qed.

(** Every call of [query] follows one of the paths of [query_path]. *)
Lemma query_paths (T : transport) (command : str) (s : state) :
  exists evs lines v,
    query T command s = (extend s evs lines, inr v)
    /\ query_path command evs lines v.
Proof.
  destruct (socket (self s)) as [h |] eqn:Hsock.
  2:{ rewrite (@query_no_socket T s command Hsock). to_extend.
      eexists _, _, _. split; [reflexivity | constructor]. }
  destruct (encode (terminate command)) as [data |] eqn:Henc.
  2:{ rewrite (@query_unencodable T s command h Hsock Henc). to_extend.
      eexists _, _, _. split; [reflexivity | constructor]. }
  destruct (t_sendall T (calls s) h data) as [e |] eqn:Hsend.
  { rewrite (@query_write_failed T s command h Hsock data Henc e Hsend). to_extend.
    eexists _, _, _. split; [reflexivity | now constructor]. }
  destruct (t_recv T (calls s ++ [EvSendall h data None]) h)
    as [e | avail] eqn:Hrecv.
  { rewrite (@query_read_failed T s command h Hsock data Henc Hsend e Hrecv). to_extend.
    eexists _, _, _. split; [reflexivity | now constructor]. }
  destruct (decode (take BUFSIZE avail)) as [text |] eqn:Hdec.
  - rewrite (@query_answered T s command h Hsock data Henc Hsend avail Hrecv text Hdec). to_extend.
    eexists _, _, _. split; [reflexivity | now constructor].
  - rewrite (@query_undecodable T s command h Hsock data Henc Hsend avail Hrecv Hdec). to_extend.
    eexists _, _, _. split; [reflexivity | now constructor].
Qed.

(** [connect] on a connection just constructed follows one of the paths of
    [connect_path]; it returns a boolean and never raises. *)
Lemma connect_paths (T : transport) (a : str) (p t : Z) :
  exists evs lines o b,
    connect T (fresh a p t)
    = ({| self := {| ip := a; port := p; timeout := t; socket := o |};
          calls := evs; stdout := lines |}, inr b)
    /\ connect_path a p t evs lines o b.
Proof.
  unfold fresh, init. run.
  destruct (t_socket T []) as [e |] eqn:E0.
  { eexists _, _, _, _. split; [reflexivity | constructor]. }
  run.
  destruct (t_settimeout T [EvSocket (inr 0%nat)] 0%nat t) as [e |] eqn:E1.
  { eexists _, _, _, _. split; [reflexivity | constructor]. }
  run.
  destruct (t_connect T [EvSocket (inr 0%nat); EvSetTimeout 0 t None]
              0%nat a p) as [e |] eqn:E2.
  { eexists _, _, _, _. split; [reflexivity | constructor]. }
  eexists _, _, _, _. split; [reflexivity | constructor].
Qed.

(** From any state, [connect] returns a boolean and does not raise. *)
Lemma connect_returns (T : transport) (s : state) :
  exists b, outcome (connect T s) = inr b.
Proof.
  unfold outcome. run.
  destruct (t_socket T (calls s)); run; [now exists false |].
  match goal with
  | |- context [t_settimeout T ?evs ?h ?t] =>
      destruct (t_settimeout T evs h t)
  end; run; [now exists false |].
  match goal with
  | |- context [t_connect T ?evs ?h ?a ?p] =>
      destruct (t_connect T evs h a p)
  end; run; [now exists false | now exists true].
Qed.

Section Disconnect.

Variable T : transport.
Variable s : state.

Lemma disconnect_no_socket :
  socket (self s) = None -> disconnect T s = (s, inr tt).
Proof. intros E. run. now rewrite E. Qed.

Variable h : handle.
Hypothesis Hsock : socket (self s) = Some h.

Lemma disconnect_closed :
  t_close T (calls s) h = None ->
  disconnect T s
  = (extend s [EvClose h None] [PrDisconnected (ip (self s))], inr tt).
Proof.
  intros E. run. rewrite Hsock. run. rewrite Hsock. run. now rewrite E.
Qed.

(** [disconnect] has no handler: an exception of [close] reaches the
    caller. *)
Lemma disconnect_close_failed (e : exn) :
  t_close T (calls s) h = Some e ->
  disconnect T s = (extend s [EvClose h (Some e)] [], inl e).
Proof.
  intros E. run. rewrite Hsock. run. rewrite Hsock. run. rewrite E.
  unfold extend. now rewrite app_nil_r.
Qed.

End Disconnect.

Lemma closed_app (h : handle) (evs evs' : list event) :
  closed h (evs ++ evs') = closed h evs || closed h evs'.
Proof. unfold closed. apply existsb_app. Qed.

(** With a transport whose [close] does not fail, [n] calls of
    [disconnect] on a connection that holds socket [h] close it [n] times
    and print the line [n] times. *)
Lemma disconnect_times_socket (T : transport) (h : handle) :
  (forall evs h', t_close T evs h' = None) ->
  forall n s,
    socket (self s) = Some h ->
    disconnect_times T n s
    = (extend s (repeat (EvClose h None) n)
         (repeat (PrDisconnected (ip (self s))) n), inr tt).
Proof.
  intros Hclose. induction n as [| n IH]; intros s Hsock.
  - cbn. now rewrite extend_nil.
  - cbn [disconnect_times]. unfold Eff.bind.
    rewrite (@disconnect_closed T s h Hsock (Hclose _ _)).
    rewrite IH by exact Hsock.
    now rewrite extend_extend.
Qed.

Lemma disconnect_times_no_socket (T : transport) :
  forall n s,
    socket (self s) = None -> disconnect_times T n s = (s, inr tt).
Proof.
  induction n as [| n IH]; intros s Hsock; [reflexivity |].
  cbn [disconnect_times]. unfold Eff.bind.
  rewrite (@disconnect_no_socket T s Hsock). now apply IH.
Qed.

(** A query whose write succeeded makes that write and one read. *)
Lemma query_written (T : transport) (s : state) (command : str)
  (h : handle) (data : bytes) :
  socket (self s) = Some h ->
  encode (terminate command) = Some data ->
  t_sendall T (calls s) h data = None ->
  exists lines v,
    query T command s
    = (extend s (round_trip T (calls s) h data) lines, inr v).
Proof.
  intros Hsock Henc Hsend. unfold round_trip, recv_result.
  destruct (t_recv T (calls s ++ [EvSendall h data None]) h)
    as [e | avail] eqn:Hrecv.
  { rewrite (@query_read_failed T s command h Hsock data Henc Hsend e Hrecv).
    to_extend. now eexists _, _. }
  destruct (decode (take BUFSIZE avail)) as [text |] eqn:Hdec.
  - rewrite (@query_answered T s command h Hsock data Henc Hsend avail Hrecv
               text Hdec).
    to_extend. now eexists _, _.
  - rewrite (@query_undecodable T s command h Hsock data Henc Hsend avail
               Hrecv Hdec).
    to_extend. now eexists _, _.
Qed.

End SocketFacts.

(** ** VISAConnection: how each method runs *)

Module VisaFacts.
Import Py Visa.

Ltac run :=
  unfold query, send_command, connect, disconnect, Eff.try_except, Eff.bind,
    Eff.ret, Eff.raise, Eff.gets, Eff.modify, self_instrument, self_rm,
    inst_write, inst_query, inst_close, rm_close, resource_manager,
    open_resource, assign_timeout, set_rm, set_instrument, unit_call,
    new_call, print;
  cbn [self calls stdout instrument rm resource_string timeout record emit
       fst snd app Datatypes.length].

Section Steps.

Variable L : library.
Variable s : state.
Variable command : str.

Lemma visa_send_no_instrument :
  instrument (self s) = None ->
  send_command L command s =
  (emit (PrSendError (AttributeError_NoneType "write")) s, inr tt).
Proof. intros E. run. now rewrite E. Qed.

Lemma visa_query_no_instrument :
  instrument (self s) = None ->
  query L command s =
  (emit (PrQueryError (AttributeError_NoneType "query")) s, inr None).
Proof. intros E. run. now rewrite E. Qed.

Variable i : handle.
Hypothesis Hinst : instrument (self s) = Some i.

Lemma visa_send_write_failed (e : exn) :
  v_write L (calls s) i command = Some e ->
  send_command L command s =
  (emit (PrSendError e) (record (EvWrite i command (Some e)) s), inr tt).
Proof. intros E. run. rewrite Hinst. run. now rewrite E. Qed.

Lemma visa_send_written :
  v_write L (calls s) i command = None ->
  send_command L command s =
  (emit (PrSent (strip command)) (record (EvWrite i command None) s),
   inr tt).
Proof. intros E. run. rewrite Hinst. run. now rewrite E. Qed.

Lemma visa_query_failed (e : exn) :
  v_query L (calls s) i command = inl e ->
  query L command s =
  (emit (PrQueryError e) (record (EvQuery i command (inl e)) s), inr None).
Proof. intros E. run. rewrite Hinst. run. now rewrite E. Qed.

Lemma visa_query_answered (text : str) :
  v_query L (calls s) i command = inr text ->
  query L command s =
  (emit (PrResponse (strip text))
     (emit (PrQuery (strip command))
        (record (EvQuery i command (inr text)) s)),
   inr (Some (strip text))).
Proof. intros E. run. rewrite Hinst. run. now rewrite E. Qed.

End Steps.

(** [send_command] returns None whatever pyvisa does. *)
Lemma visa_send_command_returns (L : library) (command : str) (s : state) :
  outcome (send_command L command s) = inr tt.
Proof.
  destruct (instrument (self s)) as [i |] eqn:Hinst.
  2:{ now rewrite (@visa_send_no_instrument L s command Hinst). }
  destruct (v_write L (calls s) i command) as [e |] eqn:Hw.
  - now rewrite (@visa_send_write_failed L s command i Hinst e Hw).
  - now rewrite (@visa_send_written L s command i Hinst Hw).
Qed.

(** [query] returns None, or the stripped text pyvisa's query returned. *)
Lemma visa_query_returns (L : library) (command : str) (s : state) :
  outcome (query L command s) = inr None
  \/ exists i text,
       instrument (self s) = Some i
       /\ v_query L (calls s) i command = inr text
       /\ outcome (query L command s) = inr (Some (strip text)).
Proof.
  destruct (instrument (self s)) as [i |] eqn:Hinst.
  2:{ left. now rewrite (@visa_query_no_instrument L s command Hinst). }
  destruct (v_query L (calls s) i command) as [e | text] eqn:Hq.
  - left. now rewrite (@visa_query_failed L s command i Hinst e Hq).
  - right. exists i, text.
    now rewrite (@visa_query_answered L s command i Hinst text Hq).
Qed.

Lemma visa_emit_record_extend (s : state) (l : line) (ev : event) :
  emit l (record ev s) = extend s [ev] [l].
Proof. reflexivity. Qed.

Lemma visa_emit_extend (s : state) (l : line) : emit l s = extend s [] [l].
Proof. unfold emit, extend. now rewrite app_nil_r. Qed.

(** Every call of [send_command] follows one of the paths of [send_path],
    and returns None. *)
Lemma visa_send_command_paths (L : library) (command : str) (s : state) :
  exists evs lines,
    send_command L command s = (extend s evs lines, inr tt)
    /\ send_path command evs lines.
Proof.
  destruct (instrument (self s)) as [i |] eqn:Hinst.
  2:{ rewrite (@visa_send_no_instrument L s command Hinst), visa_emit_extend.
      eexists _, _. split; [reflexivity | constructor]. }
  destruct (v_write L (calls s) i command) as [e |] eqn:Hw.
  - rewrite (@visa_send_write_failed L s command i Hinst e Hw), visa_emit_record_extend.
    eexists _, _. split; [reflexivity | constructor].
  - rewrite (@visa_send_written L s command i Hinst Hw), visa_emit_record_extend.
    eexists _, _. split; [reflexivity | constructor].
Qed.

(** [connect] on a connection just constructed follows one of the paths of
    [connect_path]; it returns a boolean and never raises. *)
Lemma visa_connect_paths (L : library) (name : str) (t : Z) :
  exists evs lines oi om b,
    connect L (fresh name t)
    = ({| self := {| resource_string := name; timeout := t;
                     instrument := oi; rm := om |};
          calls := evs; stdout := lines |}, inr b)
    /\ connect_path name t evs lines oi om b.
Proof.
  unfold fresh, init. run.
  destruct (v_resource_manager L []) as [e |] eqn:E0.
  { eexists _, _, _, _, _. split; [reflexivity | constructor]. }
  run.
  destruct (v_open_resource L [EvResourceManager (inr 0%nat)] 0%nat name)
    as [e |] eqn:E1.
  { eexists _, _, _, _, _. split; [reflexivity | constructor]. }
  run.
  destruct (v_set_timeout L
              [EvResourceManager (inr 0%nat);
               EvOpenResource 0 name (inr 1%nat)] 1%nat t) as [e |] eqn:E2.
  { eexists _, _, _, _, _. split; [reflexivity | constructor]. }
  eexists _, _, _, _, _. split; [reflexivity | constructor].
Qed.

(** From any state, [connect] returns a boolean and does not raise. *)
Lemma visa_connect_returns (L : library) (s : state) :
  exists b, outcome (connect L s) = inr b.
Proof.
  unfold outcome. run.
  destruct (v_resource_manager L (calls s)); run; [now exists false |].
  match goal with
  | |- context [v_open_resource L ?evs ?h ?n] =>
      destruct (v_open_resource L evs h n)
  end; run; [now exists false |].
  match goal with
  | |- context [v_set_timeout L ?evs ?h ?t] =>
      destruct (v_set_timeout L evs h t)
  end; run; [now exists false | now exists true].
Qed.

Lemma visa_extend_nil (s : state) : extend s [] [] = s.
Proof. destruct s. unfold extend. cbn. now rewrite !app_nil_r. Qed.

Lemma visa_extend_extend (s : state) e1 l1 e2 l2 :
  extend (extend s e1 l1) e2 l2 = extend s (e1 ++ e2) (l1 ++ l2).
Proof. unfold extend. cbn. now rewrite !app_assoc. Qed.

Section Disconnect.

Variable L : library.
Hypothesis Hinst : forall evs h, v_close_instrument L evs h = None.
Hypothesis Hrm : forall evs h, v_close_manager L evs h = None.

(** With closes that do not fail, [disconnect] closes what the
    connection holds and returns. *)
Lemma visa_disconnect_runs (s : state) :
  disconnect L s
  = (extend s (disconnect_calls (self s)) (disconnect_lines (self s)),
     inr tt).
Proof.
  unfold disconnect_calls, disconnect_lines, extend. run.
  destruct s as [[name t oi om] evs lines]. cbn.
  destruct oi as [i |], om as [m |]; cbn; rewrite ?Hinst; cbn;
    rewrite ?Hrm; unfold record, emit; cbn;
    rewrite ?app_nil_r, <- ?app_assoc; reflexivity.
Qed.

Lemma visa_disconnect_times_runs (n : nat) (s : state) :
  disconnect_times L n s
  = (extend s (List.concat (repeat (disconnect_calls (self s)) n))
       (List.concat (repeat (disconnect_lines (self s)) n)), inr tt).
Proof.
  revert s. induction n as [| n IH]; intros s.
  - cbn. now rewrite visa_extend_nil.
  - cbn [disconnect_times repeat List.concat]. unfold Eff.bind.
    rewrite visa_disconnect_runs, IH. cbn [self extend].
    now rewrite visa_extend_extend.
Qed.

End Disconnect.

End VisaFacts.

(** ** The model on concrete inputs *)

Module Checks.
Import Py.

Example strip_reply :
  strip (lit "  100.000000 " ++ [13; 10]%N) = lit "100.000000".
Proof. reflexivity. Qed.

Example strip_blank : strip (lit "   ") = [].
Proof. reflexivity. Qed.

Example strip_inner : strip (lit " VOLT:AC 100 ") = lit "VOLT:AC 100".
Proof. reflexivity. Qed.

Example encode_latin : encode [0xE9%N] = Some [xc3; xa9].
Proof. reflexivity. Qed.

Example encode_euro : encode [0x20AC%N] = Some [xe2; x82; xac].
Proof. reflexivity. Qed.

Example encode_astral : encode [0x1F600%N] = Some [xf0; x9f; x98; x80].
Proof. reflexivity. Qed.

Example encode_surrogate : encode [0xD800%N] = None.
Proof. reflexivity. Qed.

Example decode_overlong : decode [xc0; x80] = None.
Proof. reflexivity. Qed.

Example decode_surrogate : decode [xed; xa0; x80] = None.
Proof. reflexivity. Qed.

Example decode_truncated : decode [xe2; x82] = None.
Proof. reflexivity. Qed.

Example decode_beyond : decode [xf4; x90; x80; x80] = None.
Proof. reflexivity. Qed.

Example terminate_missing :
  Socket.terminate (lit "OUTP 1") = lit "OUTP 1" ++ [LF].
Proof. reflexivity. Qed.

Example terminate_present :
  Socket.terminate (lit "OUTP 1" ++ [LF]) = lit "OUTP 1" ++ [LF].
Proof. reflexivity. Qed.

Example terminate_empty : Socket.terminate [] = [LF].
Proof. reflexivity. Qed.

(** The scenario against the scripted double: every call returns the text
    of the script, without the terminator, and the transport sees the
    calls in program order. *)
Example scenario_runs :
  Demo.scenario (Socket.tcp true Demo.replies) Demo.created
  = ({| Socket.self :=
          {| Socket.ip := Demo.ip; Socket.port := 5025;
             Socket.timeout := 5; Socket.socket := Some 0%nat |};
        Socket.calls :=
          [Socket.EvSocket (inr 0%nat);
           Socket.EvSetTimeout 0 5 None;
           Socket.EvConnect 0 Demo.ip 5025 None;
           Socket.EvSendall 0 (Demo.ascii_bytes "OUTP 1" ++ [LF_byte]) None;
           Socket.EvSendall 0 Demo.opc_data None;
           Socket.EvRecv 0 65535 (inr Demo.opc_reply);
           Socket.EvSendall 0 Demo.meas_volt_data None;
           Socket.EvRecv 0 65535 (inr Demo.volt_reply)];
        Socket.stdout :=
          [Socket.PrConnected Demo.ip 5025;
           Socket.PrSent (lit "OUTP 1");
           Socket.PrQuery (lit "*OPC?");
           Socket.PrResponse (lit "1");
           Socket.PrQuery (lit "MEAS:VOLT?");
           Socket.PrResponse (lit "100.000000")] |},
     inr (true, Some (lit "1"), Some (lit "100.000000"))).
Proof. reflexivity. Qed.

(** The same program when the connection is refused: every later call
    tries its write on the unconnected socket and returns None. *)
Example scenario_refused :
  snd (Demo.scenario (Socket.tcp false []) Demo.created)
  = inr (false, None, None)
  /\ Socket.stdout (fst (Demo.scenario (Socket.tcp false []) Demo.created))
     = [Socket.PrConnectionError (OSError 111);
        Socket.PrSendError (OSError 32);
        Socket.PrQueryError (OSError 32);
        Socket.PrQueryError (OSError 32)].
Proof. split; reflexivity. Qed.

(** The long reply has 70000 bytes, of which a read keeps 65535. *)
Example long_reply_cut :
  N.of_nat (List.length Demo.long_reply) = 70000%N
  /\ N.of_nat (List.length (Socket.take Socket.BUFSIZE Demo.long_reply))
     = 65535%N.
Proof. split; vm_compute; reflexivity. Qed.

End Checks.

(** * The claims *)

Import Py.

(** C10.  Whatever the command and whatever the transport does, exceptions
    it raises included, send_command and query do not raise: send_command
    returns None, and query returns None or the decoded, stripped text of
    the bytes its read received (SocketConnection) or of the text pyvisa's
    query returned (VISAConnection). *)
Theorem C10_send_and_query_never_raise :
  (forall T command s,
     Socket.outcome (Socket.send_command T command s) = inr tt)
  /\ (forall T command s,
        Socket.outcome (Socket.query T command s) = inr None
        \/ exists h raw text,
             In (Socket.EvRecv h Socket.BUFSIZE (inr raw))
                (Socket.new_calls s
                   (Socket.final (Socket.query T command s)))
             /\ decode raw = Some text
             /\ Socket.outcome (Socket.query T command s)
                = inr (Some (strip text)))
  /\ (forall L command s,
        Visa.outcome (Visa.send_command L command s) = inr tt)
  /\ (forall L command s,
        Visa.outcome (Visa.query L command s) = inr None
        \/ exists i text,
             Visa.instrument (Visa.self s) = Some i
             /\ Visa.v_query L (Visa.calls s) i command = inr text
             /\ Visa.outcome (Visa.query L command s)
                = inr (Some (strip text))).
Proof.
  split; [| split; [| split]].
  - intros T command s.
    destruct (SocketFacts.send_command_paths T command s)
      as (evs & lines & E & _).
    now rewrite E.
  - intros T command s.
    destruct (SocketFacts.query_paths T command s)
      as (evs & lines & v & E & P).
    rewrite E. unfold Socket.final, Socket.outcome. cbn [fst snd].
    rewrite SocketFacts.new_calls_extend.
    destruct P; try (left; reflexivity).
    right. exists h, raw, text. cbn [In]. auto.
  - apply VisaFacts.visa_send_command_returns.
  - apply VisaFacts.visa_query_returns.
Qed.

(** *** C5: the response *)

Module ResponseFacts.
Import Py.

(** The white space of the specification is that of [str.isspace]. *)
Lemma is_white_isspace (c : codepoint) : Response.is_white c = isspace c.
Proof.
  unfold Response.is_white, Response.white_space, isspace.
  cbn [existsb]. rewrite orb_false_r.
  apply Bool.eq_iff_eq_true.
  rewrite !orb_true_iff, !andb_true_iff, !N.eqb_eq, !N.leb_le.
  lia.
Qed.

Lemma blank_cons (c : codepoint) (s : str) :
  Response.blank (c :: s) = isspace c && Response.blank s.
Proof. cbn [Response.blank forallb]. now rewrite is_white_isspace. Qed.

Lemma blank_app (a b : str) :
  Response.blank (a ++ b) = Response.blank a && Response.blank b.
Proof. apply forallb_app. Qed.

Lemma blank_rev (s : str) : Response.blank (rev s) = Response.blank s.
Proof.
  induction s as [| c r IH]; [reflexivity |].
  cbn [rev]. rewrite blank_app, IH.
  cbn [Response.blank forallb]. rewrite andb_true_r. apply andb_comm.
Qed.

(** What [lstrip] takes off is white space. *)
Lemma lstrip_blank_prefix (s : str) :
  exists p, s = p ++ lstrip s /\ Response.blank p = true.
Proof.
  induction s as [| c r (p & IH & Hp)]; cbn [lstrip].
  - now exists [].
  - destruct (isspace c) eqn:E.
    + exists (c :: p). cbn [app]. rewrite <- IH, blank_cons, E, Hp.
      now split.
    + now exists [].
Qed.

(** What [rstrip] takes off is white space. *)
Lemma rstrip_blank_suffix (s : str) :
  exists q, s = rstrip s ++ q /\ Response.blank q = true.
Proof.
  unfold rstrip.
  destruct (lstrip_blank_prefix (rev s)) as (p & E & Hp).
  exists (rev p). split.
  - rewrite <- rev_app_distr, <- E. symmetry. apply rev_involutive.
  - now rewrite blank_rev.
Qed.

Lemma strip_ends (s : str) : ends_nonspace (strip s).
Proof.
  unfold strip.
  destruct (PyFacts.lstrip_suffix (rstrip s)) as [p Hp].
  apply (PyFacts.ends_nonspace_suffix p). rewrite <- Hp.
  apply PyFacts.rstrip_ends.
Qed.

Lemma strip_trimmed (s : str) : Response.trimmed (strip s) = true.
Proof.
  unfold Response.trimmed. apply andb_true_iff. split.
  - generalize (PyFacts.lstrip_head (rstrip s)). fold (strip s).
    destruct (strip s) as [| c r]; [reflexivity |].
    intros E. now rewrite is_white_isspace, E.
  - generalize (strip_ends s). unfold ends_nonspace.
    destruct (rev (strip s)) as [| c r]; [reflexivity |].
    intros E. now rewrite is_white_isspace, E.
Qed.

(** [strip] takes off the white space around its argument, and nothing
    else. *)
Lemma strip_stripped_of (s : str) : Response.stripped_of s (strip s).
Proof.
  destruct (rstrip_blank_suffix s) as (q & Eq & Hq).
  destruct (lstrip_blank_prefix (rstrip s)) as (p & Ep & Hp).
  exists p, q. fold (strip s) in Ep.
  split; [| split; [exact Hp | split; [exact Hq | apply strip_trimmed]]].
  rewrite app_assoc, <- Ep. exact Eq.
Qed.

(** A text without white space at its ends is returned as it is. *)
Lemma trimmed_strip (s : str) : Response.trimmed s = true -> strip s = s.
Proof.
  unfold Response.trimmed. intros H. apply andb_true_iff in H.
  destruct H as [Hl Hr]. apply PyFacts.strip_fixed.
  - destruct s as [| c r]; [reflexivity |].
    rewrite is_white_isspace in Hl. cbn [lstrip].
    now destruct (isspace c).
  - unfold ends_nonspace. destruct (rev s) as [| c r]; [exact I |].
    rewrite is_white_isspace in Hr. now destruct (isspace c).
Qed.

(** The text a query returns when the write succeeded and the bytes that
    [recv] handed over decode. *)
Lemma query_received (T : Socket.transport) (s : Socket.state)
  (command : str) (h : Socket.handle) (data payload : bytes) (text : str) :
  Socket.socket (Socket.self s) = Some h ->
  encode (Socket.terminate command) = Some data ->
  Socket.t_sendall T (Socket.calls s) h data = None ->
  Socket.recv_result T (Socket.calls s ++ [Socket.EvSendall h data None]) h
    Socket.BUFSIZE = inr payload ->
  decode payload = Some text ->
  Socket.outcome (Socket.query T command s) = inr (Some (strip text)).
Proof.
  intros Hsock Henc Hsend Hrecv Hdec. unfold Socket.recv_result in Hrecv.
  destruct (Socket.t_recv T (Socket.calls s ++ [Socket.EvSendall h data None])
              h) as [e | avail] eqn:Ht; [discriminate |].
  assert (Hp : Socket.take Socket.BUFSIZE avail = payload) by congruence.
  rewrite <- Hp in Hdec.
  now rewrite (@SocketFacts.query_answered T s command h Hsock data Henc
                 Hsend avail Ht text Hdec).
Qed.

End ResponseFacts.

(** C5.  When the read of a query returns a payload of the form
    "<value>\n" (the UTF-8 bytes of value followed by the terminator),
    SocketConnection.query returns a text r that is value with the
    terminator and all surrounding white space taken off: value is r
    between two runs of white space, r has white space at neither end, and
    r is value itself when value has none around it.
    VISAConnection.query does the same with the text "<value>\n" that
    pyvisa's query returns. *)
Theorem C5_query_strips_terminator :
  (forall T s command h data value payload,
     Socket.socket (Socket.self s) = Some h ->
     encode (Socket.terminate command) = Some data ->
     Socket.t_sendall T (Socket.calls s) h data = None ->
     Socket.recv_result T (Socket.calls s ++ [Socket.EvSendall h data None])
       h Socket.BUFSIZE = inr payload ->
     encode (value ++ [LF]) = Some payload ->
     exists r,
       Socket.outcome (Socket.query T command s) = inr (Some r)
       /\ Response.stripped_of value r
       /\ (Response.trimmed value = true -> r = value))
  /\ (forall L s command i value,
        Visa.instrument (Visa.self s) = Some i ->
        Visa.v_query L (Visa.calls s) i command = inr (value ++ [LF]) ->
        exists r,
          Visa.outcome (Visa.query L command s) = inr (Some r)
          /\ Response.stripped_of value r
          /\ (Response.trimmed value = true -> r = value)).
Proof.
  split.
  - intros T s command h data value payload Hsock Henc Hsend Hrecv Hpay.
    exists (strip value). split; [| split].
    + rewrite (@ResponseFacts.query_received T s command h data payload
                 (value ++ [LF]) Hsock Henc Hsend Hrecv).
      * now rewrite PyFacts.strip_snoc_LF.
      * now apply PyFacts.decode_encode.
    + apply ResponseFacts.strip_stripped_of.
    + apply ResponseFacts.trimmed_strip.
  - intros L s command i value Hinst Hq.
    exists (strip value). split; [| split].
    + rewrite (@VisaFacts.visa_query_answered L s command i Hinst _ Hq).
      unfold Visa.outcome. cbn [snd].
      now rewrite PyFacts.strip_snoc_LF.
    + apply ResponseFacts.strip_stripped_of.
    + apply ResponseFacts.trimmed_strip.
Qed.

(** The scenario of the specification, MEAS:VOLT? answered by
    "100.000000\n", and the same value sent with white space around it:
    both queries return "100.000000". *)
Lemma C5_query_strips_terminator_witness :
  Socket.outcome
    (Socket.query (Socket.tcp true [inr Demo.volt_reply]) Demo.meas_volt
       (Demo.online [inr Demo.volt_reply]))
  = inr (Some (lit "100.000000"))
  /\ Socket.outcome
       (Socket.query (Socket.tcp true [inr Play.padded_reply]) Demo.meas_volt
          (Demo.online [inr Play.padded_reply]))
     = inr (Some (lit "100.000000"))
  /\ Response.stripped_of Play.padded_value (lit "100.000000")
  /\ Visa.outcome
       (Visa.query (Visa.bench true [inr (Demo.volt_value ++ [LF])])
          Demo.meas_volt
          (Demo.visa_online [inr (Demo.volt_value ++ [LF])]))
     = inr (Some (lit "100.000000")).
Proof.
  split; [| split; [| split]].
  - destruct (proj1 C5_query_strips_terminator
                (Socket.tcp true [inr Demo.volt_reply])
                (Demo.online [inr Demo.volt_reply]) Demo.meas_volt
                0%nat Demo.meas_volt_data Demo.volt_value Demo.volt_reply
                eq_refl eq_refl eq_refl eq_refl eq_refl)
      as (r & E & _ & Hv).
    rewrite E, (Hv eq_refl). reflexivity.
  - reflexivity.
  - destruct (proj1 C5_query_strips_terminator
                (Socket.tcp true [inr Play.padded_reply])
                (Demo.online [inr Play.padded_reply]) Demo.meas_volt
                0%nat Demo.meas_volt_data Play.padded_value
                Play.padded_reply
                eq_refl eq_refl eq_refl eq_refl eq_refl)
      as (r & E & Hs & _).
    assert (Er : r = lit "100.000000").
    { change (Socket.outcome
                (Socket.query (Socket.tcp true [inr Play.padded_reply])
                   Demo.meas_volt (Demo.online [inr Play.padded_reply])))
        with (@inr exn _ (Some (lit "100.000000"))) in E.
      congruence. }
    now rewrite <- Er.
  - destruct (proj2 C5_query_strips_terminator
                (Visa.bench true [inr (Demo.volt_value ++ [LF])])
                (Demo.visa_online [inr (Demo.volt_value ++ [LF])])
                Demo.meas_volt 1%nat Demo.volt_value eq_refl eq_refl)
      as (r & E & _ & Hv).
    rewrite E, (Hv eq_refl). reflexivity.
Defined.

(** C9.  The response buffer of query is bounded by 65535 bytes: a query
    whose write succeeded issues one recv(65535); whatever the length of the
    response that is available, the read hands over its first 65535 bytes at
    most, and the value query returns is the decoded, stripped text of those
    bytes alone (None when they do not decode).  No call of query issues
    more than one read, so a longer response is never reassembled. *)
Theorem C9_query_single_bounded_read :
  (forall T s command h data avail,
     Socket.socket (Socket.self s) = Some h ->
     encode (Socket.terminate command) = Some data ->
     Socket.t_sendall T (Socket.calls s) h data = None ->
     Socket.t_recv T (Socket.calls s ++ [Socket.EvSendall h data None]) h
     = inr avail ->
     Socket.new_calls s (Socket.final (Socket.query T command s))
     = [Socket.EvSendall h data None;
        Socket.EvRecv h Socket.BUFSIZE
          (inr (firstn (N.to_nat Socket.BUFSIZE) avail))]
     /\ (List.length (firstn (N.to_nat Socket.BUFSIZE) avail)
         <= N.to_nat Socket.BUFSIZE)%nat
     /\ Socket.outcome (Socket.query T command s)
        = inr (option_map strip
                 (decode (firstn (N.to_nat Socket.BUFSIZE) avail))))
  /\ (forall T s command,
        (List.length
           (filter Socket.is_read
              (Socket.new_calls s (Socket.final (Socket.query T command s))))
         <= 1)%nat
        /\ forall h n r,
             In (Socket.EvRecv h n r)
                (Socket.new_calls s
                   (Socket.final (Socket.query T command s))) ->
             n = Socket.BUFSIZE).
Proof.
  split.
  - intros T s command h data avail Hsock Henc Hsend Hrecv.
    change (firstn (N.to_nat Socket.BUFSIZE) avail)
      with (Socket.take Socket.BUFSIZE avail).
    split; [| split; [apply PyFacts.take_length |]].
    + destruct (decode (Socket.take Socket.BUFSIZE avail)) as [text |] eqn:Hd.
      * rewrite (@SocketFacts.query_answered T s command h Hsock data Henc
                   Hsend avail Hrecv text Hd).
        SocketFacts.to_extend. unfold Socket.final. cbn [fst].
        apply SocketFacts.new_calls_extend.
      * rewrite (@SocketFacts.query_undecodable T s command h Hsock data Henc
                   Hsend avail Hrecv Hd).
        SocketFacts.to_extend. unfold Socket.final. cbn [fst].
        apply SocketFacts.new_calls_extend.
    + destruct (decode (Socket.take Socket.BUFSIZE avail)) as [text |] eqn:Hd.
      * now rewrite (@SocketFacts.query_answered T s command h Hsock data
                       Henc Hsend avail Hrecv text Hd).
      * now rewrite (@SocketFacts.query_undecodable T s command h Hsock data
                       Henc Hsend avail Hrecv Hd).
  - intros T s command.
    destruct (SocketFacts.query_paths T command s)
      as (evs & lines & v & E & P).
    rewrite E. unfold Socket.final. cbn [fst].
    rewrite SocketFacts.new_calls_extend.
    split.
    + destruct P; cbn; lia.
    + intros h0 n r Hin.
      destruct P; cbn [In] in Hin;
        repeat match goal with
        | H : _ \/ _ |- _ => destruct H
        | H : False |- _ => destruct H
        | H : _ = Socket.EvRecv _ _ _ |- _ => inversion H; clear H
        end; reflexivity.
Qed.

(** A reply of 70000 bytes: the read keeps 65535 of them. *)
Lemma C9_query_single_bounded_read_witness :
  Socket.new_calls (Demo.online [inr Demo.long_reply])
    (Socket.final
       (Socket.query (Socket.tcp true [inr Demo.long_reply]) Demo.meas_volt
          (Demo.online [inr Demo.long_reply])))
  = [Socket.EvSendall 0 Demo.meas_volt_data None;
     Socket.EvRecv 0 Socket.BUFSIZE
       (inr (firstn (N.to_nat Socket.BUFSIZE) Demo.long_reply))]
  /\ (List.length (firstn (N.to_nat Socket.BUFSIZE) Demo.long_reply)
      <= N.to_nat Socket.BUFSIZE)%nat
  /\ Socket.outcome
       (Socket.query (Socket.tcp true [inr Demo.long_reply]) Demo.meas_volt
          (Demo.online [inr Demo.long_reply]))
     = inr (option_map strip
              (decode (firstn (N.to_nat Socket.BUFSIZE) Demo.long_reply))).
Proof.
  apply (proj1 C9_query_single_bounded_read
           (Socket.tcp true [inr Demo.long_reply])
           (Demo.online [inr Demo.long_reply]) Demo.meas_volt 0%nat
           Demo.meas_volt_data Demo.long_reply);
    reflexivity.
Defined.

(** The claim as the specification words it fails for a response longer
    than the bound: query does not return its first 65535 bytes.  The
    reply here is valid UTF-8, 65538 bytes long; the one read hands over
    65535 of them, which end inside the euro sign, so decode raises and
    query prints the error and returns None. *)
Lemma C9_counterexample :
  decode Play.split_reply = Some Play.split_text
  /\ (N.to_nat Socket.BUFSIZE <? List.length Play.split_reply)%nat = true
  /\ Socket.query (Socket.tcp true [inr Play.split_reply]) Demo.meas_volt
       (Demo.online [inr Play.split_reply])
     = (Socket.extend (Demo.online [inr Play.split_reply])
          [Socket.EvSendall 0 Demo.meas_volt_data None;
           Socket.EvRecv 0 Socket.BUFSIZE
             (inr (repeat x41 (N.to_nat 65534) ++ [xe2]))]
          [Socket.PrQuery Demo.meas_volt;
           Socket.PrQueryError UnicodeDecodeError],
        inr None).
Proof. repeat split; vm_compute; reflexivity. Qed.

(** *** C1: framing *)

Lemma terminate_cases (command : str) :
  (endswith_LF command = true -> Socket.terminate command = command)
  /\ (endswith_LF command = false ->
      Socket.terminate command = command ++ [LF]).
Proof.
  unfold Socket.terminate.
  split; intros E; now rewrite E.
Qed.

Lemma terminate_snoc (command : str) :
  exists p, Socket.terminate command = p ++ [LF].
Proof.
  unfold Socket.terminate.
  destruct (endswith_LF command) eqn:E.
  - now apply PyFacts.endswith_LF_true.
  - now exists command.
Qed.

(** A command without a terminator inside is framed as its text followed
    by one terminator, whether or not the caller supplied the final one. *)
Lemma terminate_plain (command text : str) :
  ~ In LF text ->
  command = text \/ command = text ++ [LF] ->
  Socket.terminate command = text ++ [LF].
Proof.
  intros Hn [-> | ->]; unfold Socket.terminate.
  - destruct (endswith_LF text) eqn:E; [| reflexivity].
    apply PyFacts.endswith_LF_true in E as [p ->].
    exfalso. apply Hn, in_or_app. right. now left.
  - now rewrite PyFacts.endswith_LF_snoc.
Qed.

Lemma sent_by_send_command T command s h data r :
  In (Socket.EvSendall h data r)
     (Socket.new_calls s (Socket.final (Socket.send_command T command s))) ->
  encode (Socket.terminate command) = Some data.
Proof.
  destruct (SocketFacts.send_command_paths T command s)
    as (evs & lines & E & P).
  rewrite E. unfold Socket.final. cbn [fst].
  rewrite SocketFacts.new_calls_extend.
  destruct P; cbn [In]; intros Hin;
    repeat match goal with
    | H : _ \/ _ |- _ => destruct H
    | H : False |- _ => destruct H
    | H : _ = Socket.EvSendall _ _ _ |- _ => inversion H; clear H; subst
    end; assumption.
Qed.

Lemma sent_by_query T command s h data r :
  In (Socket.EvSendall h data r)
     (Socket.new_calls s (Socket.final (Socket.query T command s))) ->
  encode (Socket.terminate command) = Some data.
Proof.
  destruct (SocketFacts.query_paths T command s)
    as (evs & lines & v & E & P).
  rewrite E. unfold Socket.final. cbn [fst].
  rewrite SocketFacts.new_calls_extend.
  destruct P; cbn [In]; intros Hin;
    repeat match goal with
    | H : _ \/ _ |- _ => destruct H
    | H : False |- _ => destruct H
    | H : _ = Socket.EvSendall _ _ _ |- _ => inversion H; clear H; subst
    | H : _ = Socket.EvRecv _ _ _ |- _ => discriminate H
    end; assumption.
Qed.

(** C1, as the code has it.  Whenever send_command or query transmits, the
    bytes are the UTF-8 encoding of the command when it already ends in
    '\n' and of the command followed by one '\n' otherwise: they end in
    '\n', and a terminator is appended exactly when the final one is
    missing, never a second one.  When the command holds no '\n' other than
    a single final one, the transmitted bytes hold exactly one '\n', their
    last byte. *)
Theorem C1_terminator_appended_once :
  forall T command s h data r,
    In (Socket.EvSendall h data r)
       (Socket.new_calls s (Socket.final (Socket.send_command T command s)))
    \/ In (Socket.EvSendall h data r)
          (Socket.new_calls s (Socket.final (Socket.query T command s))) ->
    encode (Socket.terminate command) = Some data
    /\ (exists body, data = body ++ [LF_byte])
    /\ (endswith_LF command = true -> Socket.terminate command = command)
    /\ (endswith_LF command = false ->
        Socket.terminate command = command ++ [LF])
    /\ (forall text,
          ~ In LF text ->
          command = text \/ command = text ++ [LF] ->
          Socket.one_terminator data).
Proof.
  intros T command s h data r Hin.
  assert (Henc : encode (Socket.terminate command) = Some data).
  { destruct Hin as [Hin | Hin];
      [eapply sent_by_send_command | eapply sent_by_query]; exact Hin. }
  split; [exact Henc |].
  split.
  { destruct (terminate_snoc command) as [p Hp]. rewrite Hp in Henc.
    apply PyFacts.encode_snoc_LF in Henc as (d0 & _ & ->). now exists d0. }
  split; [apply terminate_cases |].
  split; [apply terminate_cases |].
  intros text Hn Hc.
  rewrite (terminate_plain Hn Hc) in Henc.
  apply PyFacts.encode_snoc_LF in Henc as (d0 & Hd0 & ->).
  exists d0. split; [reflexivity |].
  intros Hb. apply Hn. exact (PyFacts.encode_In_LF _ Hd0 Hb).
Qed.

(** OUTP 1, sent on a connected channel. *)
Lemma C1_terminator_appended_once_witness :
  encode (Socket.terminate (lit "OUTP 1"))
  = Some (Demo.ascii_bytes "OUTP 1" ++ [LF_byte])
  /\ (exists body, Demo.ascii_bytes "OUTP 1" ++ [LF_byte] = body ++ [LF_byte])
  /\ (endswith_LF (lit "OUTP 1") = true ->
      Socket.terminate (lit "OUTP 1") = lit "OUTP 1")
  /\ (endswith_LF (lit "OUTP 1") = false ->
      Socket.terminate (lit "OUTP 1") = lit "OUTP 1" ++ [LF])
  /\ (forall text,
        ~ In LF text ->
        lit "OUTP 1" = text \/ lit "OUTP 1" = text ++ [LF] ->
        Socket.one_terminator (Demo.ascii_bytes "OUTP 1" ++ [LF_byte])).
Proof.
  apply (@C1_terminator_appended_once (Socket.tcp true []) (lit "OUTP 1")
           (Demo.online []) 0%nat
           (Demo.ascii_bytes "OUTP 1" ++ [LF_byte]) None).
  left. vm_compute. left. reflexivity.
Defined.

(** The claim as the specification words it fails: a command that already
    ends in two terminators is transmitted with both. *)
Lemma C1_counterexample :
  Socket.new_calls (Demo.online [])
    (Socket.final
       (Socket.send_command (Socket.tcp true []) (lit "OUTP 1" ++ [LF; LF])
          (Demo.online [])))
  = [Socket.EvSendall 0 (Demo.ascii_bytes "OUTP 1" ++ [LF_byte; LF_byte])
       None]
  /\ ~ Socket.one_terminator (Demo.ascii_bytes "OUTP 1" ++ [LF_byte; LF_byte]).
Proof.
  split; [reflexivity |].
  intros (body & E & Hn).
  change (Demo.ascii_bytes "OUTP 1" ++ [LF_byte; LF_byte])
    with ((Demo.ascii_bytes "OUTP 1" ++ [LF_byte]) ++ [LF_byte]) in E.
  apply app_inj_tail in E as [E _]. subst body.
  apply Hn, in_or_app. right. now left.
Qed.

(** *** C2: a connection that was never connected *)

(** C2, as the code has it.  On a connection whose socket was never created
    (as after construction), send_command and query make no call into the
    transport: the lookup of the method on None raises AttributeError, the
    handler prints it, and the call returns None; the connection object is
    unchanged.  No exception and no error value reaches the caller. *)
Theorem C2_never_connected_no_io :
  forall T command s,
    Socket.socket (Socket.self s) = None ->
    Socket.send_command T command s
    = (Socket.emit
         (Socket.PrSendError (AttributeError_NoneType "sendall")) s, inr tt)
    /\ Socket.query T command s
       = (Socket.emit
            (Socket.PrQueryError (AttributeError_NoneType "sendall")) s,
          inr None)
    /\ Socket.new_calls s (Socket.final (Socket.send_command T command s))
       = []
    /\ Socket.new_calls s (Socket.final (Socket.query T command s)) = [].
Proof.
  intros T command s Hsock.
  rewrite (@SocketFacts.send_no_socket T s command Hsock),
    (@SocketFacts.query_no_socket T s command Hsock).
  repeat split; unfold Socket.final; cbn [fst];
    rewrite SocketFacts.emit_extend; apply SocketFacts.new_calls_extend.
Qed.

Lemma C2_never_connected_no_io_witness :
  Socket.send_command (Socket.tcp true []) (lit "OUTP 1") Demo.created
  = (Socket.emit
       (Socket.PrSendError (AttributeError_NoneType "sendall")) Demo.created,
     inr tt)
  /\ Socket.query (Socket.tcp true []) (lit "OUTP 1") Demo.created
     = (Socket.emit
          (Socket.PrQueryError (AttributeError_NoneType "sendall"))
          Demo.created, inr None)
  /\ Socket.new_calls Demo.created
       (Socket.final
          (Socket.send_command (Socket.tcp true []) (lit "OUTP 1")
             Demo.created)) = []
  /\ Socket.new_calls Demo.created
       (Socket.final
          (Socket.query (Socket.tcp true []) (lit "OUTP 1") Demo.created))
     = [].
Proof.
  apply (@C2_never_connected_no_io (Socket.tcp true []) (lit "OUTP 1")
           Demo.created).
  reflexivity.
Defined.

(** The claim as the specification words it fails: the caller of
    send_command on a never-connected connection receives what the caller
    of a successful send receives, None, and the caller of query receives
    the None that a connected channel gives when the instrument stays
    silent; no not-connected error reaches either. *)
Lemma C2_counterexample :
  Socket.outcome
    (Socket.send_command (Socket.tcp true []) (lit "OUTP 1") Demo.created)
  = inr tt
  /\ Socket.send_command (Socket.tcp true []) (lit "OUTP 1") (Demo.online [])
     = (Socket.extend (Demo.online [])
          [Socket.EvSendall 0 (Demo.ascii_bytes "OUTP 1" ++ [LF_byte]) None]
          [Socket.PrSent (lit "OUTP 1")], inr tt)
  /\ Socket.outcome
       (Socket.query (Socket.tcp true []) Demo.meas_volt Demo.created)
     = inr None
  /\ Socket.query (Socket.tcp true []) Demo.meas_volt (Demo.online [])
     = (Socket.extend (Demo.online [])
          [Socket.EvSendall 0 Demo.meas_volt_data None;
           Socket.EvRecv 0 Socket.BUFSIZE (inl TimeoutError)]
          [Socket.PrQuery Demo.meas_volt; Socket.PrQueryError TimeoutError],
        inr None).
Proof. repeat split. Qed.

(** *** C3: what becomes of a failure *)

(** C3, as the code has it.  send_command and query never retry: a call
    makes at most one write and at most one read, along one of the paths of
    [send_path] and [query_path].  On every failure (no socket, text that
    cannot be encoded, write failure, read failure, bytes that cannot be
    decoded) the exception is caught, one error line carrying it is
    printed, the connection object is left as it was and None is returned:
    send_command returns None on success as well, and query returns the
    same None for every cause.  The same holds for
    VISAConnection.send_command. *)
Theorem C3_failures_printed_not_returned :
  (forall T command s,
     exists evs lines,
       Socket.send_command T command s = (Socket.extend s evs lines, inr tt)
       /\ Socket.send_path command evs lines
       /\ (List.length (filter Socket.is_write evs) <= 1)%nat
       /\ filter Socket.is_read evs = [])
  /\ (forall T command s,
        exists evs lines v,
          Socket.query T command s = (Socket.extend s evs lines, inr v)
          /\ Socket.query_path command evs lines v
          /\ (List.length (filter Socket.is_write evs) <= 1)%nat
          /\ (List.length (filter Socket.is_read evs) <= 1)%nat)
  /\ (forall L command s,
        exists evs lines,
          Visa.send_command L command s = (Visa.extend s evs lines, inr tt)
          /\ Visa.send_path command evs lines
          /\ (List.length evs <= 1)%nat).
Proof.
  split; [| split].
  - intros T command s.
    destruct (SocketFacts.send_command_paths T command s)
      as (evs & lines & E & P).
    exists evs, lines. repeat split; try assumption;
      destruct P; cbn; auto.
  - intros T command s.
    destruct (SocketFacts.query_paths T command s)
      as (evs & lines & v & E & P).
    exists evs, lines, v. repeat split; try assumption;
      destruct P; cbn; auto.
  - intros L command s.
    destruct (VisaFacts.visa_send_command_paths L command s)
      as (evs & lines & E & P).
    exists evs, lines. repeat split; try assumption.
    destruct P; cbn; auto.
Qed.

(** The claim as the specification words it fails: a query on a
    connection that was never connected, a query whose write fails and a
    query whose read fails return the same value, None, and a send_command
    whose write fails returns what a successful one returns. *)
Lemma C3_counterexample :
  Socket.query (Socket.tcp true []) (lit "*OPC?") Demo.created
  = (Socket.extend Demo.created []
       [Socket.PrQueryError (AttributeError_NoneType "sendall")], inr None)
  /\ Socket.query (Socket.tcp false []) (lit "*OPC?") Demo.refused
     = (Socket.extend Demo.refused
          [Socket.EvSendall 0 (Demo.ascii_bytes "*OPC?" ++ [LF_byte])
             (Some (OSError 32))]
          [Socket.PrQueryError (OSError 32)], inr None)
  /\ Socket.query (Socket.tcp true []) (lit "*OPC?") (Demo.online [])
     = (Socket.extend (Demo.online [])
          [Socket.EvSendall 0 (Demo.ascii_bytes "*OPC?" ++ [LF_byte]) None;
           Socket.EvRecv 0 Socket.BUFSIZE (inl TimeoutError)]
          [Socket.PrQuery (lit "*OPC?"); Socket.PrQueryError TimeoutError],
        inr None)
  /\ Socket.outcome
       (Socket.send_command (Socket.tcp false []) (lit "OUTP 1") Demo.refused)
     = Socket.outcome
         (Socket.send_command (Socket.tcp true []) (lit "OUTP 1")
            (Demo.online [])).
Proof. repeat split. Qed.

(** *** C4: a read that times out *)

(** C4, as the code has it.  When the read of a query raises, by timeout or
    otherwise, the one handler of query prints a query-error line carrying
    the exception and returns None; it does the same when the bytes received
    do not decode.  A timeout is told from another read error or from a
    decode failure by the printed exception only, never by the value
    returned. *)
Theorem C4_timeout_handled_as_any_failure :
  (forall T s command h data e,
     Socket.socket (Socket.self s) = Some h ->
     encode (Socket.terminate command) = Some data ->
     Socket.t_sendall T (Socket.calls s) h data = None ->
     Socket.t_recv T (Socket.calls s ++ [Socket.EvSendall h data None]) h
     = inl e ->
     Socket.query T command s
     = (Socket.extend s
          [Socket.EvSendall h data None;
           Socket.EvRecv h Socket.BUFSIZE (inl e)]
          [Socket.PrQuery (strip (Socket.terminate command));
           Socket.PrQueryError e], inr None))
  /\ (forall T s command h data avail,
        Socket.socket (Socket.self s) = Some h ->
        encode (Socket.terminate command) = Some data ->
        Socket.t_sendall T (Socket.calls s) h data = None ->
        Socket.t_recv T (Socket.calls s ++ [Socket.EvSendall h data None]) h
        = inr avail ->
        decode (Socket.take Socket.BUFSIZE avail) = None ->
        Socket.query T command s
        = (Socket.extend s
             [Socket.EvSendall h data None;
              Socket.EvRecv h Socket.BUFSIZE
                (inr (Socket.take Socket.BUFSIZE avail))]
             [Socket.PrQuery (strip (Socket.terminate command));
              Socket.PrQueryError UnicodeDecodeError], inr None)).
Proof.
  split.
  - intros T s command h data e Hsock Henc Hsend Hrecv.
    rewrite (@SocketFacts.query_read_failed T s command h Hsock data Henc
               Hsend e Hrecv).
    now SocketFacts.to_extend.
  - intros T s command h data avail Hsock Henc Hsend Hrecv Hdec.
    rewrite (@SocketFacts.query_undecodable T s command h Hsock data Henc
               Hsend avail Hrecv Hdec).
    now SocketFacts.to_extend.
Qed.

(** A silent instrument, and an instrument that answers with the byte
    0xFF. *)
Lemma C4_timeout_handled_as_any_failure_witness :
  Socket.query (Socket.tcp true []) Demo.meas_volt (Demo.online [])
  = (Socket.extend (Demo.online [])
       [Socket.EvSendall 0 Demo.meas_volt_data None;
        Socket.EvRecv 0 Socket.BUFSIZE (inl TimeoutError)]
       [Socket.PrQuery (strip (Socket.terminate Demo.meas_volt));
        Socket.PrQueryError TimeoutError], inr None)
  /\ Socket.query (Socket.tcp true [inr [xff]]) Demo.meas_volt
       (Demo.online [inr [xff]])
     = (Socket.extend (Demo.online [inr [xff]])
          [Socket.EvSendall 0 Demo.meas_volt_data None;
           Socket.EvRecv 0 Socket.BUFSIZE
             (inr (Socket.take Socket.BUFSIZE [xff]))]
          [Socket.PrQuery (strip (Socket.terminate Demo.meas_volt));
           Socket.PrQueryError UnicodeDecodeError], inr None).
Proof.
  split.
  - apply (proj1 C4_timeout_handled_as_any_failure (Socket.tcp true [])
             (Demo.online []) Demo.meas_volt 0%nat Demo.meas_volt_data
             TimeoutError); reflexivity.
  - apply (proj2 C4_timeout_handled_as_any_failure
             (Socket.tcp true [inr [xff]]) (Demo.online [inr [xff]])
             Demo.meas_volt 0%nat Demo.meas_volt_data [xff]);
      reflexivity.
Defined.

(** The claim as the specification words it fails: a read that times out,
    a read that fails with ECONNRESET (104) and a reply that is not UTF-8
    all make query return None, and leave the same connection object. *)
Lemma C4_counterexample :
  Socket.outcome
    (Socket.query (Socket.tcp true [inl TimeoutError]) Demo.meas_volt
       (Demo.online [inl TimeoutError])) = inr None
  /\ Socket.outcome
       (Socket.query (Socket.tcp true [inl (OSError 104)]) Demo.meas_volt
          (Demo.online [inl (OSError 104)])) = inr None
  /\ Socket.outcome
       (Socket.query (Socket.tcp true [inr [xff]]) Demo.meas_volt
          (Demo.online [inr [xff]])) = inr None
  /\ Socket.self
       (Socket.final
          (Socket.query (Socket.tcp true [inl TimeoutError]) Demo.meas_volt
             (Demo.online [inl TimeoutError])))
     = Socket.self
         (Socket.final
            (Socket.query (Socket.tcp true [inl (OSError 104)])
               Demo.meas_volt (Demo.online [inl (OSError 104)])))
  /\ Socket.self
       (Socket.final
          (Socket.query (Socket.tcp true [inl TimeoutError]) Demo.meas_volt
             (Demo.online [inl TimeoutError])))
     = Socket.self
         (Socket.final
            (Socket.query (Socket.tcp true [inr [xff]]) Demo.meas_volt
               (Demo.online [inr [xff]]))).
Proof. repeat split. Qed.

(** *** C6: one write, then one read *)

(** C6, as the code has it.  A call of query makes no transport call at
    all (no socket, or a command that cannot be encoded), or one write that
    fails and no read, or one write followed by one recv(65535): never more
    than one write or one read, and never a read before the write.  When the
    connection holds a socket and the write succeeds, the transport sees
    exactly that write and then that read, and for two such queries in
    sequence it sees write, read, write, read in that order. *)
Theorem C6_query_write_then_read :
  (forall T command s,
     Socket.new_calls s (Socket.final (Socket.query T command s)) = []
     \/ (exists h d e,
           Socket.new_calls s (Socket.final (Socket.query T command s))
           = [Socket.EvSendall h d (Some e)])
     \/ (exists h d r,
           Socket.new_calls s (Socket.final (Socket.query T command s))
           = [Socket.EvSendall h d None; Socket.EvRecv h Socket.BUFSIZE r]))
  /\ (forall T s command h data,
        Socket.socket (Socket.self s) = Some h ->
        encode (Socket.terminate command) = Some data ->
        Socket.t_sendall T (Socket.calls s) h data = None ->
        Socket.new_calls s (Socket.final (Socket.query T command s))
        = Socket.round_trip T (Socket.calls s) h data)
  /\ (forall T s a b h da db,
        Socket.socket (Socket.self s) = Some h ->
        encode (Socket.terminate a) = Some da ->
        encode (Socket.terminate b) = Some db ->
        Socket.t_sendall T (Socket.calls s) h da = None ->
        Socket.t_sendall T
          (Socket.calls s ++ Socket.round_trip T (Socket.calls s) h da) h db
        = None ->
        Socket.new_calls s (Socket.final (Socket.query_twice T a b s))
        = Socket.round_trip T (Socket.calls s) h da
          ++ Socket.round_trip T
               (Socket.calls s ++ Socket.round_trip T (Socket.calls s) h da)
               h db).
Proof.
  split; [| split].
  - intros T command s.
    destruct (SocketFacts.query_paths T command s)
      as (evs & lines & v & E & P).
    rewrite E. unfold Socket.final. cbn [fst].
    rewrite SocketFacts.new_calls_extend.
    destruct P; eauto 8.
  - intros T s command h data Hsock Henc Hsend.
    destruct (SocketFacts.query_written T s command Hsock Henc Hsend)
      as (lines & v & E).
    rewrite E. unfold Socket.final. cbn [fst].
    apply SocketFacts.new_calls_extend.
  - intros T s a b h da db Hsock Ha Hb Hsa Hsb.
    unfold Socket.query_twice, Eff.bind.
    destruct (SocketFacts.query_written T s a Hsock Ha Hsa)
      as (lines & v & E).
    rewrite E.
    match goal with
    | |- context [Socket.query T b ?s1] =>
        destruct (@SocketFacts.query_written T s1 b h db Hsock Hb Hsb)
          as (lines' & v' & E')
    end.
    rewrite E', SocketFacts.extend_extend.
    unfold Socket.final. cbn [fst].
    apply SocketFacts.new_calls_extend.
Qed.

(** The queries of the scenario, *OPC? answered by "1\n" and MEAS:VOLT?
    answered by "100.000000\n". *)
Lemma C6_query_write_then_read_witness :
  Socket.new_calls (Demo.online Demo.replies)
    (Socket.final
       (Socket.query (Socket.tcp true Demo.replies) Demo.opc
          (Demo.online Demo.replies)))
  = [Socket.EvSendall 0 Demo.opc_data None;
     Socket.EvRecv 0 Socket.BUFSIZE (inr Demo.opc_reply)]
  /\ Socket.new_calls (Demo.online Demo.replies)
       (Socket.final
          (Socket.query_twice (Socket.tcp true Demo.replies) Demo.opc
             Demo.meas_volt (Demo.online Demo.replies)))
     = [Socket.EvSendall 0 Demo.opc_data None;
        Socket.EvRecv 0 Socket.BUFSIZE (inr Demo.opc_reply);
        Socket.EvSendall 0 Demo.meas_volt_data None;
        Socket.EvRecv 0 Socket.BUFSIZE (inr Demo.volt_reply)].
Proof.
  split.
  - apply (proj1 (proj2 C6_query_write_then_read)
             (Socket.tcp true Demo.replies) (Demo.online Demo.replies)
             Demo.opc 0%nat Demo.opc_data); reflexivity.
  - apply (proj2 (proj2 C6_query_write_then_read)
             (Socket.tcp true Demo.replies) (Demo.online Demo.replies)
             Demo.opc Demo.meas_volt 0%nat Demo.opc_data
             Demo.meas_volt_data); reflexivity.
Defined.

(** The claim as the specification words it fails: a query whose write
    fails makes one write and no read, and a query on a connection that was
    never connected makes neither. *)
Lemma C6_counterexample :
  Socket.new_calls Demo.refused
    (Socket.final (Socket.query (Socket.tcp false []) Demo.opc Demo.refused))
  = [Socket.EvSendall 0 Demo.opc_data (Some (OSError 32))]
  /\ ~ Socket.write_then_read
         (Socket.new_calls Demo.refused
            (Socket.final
               (Socket.query (Socket.tcp false []) Demo.opc Demo.refused)))
  /\ ~ Socket.write_then_read
         (Socket.new_calls Demo.created
            (Socket.final
               (Socket.query (Socket.tcp true []) Demo.opc Demo.created))).
Proof.
  split; [reflexivity |].
  split; intros (h & d & r & h' & n & r' & E); discriminate E.
Qed.

(** *** C7: disconnect *)

Lemma closed_repeat (h : Socket.handle) (n : nat) :
  (1 <= n)%nat ->
  Socket.closed h (repeat (Socket.EvClose h None) n) = true.
Proof.
  destruct n as [| n]; [lia |]. intros _.
  cbn. now rewrite Nat.eqb_refl.
Qed.

(** C7, as the code has it.  With a transport whose close does not fail,
    disconnect called any number of times never raises.  On a connection
    that holds a socket object, connected or not, every call closes that
    socket and prints the disconnect line, and after the first call the
    Channel is Closed and stays so.  On a connection that holds no socket
    (connect was never called, or could not create one) every call is a
    no-op and the Channel stays as constructed.  VISAConnection.disconnect
    closes the instrument and the resource manager the connection holds, and
    is a no-op when it holds neither. *)
Theorem C7_disconnect_closes_what_is_held :
  (forall T n s,
     (forall evs h, Socket.t_close T evs h = None) ->
     Socket.outcome (Socket.disconnect_times T n s) = inr tt
     /\ (Socket.socket (Socket.self s) = None ->
         Socket.final (Socket.disconnect_times T n s) = s)
     /\ (forall h,
           Socket.socket (Socket.self s) = Some h ->
           Socket.final (Socket.disconnect_times T n s)
           = Socket.extend s (repeat (Socket.EvClose h None) n)
               (repeat (Socket.PrDisconnected (Socket.ip (Socket.self s))) n)
           /\ ((1 <= n)%nat ->
               Socket.channel_state_of
                 (Socket.final (Socket.disconnect_times T n s))
               = Socket.Closed)))
  /\ (forall L n s,
        (forall evs h, Visa.v_close_instrument L evs h = None) ->
        (forall evs h, Visa.v_close_manager L evs h = None) ->
        Visa.disconnect_times L n s
        = (Visa.extend s
             (List.concat (repeat (Visa.disconnect_calls (Visa.self s)) n))
             (List.concat (repeat (Visa.disconnect_lines (Visa.self s)) n)),
           inr tt)).
Proof.
  split.
  - intros T n s Hclose.
    destruct (Socket.socket (Socket.self s)) as [h |] eqn:Hsock.
    + rewrite (SocketFacts.disconnect_times_socket T Hclose n s Hsock).
      split; [reflexivity |]. split; [discriminate |].
      intros h' [= <-]. split; [reflexivity |].
      intros Hn. unfold Socket.channel_state_of, Socket.final.
      cbn [fst Socket.extend Socket.self Socket.calls].
      rewrite Hsock, SocketFacts.closed_app, (closed_repeat h Hn).
      now rewrite orb_true_r.
    + rewrite (SocketFacts.disconnect_times_no_socket T n s Hsock).
      split; [reflexivity |]. split; [reflexivity |].
      intros h' [=].
  - intros L n s Hi Hm. now apply VisaFacts.visa_disconnect_times_runs.
Qed.

(** Three calls of disconnect on a connected channel, and on a connected
    VISA channel. *)
Lemma C7_disconnect_closes_what_is_held_witness :
  (Socket.outcome
     (Socket.disconnect_times (Socket.tcp true []) 3 (Demo.online []))
   = inr tt
   /\ Socket.channel_state_of
        (Socket.final
           (Socket.disconnect_times (Socket.tcp true []) 3 (Demo.online [])))
      = Socket.Closed
   /\ Socket.final
        (Socket.disconnect_times (Socket.tcp true []) 3 Demo.created)
      = Demo.created)
  /\ Visa.disconnect_times (Visa.bench true []) 3 (Demo.visa_online [])
     = (Visa.extend (Demo.visa_online [])
          (List.concat
             (repeat
                (Visa.disconnect_calls (Visa.self (Demo.visa_online []))) 3))
          (List.concat
             (repeat
                (Visa.disconnect_lines (Visa.self (Demo.visa_online []))) 3)),
        inr tt).
Proof.
  assert (Hclose : forall evs h,
            Socket.t_close (Socket.tcp true []) evs h = None)
    by reflexivity.
  destruct (proj1 C7_disconnect_closes_what_is_held (Socket.tcp true [])
              3%nat (Demo.online []) Hclose) as (Hout & _ & Hheld).
  destruct (Hheld 0%nat eq_refl) as (_ & Hclosed).
  destruct (proj1 C7_disconnect_closes_what_is_held (Socket.tcp true [])
              3%nat Demo.created Hclose) as (_ & Hnone & _).
  split.
  - split; [exact Hout |].
    split; [apply Hclosed; lia | apply Hnone; reflexivity].
  - apply (proj2 C7_disconnect_closes_what_is_held (Visa.bench true []) 3%nat
             (Demo.visa_online [])); reflexivity.
Defined.

(** The claim as the specification words it fails: after a connect that
    was refused, disconnect is not a no-op, it closes the socket that
    connect had created and prints the disconnect line; and on a connection
    that was never connected disconnect leaves the Channel as constructed,
    Disconnected, not Closed. *)
Lemma C7_counterexample :
  Socket.outcome (Socket.connect (Socket.tcp false []) Demo.created)
  = inr false
  /\ Socket.disconnect (Socket.tcp false []) Demo.refused
     = (Socket.extend Demo.refused [Socket.EvClose 0 None]
          [Socket.PrDisconnected Demo.ip], inr tt)
  /\ Socket.final (Socket.disconnect (Socket.tcp false []) Demo.refused)
     <> Demo.refused
  /\ Socket.channel_state_of
       (Socket.final (Socket.disconnect (Socket.tcp true []) Demo.created))
     = Socket.Disconnected.
Proof.
  split; [reflexivity |]. split; [reflexivity |].
  split; [| reflexivity].
  intros E. apply (f_equal (fun s => List.length (Socket.calls s))) in E.
  vm_compute in E. discriminate E.
Qed.

(** *** C8: connect *)

Module ConnectFacts.
Import Py.

(** [connect] of SocketConnection from any state follows one of the paths
    of [connect_from]. *)
Lemma connect_from_any (T : Socket.transport) (s : Socket.state) :
  exists evs lines o b,
    Socket.connect T s
    = ({| Socket.self :=
            {| Socket.ip := Socket.ip (Socket.self s);
               Socket.port := Socket.port (Socket.self s);
               Socket.timeout := Socket.timeout (Socket.self s);
               Socket.socket := o |};
          Socket.calls := Socket.calls s ++ evs;
          Socket.stdout := Socket.stdout s ++ lines |}, inr b)
    /\ Socket.connect_from (Socket.self s) (List.length (Socket.calls s))
         evs lines o b.
Proof.
  destruct s as [[a p t o0] evs0 lines0].
  SocketFacts.run. unfold Socket.emit, Socket.record. cbn.
  destruct (Socket.t_socket T evs0) as [e |] eqn:E0; cbn.
  { eexists [_], [_], _, _. split; [reflexivity |].
    apply (Socket.FNoSocket
             {| Socket.ip := a; Socket.port := p; Socket.timeout := t;
                Socket.socket := o0 |}). }
  match goal with
  | |- context [Socket.t_settimeout T ?evs ?h ?t] =>
      destruct (Socket.t_settimeout T evs h t) as [e |] eqn:E1
  end; cbn.
  { eexists [_; _], [_], _, _. rewrite <- !app_assoc.
    split; [reflexivity |].
    apply (Socket.FTimeoutRejected
             {| Socket.ip := a; Socket.port := p; Socket.timeout := t;
                Socket.socket := o0 |}). }
  match goal with
  | |- context [Socket.t_connect T ?evs ?h ?a ?p] =>
      destruct (Socket.t_connect T evs h a p) as [e |] eqn:E2
  end; cbn.
  { eexists [_; _; _], [_], _, _. rewrite <- !app_assoc.
    split; [reflexivity |].
    apply (Socket.FRefused
             {| Socket.ip := a; Socket.port := p; Socket.timeout := t;
                Socket.socket := o0 |}). }
  eexists [_; _; _], [_], _, _. rewrite <- !app_assoc.
  split; [reflexivity |].
  apply (Socket.FConnected
           {| Socket.ip := a; Socket.port := p; Socket.timeout := t;
              Socket.socket := o0 |}).
Qed.

Lemma connected_app (h : Socket.handle) (evs evs' : list Socket.event) :
  Socket.connected h (evs ++ evs')
  = Socket.connected h evs || Socket.connected h evs'.
Proof. unfold Socket.connected. apply existsb_app. Qed.

(** A [connect] that cannot create a socket changes neither the
    connection object nor the state of the Channel. *)
Lemma connect_no_socket (T : Socket.transport) (s : Socket.state)
  (e : exn) :
  Socket.t_socket T (Socket.calls s) = Some e ->
  Socket.connect T s
  = (Socket.extend s [Socket.EvSocket (inl e)] [Socket.PrConnectionError e],
     inr false)
  /\ Socket.channel_state_of (Socket.final (Socket.connect T s))
     = Socket.channel_state_of s.
Proof.
  intros E0.
  assert (E : Socket.connect T s
              = (Socket.extend s [Socket.EvSocket (inl e)]
                   [Socket.PrConnectionError e], inr false)).
  { SocketFacts.run. rewrite E0. reflexivity. }
  rewrite E. split; [reflexivity |].
  unfold Socket.final, Socket.channel_state_of, Socket.extend.
  cbn [fst Socket.self Socket.calls].
  destruct (Socket.socket (Socket.self s)) as [h |]; [| reflexivity].
  rewrite SocketFacts.closed_app, connected_app. cbn.
  now rewrite !orb_false_r.
Qed.

(** A [connect] that creates its socket leaves it in the connection; the
    socket being new, the Channel is Connected exactly when connect
    returns True, and Disconnected otherwise. *)
Lemma connect_new_socket (T : Socket.transport) (s : Socket.state) :
  Socket.t_socket T (Socket.calls s) = None ->
  Socket.connected (List.length (Socket.calls s)) (Socket.calls s) = false ->
  Socket.closed (List.length (Socket.calls s)) (Socket.calls s) = false ->
  Socket.socket (Socket.self (Socket.final (Socket.connect T s)))
  = Some (List.length (Socket.calls s))
  /\ exists b,
       Socket.outcome (Socket.connect T s) = inr b
       /\ Socket.channel_state_of (Socket.final (Socket.connect T s))
          = (if b then Socket.Connected else Socket.Disconnected).
Proof.
  destruct s as [[a p t o0] evs0 lines0]. cbn [Socket.calls].
  intros E0 Hconn Hclosed.
  unfold Socket.final, Socket.outcome, Socket.channel_state_of.
  SocketFacts.run. unfold Socket.emit, Socket.record.
  cbn -[Socket.closed Socket.connected]. rewrite E0.
  cbn -[Socket.closed Socket.connected].
  match goal with
  | |- context [Socket.t_settimeout T ?evs ?h ?t] =>
      destruct (Socket.t_settimeout T evs h t) as [e |] eqn:E1
  end; cbn -[Socket.closed Socket.connected].
  { split; [reflexivity |]. exists false. split; [reflexivity |].
    rewrite <- !app_assoc, SocketFacts.closed_app, connected_app, Hconn,
      Hclosed.
    reflexivity. }
  match goal with
  | |- context [Socket.t_connect T ?evs ?h ?a ?p] =>
      destruct (Socket.t_connect T evs h a p) as [e |] eqn:E2
  end; cbn -[Socket.closed Socket.connected].
  { split; [reflexivity |]. exists false. split; [reflexivity |].
    rewrite <- !app_assoc, SocketFacts.closed_app, connected_app, Hconn,
      Hclosed.
    reflexivity. }
  split; [reflexivity |]. exists true. split; [reflexivity |].
  rewrite <- !app_assoc, SocketFacts.closed_app, connected_app, Hconn,
    Hclosed.
  cbn. now rewrite Nat.eqb_refl.
Qed.

(** [connect] of VISAConnection from any state follows one of the paths
    of [connect_from]. *)
Lemma visa_connect_from_any (L : Visa.library) (s : Visa.state) :
  exists evs lines oi om b,
    Visa.connect L s
    = ({| Visa.self :=
            {| Visa.resource_string := Visa.resource_string (Visa.self s);
               Visa.timeout := Visa.timeout (Visa.self s);
               Visa.instrument := oi; Visa.rm := om |};
          Visa.calls := Visa.calls s ++ evs;
          Visa.stdout := Visa.stdout s ++ lines |}, inr b)
    /\ Visa.connect_from (Visa.self s) (List.length (Visa.calls s))
         evs lines oi om b.
Proof.
  destruct s as [[name t oi0 om0] evs0 lines0].
  VisaFacts.run. unfold Visa.emit, Visa.record. cbn.
  destruct (Visa.v_resource_manager L evs0) as [e |] eqn:E0; cbn.
  { eexists [_], [_], _, _, _. split; [reflexivity |].
    apply (Visa.FNoManager
             {| Visa.resource_string := name; Visa.timeout := t;
                Visa.instrument := oi0; Visa.rm := om0 |}). }
  match goal with
  | |- context [Visa.v_open_resource L ?evs ?h ?n] =>
      destruct (Visa.v_open_resource L evs h n) as [e |] eqn:E1
  end; cbn.
  { eexists [_; _], [_], _, _, _. rewrite <- !app_assoc.
    split; [reflexivity |].
    apply (Visa.FNotOpened
             {| Visa.resource_string := name; Visa.timeout := t;
                Visa.instrument := oi0; Visa.rm := om0 |}). }
  rewrite !length_app. cbn [List.length]. rewrite !Nat.add_1_r.
  match goal with
  | |- context [Visa.v_set_timeout L ?evs ?h ?t] =>
      destruct (Visa.v_set_timeout L evs h t) as [e |] eqn:E2
  end; cbn.
  { eexists [_; _; _], [_], _, _, _. rewrite <- !app_assoc.
    split; [reflexivity |].
    apply (Visa.FTimeoutRejected
             {| Visa.resource_string := name; Visa.timeout := t;
                Visa.instrument := oi0; Visa.rm := om0 |}). }
  eexists [_; _; _], [_], _, _, _. rewrite <- !app_assoc.
  split; [reflexivity |].
  apply (Visa.FConnected
           {| Visa.resource_string := name; Visa.timeout := t;
              Visa.instrument := oi0; Visa.rm := om0 |}).
Qed.

End ConnectFacts.

(** C8, as the code has it.  connect never raises and returns a boolean:
    True exactly when the socket was created, its timeout set and the TCP
    connect accepted, False as soon as one of the three raised.  On False
    it has printed the underlying error and the connection object stores
    nothing of it.  What the connection then holds depends on the step
    that failed.  When no socket could be created the socket attribute and
    the state of the Channel are as before the call: a connection just
    constructed holds no socket and is Disconnected, a connection that
    held a socket keeps it, and one that was Connected is still Connected
    although connect returned False.  When the socket was created the
    connection holds this new, unconnected socket and the Channel is
    Disconnected.  On a connection that holds a socket, connected or not,
    a later send_command or query with an encodable command calls the
    transport's write on that socket.  VISAConnection.connect returns its
    boolean in the same way and keeps the resource manager and the
    instrument assigned before the step that failed. *)
Theorem C8_connect_returns_success :
  (forall T s, exists b, Socket.outcome (Socket.connect T s) = inr b)
  /\ (forall L s, exists b, Visa.outcome (Visa.connect L s) = inr b)
  /\ (forall T a p t,
     exists evs lines o b,
       Socket.connect T (Socket.fresh a p t)
       = ({| Socket.self :=
               {| Socket.ip := a; Socket.port := p; Socket.timeout := t;
                  Socket.socket := o |};
             Socket.calls := evs; Socket.stdout := lines |}, inr b)
       /\ Socket.connect_path a p t evs lines o b
       /\ Socket.channel_state_of
            (Socket.final (Socket.connect T (Socket.fresh a p t)))
          = (if b then Socket.Connected else Socket.Disconnected))
  /\ (forall T s command h data,
        Socket.socket (Socket.self s) = Some h ->
        encode (Socket.terminate command) = Some data ->
        Socket.new_calls s (Socket.final (Socket.send_command T command s))
        = [Socket.EvSendall h data (Socket.t_sendall T (Socket.calls s) h data)]
        /\ exists rest,
             Socket.new_calls s (Socket.final (Socket.query T command s))
             = Socket.EvSendall h data
                 (Socket.t_sendall T (Socket.calls s) h data) :: rest)
  /\ (forall L name t,
        exists evs lines oi om b,
          Visa.connect L (Visa.fresh name t)
          = ({| Visa.self :=
                  {| Visa.resource_string := name; Visa.timeout := t;
                     Visa.instrument := oi; Visa.rm := om |};
                Visa.calls := evs; Visa.stdout := lines |}, inr b)
          /\ Visa.connect_path name t evs lines oi om b)
  /\ (forall T s,
        exists evs lines o b,
          Socket.connect T s
          = ({| Socket.self :=
                  {| Socket.ip := Socket.ip (Socket.self s);
                     Socket.port := Socket.port (Socket.self s);
                     Socket.timeout := Socket.timeout (Socket.self s);
                     Socket.socket := o |};
                Socket.calls := Socket.calls s ++ evs;
                Socket.stdout := Socket.stdout s ++ lines |}, inr b)
          /\ Socket.connect_from (Socket.self s)
               (List.length (Socket.calls s)) evs lines o b)
  /\ (forall T s e,
        Socket.t_socket T (Socket.calls s) = Some e ->
        Socket.connect T s
        = (Socket.extend s [Socket.EvSocket (inl e)]
             [Socket.PrConnectionError e], inr false)
        /\ Socket.channel_state_of (Socket.final (Socket.connect T s))
           = Socket.channel_state_of s)
  /\ (forall T s,
        Socket.t_socket T (Socket.calls s) = None ->
        Socket.connected (List.length (Socket.calls s)) (Socket.calls s)
        = false ->
        Socket.closed (List.length (Socket.calls s)) (Socket.calls s)
        = false ->
        Socket.socket (Socket.self (Socket.final (Socket.connect T s)))
        = Some (List.length (Socket.calls s))
        /\ exists b,
             Socket.outcome (Socket.connect T s) = inr b
             /\ Socket.channel_state_of (Socket.final (Socket.connect T s))
                = (if b then Socket.Connected else Socket.Disconnected))
  /\ (forall L s,
        exists evs lines oi om b,
          Visa.connect L s
          = ({| Visa.self :=
                  {| Visa.resource_string :=
                       Visa.resource_string (Visa.self s);
                     Visa.timeout := Visa.timeout (Visa.self s);
                     Visa.instrument := oi; Visa.rm := om |};
                Visa.calls := Visa.calls s ++ evs;
                Visa.stdout := Visa.stdout s ++ lines |}, inr b)
          /\ Visa.connect_from (Visa.self s) (List.length (Visa.calls s))
               evs lines oi om b).
Proof.
  split; [apply SocketFacts.connect_returns |].
  split; [apply VisaFacts.visa_connect_returns |].
  split; [| split; [| split; [| split; [| split; [| split]]]]].
  - intros T a p t.
    destruct (SocketFacts.connect_paths T a p t)
      as (evs & lines & o & b & E & P).
    exists evs, lines, o, b. rewrite E.
    split; [reflexivity |]. split; [exact P |].
    destruct P; reflexivity.
  - intros T s command h data Hsock Henc.
    destruct (Socket.t_sendall T (Socket.calls s) h data) as [e |] eqn:Hsend.
    + rewrite (@SocketFacts.send_write_failed T s command h Hsock data Henc
                 e Hsend),
        (@SocketFacts.query_write_failed T s command h Hsock data Henc
           e Hsend).
      SocketFacts.to_extend. unfold Socket.final. cbn [fst].
      rewrite !SocketFacts.new_calls_extend. eauto.
    + rewrite (@SocketFacts.send_written T s command h Hsock data Henc Hsend).
      destruct (SocketFacts.query_written T s command Hsock Henc Hsend)
        as (lines & v & E).
      rewrite E. SocketFacts.to_extend.
      unfold Socket.final, Socket.round_trip. cbn [fst].
      rewrite !SocketFacts.new_calls_extend. eauto.
  - apply VisaFacts.visa_connect_paths.
  - apply ConnectFacts.connect_from_any.
  - apply ConnectFacts.connect_no_socket.
  - apply ConnectFacts.connect_new_socket.
  - apply ConnectFacts.visa_connect_from_any.
Qed.

(** OUTP 1 after a connect that was refused; a second connect, on a
    connection that is Connected, when no further socket can be created:
    it returns False and the Channel is still Connected on socket 0; and
    the refused connect of a connection just constructed, which leaves the
    Channel Disconnected with socket 0 in it. *)
Lemma C8_connect_returns_success_witness :
  (Socket.new_calls Demo.refused
     (Socket.final
        (Socket.send_command (Socket.tcp false []) (lit "OUTP 1")
           Demo.refused))
   = [Socket.EvSendall 0 (Demo.ascii_bytes "OUTP 1" ++ [LF_byte])
        (Socket.t_sendall (Socket.tcp false []) (Socket.calls Demo.refused) 0
           (Demo.ascii_bytes "OUTP 1" ++ [LF_byte]))]
   /\ exists rest,
        Socket.new_calls Demo.refused
          (Socket.final
             (Socket.query (Socket.tcp false []) (lit "OUTP 1") Demo.refused))
        = Socket.EvSendall 0 (Demo.ascii_bytes "OUTP 1" ++ [LF_byte])
            (Socket.t_sendall (Socket.tcp false [])
               (Socket.calls Demo.refused) 0
               (Demo.ascii_bytes "OUTP 1" ++ [LF_byte])) :: rest)
  /\ (Socket.outcome
        (Socket.connect Play.exhausted
           (Socket.after (Socket.connect Play.exhausted) Demo.created))
      = inr false
      /\ Socket.socket
           (Socket.self
              (Socket.final
                 (Socket.connect Play.exhausted
                    (Socket.after (Socket.connect Play.exhausted)
                       Demo.created))))
         = Some 0%nat
      /\ Socket.channel_state_of
           (Socket.final
              (Socket.connect Play.exhausted
                 (Socket.after (Socket.connect Play.exhausted)
                    Demo.created)))
         = Socket.Connected)
  /\ (Socket.socket
        (Socket.self
           (Socket.final (Socket.connect (Socket.tcp false []) Demo.created)))
      = Some 0%nat
      /\ Socket.channel_state_of
           (Socket.final (Socket.connect (Socket.tcp false []) Demo.created))
         = Socket.Disconnected).
Proof.
  split; [| split].
  - apply (proj1 (proj2 (proj2 (proj2 C8_connect_returns_success)))
             (Socket.tcp false [])
             Demo.refused (lit "OUTP 1") 0%nat
             (Demo.ascii_bytes "OUTP 1" ++ [LF_byte]));
      reflexivity.
  - destruct (proj1 (proj2 (proj2 (proj2 (proj2 (proj2 (proj2
                C8_connect_returns_success))))))
                Play.exhausted
                (Socket.after (Socket.connect Play.exhausted) Demo.created)
                (OSError 24) eq_refl) as (E & Hstate).
    rewrite Hstate, E. repeat split.
  - destruct (proj1 (proj2 (proj2 (proj2 (proj2 (proj2 (proj2 (proj2
                C8_connect_returns_success)))))))
                (Socket.tcp false []) Demo.created
                eq_refl eq_refl eq_refl) as (Hsock & b & Hb & Hstate).
    split; [exact Hsock |].
    rewrite Hstate.
    assert (Eb : b = false).
    { change (Socket.outcome
                (Socket.connect (Socket.tcp false []) Demo.created))
        with (@inr exn bool false) in Hb.
      congruence. }
    now rewrite Eb.
Defined.

(** The claim as the specification words it fails: a connect that is
    refused returns False and leaves the new socket in the connection, the
    error is printed and not stored, and a later send_command calls the
    transport's write, where a never-connected connection calls nothing. *)
Lemma C8_counterexample :
  Socket.connect (Socket.tcp false []) Demo.created
  = ({| Socket.self :=
          {| Socket.ip := Demo.ip; Socket.port := Demo.port;
             Socket.timeout := Socket.CONNECTION_TIMEOUT;
             Socket.socket := Some 0%nat |};
        Socket.calls :=
          [Socket.EvSocket (inr 0%nat);
           Socket.EvSetTimeout 0 Socket.CONNECTION_TIMEOUT None;
           Socket.EvConnect 0 Demo.ip Demo.port (Some (OSError 111))];
        Socket.stdout := [Socket.PrConnectionError (OSError 111)] |},
     inr false)
  /\ Socket.send_command (Socket.tcp false []) (lit "OUTP 1") Demo.refused
     = (Socket.extend Demo.refused
          [Socket.EvSendall 0 (Demo.ascii_bytes "OUTP 1" ++ [LF_byte])
             (Some (OSError 32))]
          [Socket.PrSendError (OSError 32)], inr tt)
  /\ Socket.send_command (Socket.tcp false []) (lit "OUTP 1") Demo.created
     = (Socket.extend Demo.created []
          [Socket.PrSendError (AttributeError_NoneType "sendall")], inr tt).
Proof. repeat split. Qed.

(** * The scripts around the classes *)

(** ** The process monad and the interactive loop *)

Module ProcFacts.
Import Py Proc.

Ltac finish :=
  repeat split; intros; try reflexivity; try discriminate; auto;
  try congruence.

Section Loop.

Variables C L O : Type.
Variable class_lines : C -> list L.
Variable from_class : L -> O.
Variable send_command : str -> Eff.M C unit.
Variable query : str -> Eff.M C (option str).
Variables enter_commands use_question_mark prompt exiting : O.
Variable error : exn -> O.

(** A lifted method changes the connection as the method does, and leaves
    the keyboard and the clock alone. *)
Lemma lift_conn {A} (m : Eff.M C A) (s : state C O) :
  conn (fst (Proc.lift class_lines from_class m s)) = fst (m (conn s))
  /\ keys (fst (Proc.lift class_lines from_class m s)) = keys s
  /\ naps (fst (Proc.lift class_lines from_class m s)) = naps s
  /\ snd (Proc.lift class_lines from_class m s)
     = match snd (m (conn s)) with
       | inr a => Returned a
       | inl e => Raised e
       end.
Proof. unfold Proc.lift. destruct (m (conn s)) as [c' r]. now cbn. Qed.

Lemma lift_eq {A} (m : Eff.M C A) (s : state C O) :
  Proc.lift class_lines from_class m s
  = (Proc.moved class_lines from_class (fst (m (conn s))) s,
     match snd (m (conn s)) with
     | inr a => Returned a
     | inl e => Raised e
     end).
Proof. unfold Proc.lift. now destruct (m (conn s)) as [c' r]. Qed.

(** One turn of the loop never raises: it says whether to go on, and it has
    done to the connection what [apply_key] says. *)
Lemma iteration_runs (k : key) (s : state C O) :
  snd (Proc.iteration class_lines from_class send_command query prompt
       exiting error k s)
  = Returned (if ends_session k then Break else Continue)
  /\ keys (fst (Proc.iteration class_lines from_class send_command query prompt
       exiting error k s)) = keys s
  /\ naps (fst (Proc.iteration class_lines from_class send_command query prompt
       exiting error k s)) = naps s
  /\ (ends_session k = false ->
      conn (fst (Proc.iteration class_lines from_class send_command query prompt
       exiting error k s)) = Proc.apply_key send_command query (conn s) k)
  /\ (ends_session k = true -> conn (fst (Proc.iteration class_lines from_class send_command query prompt
       exiting error k s)) = conn s).
Proof.
  unfold Proc.iteration, Proc.try_except, Proc.bind, Proc.input_key,
    Proc.print, Proc.ret.
  destruct k as [text | |]; cbn [ends_session apply_key fst snd].
  - destruct (lower_in_exit_quit (strip text)) eqn:Ex; cbn.
    { finish. }
    destruct (is_empty (strip text)) eqn:Em; cbn.
    { finish. }
    destruct (endswith_question (strip text)) eqn:Eq.
    + destruct (lift_conn (query (strip text)) (emit prompt s))
        as (Hc & Hk & Hn & Ho).
      destruct (Proc.lift class_lines from_class (query (strip text)) (emit prompt s)) as [s' o].
      cbn [fst snd] in *. subst o.
      cbn [conn emit keys naps] in *.
      destruct (snd (query (strip text) (conn s))); cbn; finish.
    + destruct (lift_conn (send_command (strip text)) (emit prompt s))
        as (Hc & Hk & Hn & Ho).
      destruct (Proc.lift class_lines from_class (send_command (strip text)) (emit prompt s)) as [s' o].
      cbn [fst snd] in *. subst o.
      cbn [conn emit keys naps] in *.
      destruct (snd (send_command (strip text) (conn s))); cbn; finish.
  - cbn. finish.
  - cbn. finish.
Qed.

(** The loop, whatever the keys: it never raises and never exits the
    process; it returns exactly when a key ends the session, leaving the
    later keys unread, and waits for input otherwise; the connection has
    seen the keys before that one, in order, and no other. *)
Lemma prompt_loop_runs (ks : list key) :
  forall s : state C O,
    snd (Proc.prompt_loop class_lines from_class send_command query
            prompt exiting error ks s)
    = (if existsb ends_session ks then Returned tt else Blocked)
    /\ keys (fst (Proc.prompt_loop class_lines from_class send_command query
            prompt exiting error ks s)) = after_end ks
    /\ naps (fst (Proc.prompt_loop class_lines from_class send_command query
            prompt exiting error ks s)) = naps s
    /\ conn (fst (Proc.prompt_loop class_lines from_class send_command query
            prompt exiting error ks s))
       = fold_left (Proc.apply_key send_command query) (before_end ks) (conn s).
Proof.
  induction ks as [| k ks IH]; intros s.
  - cbn. auto.
  - cbn [Proc.prompt_loop existsb after_end before_end].
    destruct (iteration_runs k (with_keys ks s)) as (Ho & Hk & Hn & Hc & Hc').
    destruct (Proc.iteration class_lines from_class send_command query prompt
       exiting error k (with_keys ks s)) as [s' o].
    cbn [fst snd] in *. subst o.
    destruct (ends_session k); cbn [orb fold_left fst snd].
    + repeat split; auto.
    + destruct (IH s') as (IH1 & IH2 & IH3 & IH4).
      specialize (Hc eq_refl). cbn [conn naps with_keys] in Hc, Hn.
      split; [exact IH1 |]. split; [exact IH2 |].
      split; [congruence |]. now rewrite IH4, Hc.
Qed.

Lemma scpi_command_runs (s : state C O) :
  snd (Proc.scpi_command class_lines from_class send_command query
            enter_commands use_question_mark prompt exiting error s)
  = (if existsb ends_session (keys s) then Returned tt else Blocked)
  /\ keys (fst (Proc.scpi_command class_lines from_class send_command query
            enter_commands use_question_mark prompt exiting error s)) = after_end (keys s)
  /\ naps (fst (Proc.scpi_command class_lines from_class send_command query
            enter_commands use_question_mark prompt exiting error s)) = naps s
  /\ conn (fst (Proc.scpi_command class_lines from_class send_command query
            enter_commands use_question_mark prompt exiting error s))
     = fold_left (Proc.apply_key send_command query) (before_end (keys s)) (conn s).
Proof.
  unfold Proc.scpi_command, Proc.bind, Proc.print.
  cbn [fst snd keys emit].
  apply (prompt_loop_runs (keys s)
           (emit use_question_mark (emit enter_commands s))).
Qed.

Lemma bind_lift {A B} (m : Eff.M C A) (k : A -> P C O B) (s : state C O) :
  Proc.bind (Proc.lift class_lines from_class m) k s
  = match snd (m (conn s)) with
    | inr a => k a (Proc.moved class_lines from_class (fst (m (conn s))) s)
    | inl e =>
        (Proc.moved class_lines from_class (fst (m (conn s))) s, Raised e)
    end.
Proof.
  unfold Proc.bind. rewrite lift_eq. now destruct (snd (m (conn s))).
Qed.

(** [wait_for_key_press] takes one key, whatever it is, and returns; it
    waits when there is none. *)
Lemma wait_for_key_press_runs (message : O) (s : state C O) :
  Proc.wait_for_key_press message s
  = match keys s with
    | [] => (emit message s, Blocked)
    | _ :: ks => (emit message (with_keys ks s), Returned tt)
    end.
Proof.
  unfold Proc.wait_for_key_press, Proc.try_bare, Proc.bind, Proc.input,
    Proc.input_key, Proc.ret.
  destruct (keys s) as [| [text | |] ks]; reflexivity.
Qed.

End Loop.

End ProcFacts.

(** ** More on the classes: what the methods keep and what they leave
       open *)

Module ClassFacts.
Import Py.

(** [query] of VISAConnection along its paths. *)
Lemma visa_query_extends (L : Visa.library) (command : str) (s : Visa.state) :
  exists evs lines v,
    Visa.query L command s = (Visa.extend s evs lines, inr v).
Proof.
  destruct (Visa.instrument (Visa.self s)) as [i |] eqn:Hinst.
  2:{ rewrite (@VisaFacts.visa_query_no_instrument L s command Hinst),
        VisaFacts.visa_emit_extend. now eexists _, _, _. }
  destruct (Visa.v_query L (Visa.calls s) i command) as [e | text] eqn:Hq.
  - rewrite (@VisaFacts.visa_query_failed L s command i Hinst e Hq),
      VisaFacts.visa_emit_record_extend. now eexists _, _, _.
  - rewrite (@VisaFacts.visa_query_answered L s command i Hinst text Hq).
    exists [Visa.EvQuery i command (inr text)],
      [Visa.PrQuery (strip command); Visa.PrResponse (strip text)],
      (Some (strip text)).
    unfold Visa.emit, Visa.record, Visa.extend. cbn.
    now rewrite <- !app_assoc.
Qed.

(** [disconnect] of SocketConnection, whatever [close] does: it touches
    the socket the connection holds and no other, and raises what [close]
    raises. *)
Lemma disconnect_extends (T : Socket.transport) (s : Socket.state) :
  exists evs lines r,
    Socket.disconnect T s = (Socket.extend s evs lines, r)
    /\ (evs = []
        \/ exists h x,
             Socket.socket (Socket.self s) = Some h
             /\ evs = [Socket.EvClose h x]).
Proof.
  destruct (Socket.socket (Socket.self s)) as [h |] eqn:Hsock.
  2:{ rewrite (@SocketFacts.disconnect_no_socket T s Hsock).
      exists [], [], (inr tt). rewrite SocketFacts.extend_nil. auto. }
  destruct (Socket.t_close T (Socket.calls s) h) as [e |] eqn:Hc.
  - rewrite (@SocketFacts.disconnect_close_failed T s h Hsock e Hc).
    eexists _, _, _. split; [reflexivity |]. right. now exists h, (Some e).
  - rewrite (@SocketFacts.disconnect_closed T s h Hsock Hc).
    eexists _, _, _. split; [reflexivity |]. right. now exists h, None.
Qed.

Lemma disconnect_times_extends (T : Socket.transport) (n : nat) :
  forall s,
    exists evs lines r,
      Socket.disconnect_times T n s = (Socket.extend s evs lines, r)
      /\ (forall ev, In ev evs ->
            exists h x,
              Socket.socket (Socket.self s) = Some h
              /\ ev = Socket.EvClose h x).
Proof.
  induction n as [| n IH]; intros s.
  - exists [], [], (inr tt). cbn. rewrite SocketFacts.extend_nil.
    split; [reflexivity | intros ev []].
  - cbn [Socket.disconnect_times]. unfold Eff.bind.
    destruct (disconnect_extends T s) as (evs & lines & r & E & Hev).
    rewrite E. destruct r as [e | []].
    + eexists _, _, _. split; [reflexivity |].
      intros ev Hin. destruct Hev as [-> | (h & x & Hs & ->)]; [easy |].
      destruct Hin as [<- | []]. now exists h, x.
    + destruct (IH (Socket.extend s evs lines))
        as (evs' & lines' & r' & E' & Hev').
      rewrite E', SocketFacts.extend_extend.
      eexists _, _, _. split; [reflexivity |].
      intros ev Hin. apply in_app_or in Hin. destruct Hin as [Hin | Hin].
      * destruct Hev as [-> | (h & x & Hs & ->)]; [easy |].
        destruct Hin as [<- | []]. now exists h, x.
      * now apply Hev'.
Qed.

(** [disconnect] of VISAConnection keeps the connection object, whatever
    the closes do. *)
Lemma visa_disconnect_self (L : Visa.library) (s : Visa.state) :
  Visa.self (Visa.final (Visa.disconnect L s)) = Visa.self s.
Proof.
  unfold Visa.final. VisaFacts.run.
  destruct s as [[name t oi om] evs lines]. cbn.
  destruct oi as [i |]; cbn.
  - destruct (Visa.v_close_instrument L evs i); cbn; [reflexivity |].
    destruct om as [m |]; cbn; [| reflexivity].
    now destruct (Visa.v_close_manager L _ m).
  - destruct om as [m |]; cbn; [| reflexivity].
    now destruct (Visa.v_close_manager L _ m).
Qed.

(** [connect] of SocketConnection from any state: it makes no write, read
    or close, and the connection holds the new socket as soon as one was
    created. *)
Lemma connect_extends (T : Socket.transport) (s : Socket.state) :
  exists evs lines o b,
    Socket.connect T s
    = ({| Socket.self :=
            {| Socket.ip := Socket.ip (Socket.self s);
               Socket.port := Socket.port (Socket.self s);
               Socket.timeout := Socket.timeout (Socket.self s);
               Socket.socket := o |};
          Socket.calls := Socket.calls s ++ evs;
          Socket.stdout := Socket.stdout s ++ lines |}, inr b)
    /\ forallb
         (fun ev =>
            negb (Socket.is_write ev || Socket.is_read ev
                  || SocketCli.is_close ev)) evs = true
    /\ (Socket.t_socket T (Socket.calls s) = None ->
        o = Some (List.length (Socket.calls s))).
Proof.
  destruct s as [[a p t o0] evs0 lines0].
  SocketFacts.run. unfold Socket.emit, Socket.record. cbn.
  destruct (Socket.t_socket T evs0) as [e |] eqn:E0; cbn.
  { eexists [_], [_], _, _. split; [reflexivity |].
    split; [reflexivity | discriminate]. }
  match goal with
  | |- context [Socket.t_settimeout T ?evs ?h ?t] =>
      destruct (Socket.t_settimeout T evs h t) as [e |] eqn:E1
  end; cbn.
  { eexists [_; _], [_], _, _. rewrite <- !app_assoc.
    split; [reflexivity |]. split; reflexivity. }
  match goal with
  | |- context [Socket.t_connect T ?evs ?h ?a ?p] =>
      destruct (Socket.t_connect T evs h a p) as [e |] eqn:E2
  end; cbn.
  { eexists [_; _; _], [_], _, _. rewrite <- !app_assoc.
    split; [reflexivity |]. split; reflexivity. }
  eexists [_; _; _], [_], _, _. rewrite <- !app_assoc.
  split; [reflexivity |]. split; reflexivity.
Qed.

End ClassFacts.

(** X1.  Only connect assigns to the connection object: send_command,
    query and disconnect, of SocketConnection and of VISAConnection, leave
    every attribute as it was, whatever the transport does and whether or
    not they fail.  In particular disconnect does not reset the socket
    attribute. *)
Theorem X1_only_connect_assigns :
  (forall T command s,
     Socket.self (Socket.final (Socket.send_command T command s))
     = Socket.self s)
  /\ (forall T command s,
        Socket.self (Socket.final (Socket.query T command s))
        = Socket.self s)
  /\ (forall T n s,
        Socket.self (Socket.final (Socket.disconnect_times T n s))
        = Socket.self s)
  /\ (forall L command s,
        Visa.self (Visa.final (Visa.send_command L command s))
        = Visa.self s)
  /\ (forall L command s,
        Visa.self (Visa.final (Visa.query L command s)) = Visa.self s)
  /\ (forall L s,
        Visa.self (Visa.final (Visa.disconnect L s)) = Visa.self s).
Proof.
  repeat split.
  - intros T command s.
    destruct (SocketFacts.send_command_paths T command s)
      as (evs & lines & E & _).
    now rewrite E.
  - intros T command s.
    destruct (SocketFacts.query_paths T command s)
      as (evs & lines & v & E & _).
    now rewrite E.
  - intros T n s.
    destruct (ClassFacts.disconnect_times_extends T n s)
      as (evs & lines & r & E & _).
    now rewrite E.
  - intros L command s.
    destruct (VisaFacts.visa_send_command_paths L command s)
      as (evs & lines & E & _).
    now rewrite E.
  - intros L command s.
    destruct (ClassFacts.visa_query_extends L command s)
      as (evs & lines & v & E).
    now rewrite E.
  - apply ClassFacts.visa_disconnect_self.
Qed.

(** X2.  After disconnect the connection still holds the socket it closed:
    the socket attribute is unchanged, close was called on it, and a later
    send_command calls the transport's write on that closed socket instead
    of failing as on a connection that was never connected. *)
Theorem X2_send_after_disconnect :
  forall T s h command data,
    Socket.socket (Socket.self s) = Some h ->
    encode (Socket.terminate command) = Some data ->
    Socket.socket (Socket.self (Socket.after (Socket.disconnect T) s))
    = Some h
    /\ Socket.closed h
         (Socket.calls (Socket.after (Socket.disconnect T) s)) = true
    /\ Socket.new_calls (Socket.after (Socket.disconnect T) s)
         (Socket.final
            (Socket.send_command T command
               (Socket.after (Socket.disconnect T) s)))
       = [Socket.EvSendall h data
            (Socket.t_sendall T
               (Socket.calls (Socket.after (Socket.disconnect T) s)) h
               data)].
Proof.
  intros T s h command data Hsock Henc.
  destruct (ClassFacts.disconnect_extends T s)
    as (evs & lines & r & E & Hev).
  unfold Socket.after. rewrite E. cbn [fst].
  assert (Hs : Socket.socket (Socket.self (Socket.extend s evs lines))
               = Some h) by exact Hsock.
  split; [exact Hs |]. split.
  - destruct Hev as [-> | (h' & x & Hh & ->)].
    + exfalso.
      destruct (Socket.t_close T (Socket.calls s) h) as [e |] eqn:Hc.
      * rewrite (@SocketFacts.disconnect_close_failed T s h Hsock e Hc) in E.
        apply (f_equal (fun p => List.length (Socket.calls (fst p)))) in E.
        cbn in E. rewrite !length_app in E. cbn in E. lia.
      * rewrite (@SocketFacts.disconnect_closed T s h Hsock Hc) in E.
        apply (f_equal (fun p => List.length (Socket.calls (fst p)))) in E.
        cbn in E. rewrite !length_app in E. cbn in E. lia.
    + rewrite Hsock in Hh. injection Hh as <-.
      cbn [Socket.extend Socket.calls]. rewrite SocketFacts.closed_app.
      cbn. now rewrite Nat.eqb_refl, orb_true_r.
  - set (s' := Socket.extend s evs lines) in *.
    destruct (Socket.t_sendall T (Socket.calls s') h data) as [e |] eqn:Hw.
    + rewrite (@SocketFacts.send_write_failed T s' command h Hs data Henc
                 e Hw).
      SocketFacts.to_extend. unfold Socket.final. cbn [fst].
      apply SocketFacts.new_calls_extend.
    + rewrite (@SocketFacts.send_written T s' command h Hs data Henc Hw).
      SocketFacts.to_extend. unfold Socket.final. cbn [fst].
      apply SocketFacts.new_calls_extend.
Qed.

(** OUTP 1 sent after disconnect: the write goes to the closed socket 0,
    where the double answers EBADF. *)
Lemma X2_send_after_disconnect_witness :
  Socket.socket
    (Socket.self
       (Socket.after (Socket.disconnect (Socket.tcp true []))
          (Demo.online []))) = Some 0%nat
  /\ Socket.closed 0
       (Socket.calls
          (Socket.after (Socket.disconnect (Socket.tcp true []))
             (Demo.online []))) = true
  /\ Socket.new_calls
       (Socket.after (Socket.disconnect (Socket.tcp true []))
          (Demo.online []))
       (Socket.final
          (Socket.send_command (Socket.tcp true []) (lit "OUTP 1")
             (Socket.after (Socket.disconnect (Socket.tcp true []))
                (Demo.online []))))
     = [Socket.EvSendall 0 (Demo.ascii_bytes "OUTP 1" ++ [LF_byte])
          (Socket.t_sendall (Socket.tcp true [])
             (Socket.calls
                (Socket.after (Socket.disconnect (Socket.tcp true []))
                   (Demo.online []))) 0
             (Demo.ascii_bytes "OUTP 1" ++ [LF_byte]))].
Proof.
  apply (@X2_send_after_disconnect (Socket.tcp true []) (Demo.online [])
           0%nat (lit "OUTP 1") (Demo.ascii_bytes "OUTP 1" ++ [LF_byte]));
    reflexivity.
Defined.

(** X3.  disconnect is the one method without an exception handler.  When
    close raises, SocketConnection.disconnect raises the same exception to
    its caller and prints no line; when the close of the instrument raises,
    VISAConnection.disconnect raises it before reaching the resource
    manager, whose close is then never called and which stays open. *)
Theorem X3_disconnect_raises_what_close_raises :
  (forall T s h e,
     Socket.socket (Socket.self s) = Some h ->
     Socket.t_close T (Socket.calls s) h = Some e ->
     Socket.disconnect T s
     = (Socket.extend s [Socket.EvClose h (Some e)] [], inl e))
  /\ (forall L s i e,
        Visa.instrument (Visa.self s) = Some i ->
        Visa.v_close_instrument L (Visa.calls s) i = Some e ->
        Visa.disconnect L s
        = (Visa.extend s [Visa.EvCloseInstrument i (Some e)] [], inl e)).
Proof.
  split.
  - intros T s h e Hsock Hc.
    exact (@SocketFacts.disconnect_close_failed T s h Hsock e Hc).
  - intros L s i e Hinst Hc.
    VisaFacts.run. rewrite Hinst. VisaFacts.run. rewrite Hinst.
    VisaFacts.run. rewrite Hc.
    unfold Visa.extend. now rewrite app_nil_r.
Qed.

(** A socket and an instrument session that cannot be closed; the VISA
    connection holds the resource manager 0, which is left open. *)
Lemma X3_disconnect_raises_what_close_raises_witness :
  Socket.disconnect Play.stuck (Demo.online [])
  = (Socket.extend (Demo.online []) [Socket.EvClose 0 (Some (OSError 5))] [],
     inl (OSError 5))
  /\ Visa.disconnect Play.visa_stuck (Demo.visa_online [])
     = (Visa.extend (Demo.visa_online [])
          [Visa.EvCloseInstrument 1 (Some (OtherError "VisaIOError"))] [],
        inl (OtherError "VisaIOError")).
Proof.
  split.
  - apply (proj1 X3_disconnect_raises_what_close_raises Play.stuck
             (Demo.online []) 0%nat (OSError 5)); reflexivity.
  - apply (proj2 X3_disconnect_raises_what_close_raises Play.visa_stuck
             (Demo.visa_online []) 1%nat (OtherError "VisaIOError"));
      reflexivity.
Defined.

Lemma closed_none (h : Socket.handle) (evs : list Socket.event) :
  (forall ev, In ev evs -> forall x, ev <> Socket.EvClose h x) ->
  Socket.closed h evs = false.
Proof.
  unfold Socket.closed.
  induction evs as [| ev evs IH]; intros H; [reflexivity |].
  cbn [existsb]. rewrite IH by (intros ev' Hin; apply H; now right).
  rewrite orb_false_r.
  destruct ev as [| | | | | h' x]; try reflexivity.
  destruct (Nat.eqb_spec h' h) as [-> |]; [| reflexivity].
  exfalso. now apply (H (Socket.EvClose h x) (or_introl eq_refl) x).
Qed.

(** X4.  connect on a connection that already holds a socket replaces the
    socket without closing it: once the new socket is created, the earlier
    one can no longer be reached, and however many times disconnect is
    called afterwards close is never called on it. *)
Theorem X4_reconnect_leaves_first_socket_open :
  forall T s h n,
    Socket.socket (Socket.self s) = Some h ->
    (h < List.length (Socket.calls s))%nat ->
    Socket.closed h (Socket.calls s) = false ->
    Socket.t_socket T (Socket.calls s) = None ->
    Socket.socket (Socket.self (Socket.after (Socket.connect T) s))
    = Some (List.length (Socket.calls s))
    /\ Socket.closed h
         (Socket.calls
            (Socket.after (Socket.disconnect_times T n)
               (Socket.after (Socket.connect T) s))) = false.
Proof.
  intros T s h n Hsock Hlt Hopen Hnew.
  destruct (ClassFacts.connect_extends T s)
    as (evs & lines & o & b & E & Hev & Ho).
  specialize (Ho Hnew). subst o.
  unfold Socket.after at 1 3. rewrite E. cbn [fst].
  split; [reflexivity |].
  match goal with
  | |- context [Socket.after _ ?s1] =>
      destruct (ClassFacts.disconnect_times_extends T n s1)
        as (evs' & lines' & r & E' & Hev');
      unfold Socket.after; rewrite E'
  end.
  cbn [fst Socket.extend Socket.calls Socket.self Socket.socket] in *.
  rewrite !SocketFacts.closed_app, Hopen. cbn [orb].
  rewrite (@closed_none h evs), (@closed_none h evs'); [reflexivity | |].
  - intros ev Hin x Heq. subst ev.
    destruct (Hev' _ Hin) as (h' & x' & Hh & Heq).
    injection Hh as <-. injection Heq as -> _. lia.
  - intros ev Hin x Heq. subst ev.
    rewrite forallb_forall in Hev. specialize (Hev _ Hin).
    discriminate Hev.
Qed.

(** A second connect on the connected channel, then three disconnects:
    socket 0 is never closed. *)
Lemma X4_reconnect_leaves_first_socket_open_witness :
  Socket.socket
    (Socket.self
       (Socket.after (Socket.connect (Socket.tcp true [])) (Demo.online [])))
  = Some (List.length (Socket.calls (Demo.online [])))
  /\ Socket.closed 0
       (Socket.calls
          (Socket.after (Socket.disconnect_times (Socket.tcp true []) 3)
             (Socket.after (Socket.connect (Socket.tcp true []))
                (Demo.online [])))) = false.
Proof.
  apply (@X4_reconnect_leaves_first_socket_open (Socket.tcp true [])
           (Demo.online []) 0%nat 3%nat); try reflexivity.
  vm_compute. lia.
Defined.

(** X5.  VISAConnection.connect assigns the instrument before it sets the
    timeout.  When the timeout is rejected, connect returns False although
    the connection holds the opened instrument: a later send_command
    hands its command to that instrument. *)
Theorem X5_visa_connect_false_with_open_instrument :
  forall L name t e command,
    Visa.v_resource_manager L [] = None ->
    Visa.v_open_resource L [Visa.EvResourceManager (inr 0%nat)] 0%nat name
    = None ->
    Visa.v_set_timeout L
      [Visa.EvResourceManager (inr 0%nat);
       Visa.EvOpenResource 0 name (inr 1%nat)] 1%nat t = Some e ->
    Visa.outcome (Visa.connect L (Visa.fresh name t)) = inr false
    /\ Visa.instrument
         (Visa.self (Visa.after (Visa.connect L) (Visa.fresh name t)))
       = Some 1%nat
    /\ Visa.new_calls (Visa.after (Visa.connect L) (Visa.fresh name t))
         (Visa.final
            (Visa.send_command L command
               (Visa.after (Visa.connect L) (Visa.fresh name t))))
       = [Visa.EvWrite 1 command
            (Visa.v_write L
               (Visa.calls
                  (Visa.after (Visa.connect L) (Visa.fresh name t))) 1%nat
               command)].
Proof.
  intros L name t e command H0 H1 H2.
  assert (E : Visa.connect L (Visa.fresh name t)
              = ({| Visa.self :=
                      {| Visa.resource_string := name; Visa.timeout := t;
                         Visa.instrument := Some 1%nat;
                         Visa.rm := Some 0%nat |};
                    Visa.calls :=
                      [Visa.EvResourceManager (inr 0%nat);
                       Visa.EvOpenResource 0 name (inr 1%nat);
                       Visa.EvSetTimeout 1 t (Some e)];
                    Visa.stdout := [Visa.PrConnectionError e] |},
                 inr false)).
  { unfold Visa.fresh, Visa.init. VisaFacts.run. rewrite H0.
    VisaFacts.run. rewrite H1. VisaFacts.run. now rewrite H2. }
  unfold Visa.after. rewrite E. cbn [fst].
  split; [reflexivity |]. split; [reflexivity |].
  match goal with
  | |- context [Visa.send_command L command ?s1] =>
      destruct (Visa.v_write L (Visa.calls s1) 1%nat command) as [e' |] eqn:Hw;
      [ rewrite (@VisaFacts.visa_send_write_failed L s1 command 1%nat
                   eq_refl e' Hw)
      | rewrite (@VisaFacts.visa_send_written L s1 command 1%nat
                   eq_refl Hw) ]
  end; cbn [Visa.calls] in Hw; try rewrite Hw; reflexivity.
Qed.

Lemma X5_visa_connect_false_with_open_instrument_witness :
  Visa.outcome (Visa.connect Play.visa_picky (Visa.fresh Demo.resource 5000))
  = inr false
  /\ Visa.instrument
       (Visa.self
          (Visa.after (Visa.connect Play.visa_picky)
             (Visa.fresh Demo.resource 5000))) = Some 1%nat
  /\ Visa.new_calls
       (Visa.after (Visa.connect Play.visa_picky)
          (Visa.fresh Demo.resource 5000))
       (Visa.final
          (Visa.send_command Play.visa_picky (lit "OUTP 1")
             (Visa.after (Visa.connect Play.visa_picky)
                (Visa.fresh Demo.resource 5000))))
     = [Visa.EvWrite 1 (lit "OUTP 1")
          (Visa.v_write Play.visa_picky
             (Visa.calls
                (Visa.after (Visa.connect Play.visa_picky)
                   (Visa.fresh Demo.resource 5000))) 1%nat (lit "OUTP 1"))].
Proof.
  apply (@X5_visa_connect_false_with_open_instrument Play.visa_picky
           Demo.resource 5000%Z (OtherError "ValueError") (lit "OUTP 1"));
    reflexivity.
Defined.

(** ** The interactive session over SocketConnection *)

Module SocketCliFacts.
Import Py.

Lemma In_lstrip (x : codepoint) (s : str) : In x (lstrip s) -> In x s.
Proof.
  destruct (PyFacts.lstrip_suffix s) as [p Hp]. intros H.
  rewrite Hp. apply in_or_app. now right.
Qed.

(** [strip] only removes characters. *)
Lemma In_strip (x : codepoint) (s : str) : In x (strip s) -> In x s.
Proof.
  unfold strip, rstrip. intros H.
  apply In_lstrip in H. apply in_rev in H. apply In_lstrip in H.
  now apply in_rev.
Qed.

Lemma typed_one_line (k : Proc.key) :
  Proc.one_line k -> ~ In LF (Proc.typed k).
Proof.
  destruct k as [text | |]; cbn; auto.
  intros H Hin. now apply H, In_strip.
Qed.

(** A command without newline is framed with exactly one terminator. *)
Lemma framed_plain (command : str) (d : bytes) :
  ~ In LF command ->
  encode (Socket.terminate command) = Some d ->
  Socket.one_terminator d.
Proof.
  intros Hn Henc.
  rewrite (@terminate_plain command command Hn (or_introl eq_refl)) in Henc.
  apply PyFacts.encode_snoc_LF in Henc as (d0 & Hd0 & ->).
  exists d0. split; [reflexivity |].
  intros Hb. apply Hn. exact (PyFacts.encode_In_LF _ Hd0 Hb).
Qed.

(** What one key does to the connection is one [turn]. *)
Lemma apply_key_turn (T : Socket.transport) (c : Socket.state)
  (k : Proc.key) :
  exists evs lines,
    Proc.apply_key (Socket.send_command T) (Socket.query T) c k
    = Socket.extend c evs lines
    /\ SocketCli.turn k evs.
Proof.
  assert (Quiet : exists evs lines,
            c = Socket.extend c evs lines /\ SocketCli.turn k evs).
  { exists [], []. rewrite SocketFacts.extend_nil.
    split; [reflexivity | constructor]. }
  destruct k as [text | |]; cbn [Proc.apply_key]; try exact Quiet.
  destruct (Proc.is_empty (strip text)) eqn:Em; [exact Quiet |].
  assert (Hcmd : Proc.is_command (Proc.Line text) = true).
  { unfold Proc.is_command. cbn [Proc.typed]. now rewrite Em. }
  destruct (Proc.endswith_question (strip text)) eqn:Eq.
  - destruct (SocketFacts.query_paths T (strip text) c)
      as (evs & lines & v & E & P).
    rewrite E. cbn [fst]. exists evs, lines. split; [reflexivity |].
    destruct P; try constructor; auto.
  - destruct (SocketFacts.send_command_paths T (strip text) c)
      as (evs & lines & E & P).
    rewrite E. cbn [fst]. exists evs, lines. split; [reflexivity |].
    destruct P; try constructor; auto.
Qed.

(** What a run of keys does to the connection is their turns, in order. *)
Lemma session_turns (T : Socket.transport) (ks : list Proc.key) :
  forall c,
    exists evss lines,
      fold_left (Proc.apply_key (Socket.send_command T) (Socket.query T))
        ks c
      = Socket.extend c (List.concat evss) lines
      /\ Forall2 SocketCli.turn ks evss.
Proof.
  induction ks as [| k ks IH]; intros c.
  - exists [], []. cbn. rewrite SocketFacts.extend_nil. auto.
  - cbn [fold_left].
    destruct (apply_key_turn T c k) as (evs & lines & E & Ht).
    rewrite E.
    destruct (IH (Socket.extend c evs lines)) as (evss & lines' & E' & Hts).
    rewrite E', SocketFacts.extend_extend.
    exists (evs :: evss), (lines ++ lines'). split; [reflexivity |].
    now constructor.
Qed.

Lemma turns_in (ks : list Proc.key) (evss : list (list Socket.event))
  (ev : Socket.event) :
  Forall2 SocketCli.turn ks evss ->
  In ev (List.concat evss) ->
  exists k evs, In k ks /\ SocketCli.turn k evs /\ In ev evs.
Proof.
  induction 1 as [| k evs ks evss Ht Hts IH]; cbn; [easy |].
  intros Hin. apply in_app_or in Hin. destruct Hin as [Hin | Hin].
  - exists k, evs. auto.
  - destruct (IH Hin) as (k' & evs' & Hk & Ht' & He).
    exists k', evs'. auto.
Qed.

Lemma before_end_incl (ks : list Proc.key) (k : Proc.key) :
  In k (Proc.before_end ks) -> In k ks.
Proof.
  induction ks as [| k0 ks IH]; cbn; [easy |].
  destruct (Proc.ends_session k0); [easy |].
  intros [-> | H]; auto.
Qed.

(** The calls a session adds to the connection are the turns of the keys
    typed before the one that ends it. *)
Lemma scpi_command_turns (T : Socket.transport) (s : SocketCli.state) :
  exists evss,
    SocketCli.new_calls s (fst (SocketCli.scpi_command T s))
    = List.concat evss
    /\ Forall2 SocketCli.turn (Proc.before_end (Proc.keys s)) evss.
Proof.
  unfold SocketCli.new_calls, SocketCli.scpi_command.
  destruct (ProcFacts.scpi_command_runs Socket.stdout SocketCli.Class
              (Socket.send_command T) (Socket.query T)
              SocketCli.PrEnterCommands SocketCli.PrUseQuestionMark
              SocketCli.PromptSCPI SocketCli.PrExiting SocketCli.PrError s)
    as (_ & _ & _ & Hc).
  rewrite Hc.
  destruct (session_turns T (Proc.before_end (Proc.keys s)) (Proc.conn s))
    as (evss & lines & E & Hts).
  rewrite E, SocketFacts.new_calls_extend. now exists evss.
Qed.

Lemma turns_count (f : Socket.event -> bool) (g : Proc.key -> bool)
  (ks : list Proc.key) (evss : list (list Socket.event)) :
  (forall k evs, SocketCli.turn k evs ->
     (List.length (filter f evs) <= (if g k then 1 else 0))%nat) ->
  Forall2 SocketCli.turn ks evss ->
  (List.length (filter f (List.concat evss))
   <= List.length (filter g ks))%nat.
Proof.
  intros Hone. induction 1 as [| k evs ks evss Ht Hts IH]; cbn; [lia |].
  rewrite filter_app, length_app. specialize (Hone k evs Ht).
  destruct (g k); cbn; lia.
Qed.

End SocketCliFacts.


(** X7.  Whatever the user types at the prompt of scpi_command, every
    byte string the session writes to the socket ends in exactly one
    terminator and holds no other: the lines of input() hold no newline,
    strip leaves none, and send_command and query append the one that is
    missing. *)
Theorem X7_session_frames_every_command :
  forall T s h d r,
    Forall Proc.one_line (Proc.keys s) ->
    In (Socket.EvSendall h d r)
       (SocketCli.new_calls s (fst (SocketCli.scpi_command T s))) ->
    Socket.one_terminator d.
Proof.
  intros T s h d r Hlines Hin.
  destruct (SocketCliFacts.scpi_command_turns T s) as (evss & E & Hts).
  rewrite E in Hin.
  destruct (@SocketCliFacts.turns_in _ _ _ Hts Hin) as (k & evs & Hk & Ht & He).
  apply SocketCliFacts.before_end_incl in Hk.
  rewrite Forall_forall in Hlines. specialize (Hlines k Hk).
  apply SocketCliFacts.typed_one_line in Hlines.
  apply (@SocketCliFacts.framed_plain (Proc.typed k) d); [exact Hlines |].
  destruct Ht; cbn [In] in He;
    repeat match goal with
    | H : _ \/ _ |- _ => destruct H
    | H : False |- _ => destruct H
    | H : _ = Socket.EvSendall _ _ _ |- _ => inversion H; clear H; subst
    end; assumption.
Qed.

(** The session of [Play.typing] on a connected channel: the write of
    MEAS:VOLT? carries one terminator. *)
Lemma X7_session_frames_every_command_witness :
  Socket.one_terminator Demo.meas_volt_data.
Proof.
  apply (@X7_session_frames_every_command (Socket.tcp true Demo.replies)
           (SocketCli.holding (Demo.online Demo.replies) Play.typing)
           0%nat Demo.meas_volt_data None).
  - repeat constructor; cbn; unfold LF;
      intros H; repeat (destruct H as [H | H]; [discriminate H |]);
      exact H.
  - vm_compute. tauto.
Defined.

(** X8.  A session calls nothing on the transport but write and read, and
    no more of them than was typed: at most one write for each line that
    is not blank, and at most one read for each line that ends in a
    question mark, counted over the keys before the one that ends the
    session.  Blank lines, end of file and what follows exit cause no
    transport call, and a command without question mark never causes a
    read. *)
Theorem X8_session_calls_bounded_by_input :
  forall T s,
    forallb (fun ev => Socket.is_write ev || Socket.is_read ev)
      (SocketCli.new_calls s (fst (SocketCli.scpi_command T s))) = true
    /\ (List.length
          (filter Socket.is_write
             (SocketCli.new_calls s (fst (SocketCli.scpi_command T s))))
        <= List.length
             (filter Proc.is_command (Proc.before_end (Proc.keys s))))%nat
    /\ (List.length
          (filter Socket.is_read
             (SocketCli.new_calls s (fst (SocketCli.scpi_command T s))))
        <= List.length
             (filter Proc.is_question (Proc.before_end (Proc.keys s))))%nat.
Proof.
  intros T s.
  destruct (SocketCliFacts.scpi_command_turns T s) as (evss & E & Hts).
  rewrite E. split; [| split].
  - apply forallb_forall. intros ev Hin.
    destruct (@SocketCliFacts.turns_in _ _ _ Hts Hin) as (k & evs & _ & Ht & He).
    destruct Ht; cbn [In] in He;
      repeat match goal with
      | H : _ \/ _ |- _ => destruct H
      | H : False |- _ => destruct H
      end; subst ev; reflexivity.
  - apply SocketCliFacts.turns_count; [| exact Hts].
    intros k evs Ht. destruct Ht as [| ? ? ? Hc | ? ? ? Hc]; cbn;
      try rewrite Hc; lia.
  - apply SocketCliFacts.turns_count; [| exact Hts].
    intros k evs Ht. destruct Ht as [| | ? ? ? ? Hq]; cbn;
      try rewrite Hq; try lia.
Qed.

(** ** The interactive session over VISAConnection *)

Module VisaCliFacts.
Import Py.

Lemma visa_new_calls_extend (s : Visa.state) evs lines :
  Visa.new_calls s (Visa.extend s evs lines) = evs.
Proof.
  unfold Visa.new_calls, Visa.extend. cbn [Visa.calls].
  rewrite skipn_app, Nat.sub_diag, skipn_all. reflexivity.
Qed.

(** [query] of VISAConnection makes at most the one call of pyvisa's
    query, with the command as it was given. *)
Lemma visa_query_paths (L : Visa.library) (command : str) (s : Visa.state) :
  exists evs lines v,
    Visa.query L command s = (Visa.extend s evs lines, inr v)
    /\ (evs = [] \/ exists i r, evs = [Visa.EvQuery i command r]).
Proof.
  destruct (Visa.instrument (Visa.self s)) as [i |] eqn:Hinst.
  2:{ rewrite (@VisaFacts.visa_query_no_instrument L s command Hinst),
        VisaFacts.visa_emit_extend. eexists _, _, _. eauto. }
  destruct (Visa.v_query L (Visa.calls s) i command) as [e | text] eqn:Hq.
  - rewrite (@VisaFacts.visa_query_failed L s command i Hinst e Hq),
      VisaFacts.visa_emit_record_extend. eexists _, _, _. eauto.
  - rewrite (@VisaFacts.visa_query_answered L s command i Hinst text Hq).
    exists [Visa.EvQuery i command (inr text)],
      [Visa.PrQuery (strip command); Visa.PrResponse (strip text)],
      (Some (strip text)).
    split; [| eauto].
    unfold Visa.emit, Visa.record, Visa.extend. cbn.
    now rewrite <- !app_assoc.
Qed.

Lemma visa_apply_key_turn (L : Visa.library) (c : Visa.state)
  (k : Proc.key) :
  exists evs lines,
    Proc.apply_key (Visa.send_command L) (Visa.query L) c k
    = Visa.extend c evs lines
    /\ VisaCli.turn k evs.
Proof.
  assert (Quiet : exists evs lines,
            c = Visa.extend c evs lines /\ VisaCli.turn k evs).
  { exists [], []. rewrite VisaFacts.visa_extend_nil.
    split; [reflexivity | constructor]. }
  destruct k as [text | |]; cbn [Proc.apply_key]; try exact Quiet.
  destruct (Proc.is_empty (strip text)) eqn:Em; [exact Quiet |].
  assert (Hcmd : Proc.is_command (Proc.Line text) = true).
  { unfold Proc.is_command. cbn [Proc.typed]. now rewrite Em. }
  destruct (Proc.endswith_question (strip text)) eqn:Eq.
  - destruct (visa_query_paths L (strip text) c)
      as (evs & lines & v & E & P).
    rewrite E. cbn [fst]. exists evs, lines. split; [reflexivity |].
    destruct P as [-> | (i & r & ->)]; [constructor |].
    exact (@VisaCli.TurnQuery (Proc.Line text) i r Hcmd Eq).
  - destruct (VisaFacts.visa_send_command_paths L (strip text) c)
      as (evs & lines & E & P).
    rewrite E. cbn [fst]. exists evs, lines. split; [reflexivity |].
    destruct P as [| i e | i]; [constructor | |].
    + exact (@VisaCli.TurnWrite (Proc.Line text) i (Some e) Hcmd Eq).
    + exact (@VisaCli.TurnWrite (Proc.Line text) i None Hcmd Eq).
Qed.

Lemma visa_session_turns (L : Visa.library) (ks : list Proc.key) :
  forall c,
    exists evss lines,
      fold_left (Proc.apply_key (Visa.send_command L) (Visa.query L)) ks c
      = Visa.extend c (List.concat evss) lines
      /\ Forall2 VisaCli.turn ks evss.
Proof.
  induction ks as [| k ks IH]; intros c.
  - exists [], []. cbn. rewrite VisaFacts.visa_extend_nil. auto.
  - cbn [fold_left].
    destruct (visa_apply_key_turn L c k) as (evs & lines & E & Ht).
    rewrite E.
    destruct (IH (Visa.extend c evs lines)) as (evss & lines' & E' & Hts).
    rewrite E', VisaFacts.visa_extend_extend.
    exists (evs :: evss), (lines ++ lines'). split; [reflexivity |].
    now constructor.
Qed.

Lemma visa_turns_in (ks : list Proc.key) (evss : list (list Visa.event))
  (ev : Visa.event) :
  Forall2 VisaCli.turn ks evss ->
  In ev (List.concat evss) ->
  exists k evs, In k ks /\ VisaCli.turn k evs /\ In ev evs.
Proof.
  induction 1 as [| k evs ks evss Ht Hts IH]; cbn; [easy |].
  intros Hin. apply in_app_or in Hin. destruct Hin as [Hin | Hin].
  - exists k, evs. auto.
  - destruct (IH Hin) as (k' & evs' & Hk & Ht' & He).
    exists k', evs'. auto.
Qed.

Lemma visa_scpi_command_turns (L : Visa.library) (s : VisaCli.state) :
  exists evss,
    VisaCli.new_calls s (fst (VisaCli.scpi_command L s)) = List.concat evss
    /\ Forall2 VisaCli.turn (Proc.before_end (Proc.keys s)) evss.
Proof.
  unfold VisaCli.new_calls, VisaCli.scpi_command.
  destruct (ProcFacts.scpi_command_runs Visa.stdout VisaCli.Class
              (Visa.send_command L) (Visa.query L)
              VisaCli.PrEnterCommands VisaCli.PrUseQuestionMark
              VisaCli.PromptSCPI VisaCli.PrExiting VisaCli.PrError s)
    as (_ & _ & _ & Hc).
  rewrite Hc.
  destruct (visa_session_turns L (Proc.before_end (Proc.keys s))
              (Proc.conn s)) as (evss & lines & E & Hts).
  rewrite E, visa_new_calls_extend. now exists evss.
Qed.

End VisaCliFacts.

(** X9.  Over a VISAConnection the class adds no terminator of its own:
    every call into pyvisa that a session of scpi_command makes is a write
    or a query whose message is, unchanged, the stripped text of a line
    typed before the end of the session, a query exactly when that text
    ends in a question mark; the session never opens or closes
    anything. *)
Theorem X9_visa_session_hands_lines_verbatim :
  forall L s ev,
    In ev (VisaCli.new_calls s (fst (VisaCli.scpi_command L s))) ->
    exists k m,
      In k (Proc.before_end (Proc.keys s))
      /\ VisaCli.message_of ev = Some m
      /\ m = Proc.typed k
      /\ Proc.is_command k = true
      /\ VisaCli.is_query ev = Proc.endswith_question m.
Proof.
  intros L s ev Hin.
  destruct (VisaCliFacts.visa_scpi_command_turns L s) as (evss & E & Hts).
  rewrite E in Hin.
  destruct (@VisaCliFacts.visa_turns_in _ _ _ Hts Hin)
    as (k & evs & Hk & Ht & He).
  exists k, (Proc.typed k).
  destruct Ht as [| i r Hc Hq | i r Hc Hq]; cbn [In] in He;
    [easy | |]; destruct He as [<- | []]; cbn;
    unfold Proc.is_question in Hq; auto.
Qed.

(** The session of [Play.typing]: the query of MEAS:VOLT? *)
Lemma X9_visa_session_hands_lines_verbatim_witness :
  exists k m,
    In k (Proc.before_end Play.typing)
    /\ VisaCli.message_of
         (Visa.EvQuery 1 Demo.meas_volt (inl (OtherError "VisaIOError")))
       = Some m
    /\ m = Proc.typed k
    /\ Proc.is_command k = true
    /\ VisaCli.is_query
         (Visa.EvQuery 1 Demo.meas_volt (inl (OtherError "VisaIOError")))
       = Proc.endswith_question m.
Proof.
  apply (@X9_visa_session_hands_lines_verbatim (Visa.bench true [])
           (VisaCli.holding (Demo.visa_online []) Play.typing)
           (Visa.EvQuery 1 Demo.meas_volt (inl (OtherError "VisaIOError")))).
  vm_compute. tauto.
Defined.

(** ** What reaches the socket: sessions and the basic configuration *)

Module ScriptFacts.
Import Py.

Lemma written_app (a b : list Socket.event) :
  SocketCli.written (a ++ b) = SocketCli.written a ++ SocketCli.written b.
Proof. unfold SocketCli.written. apply flat_map_app. Qed.

(** On a connection that holds a socket, a key makes the session attempt
    the write of its frame, whatever the write and the read then do. *)
Lemma apply_key_attempt (T : Socket.transport) (c : Socket.state)
  (k : Proc.key) (h : Socket.handle) :
  Socket.socket (Socket.self c) = Some h ->
  exists evs lines,
    Proc.apply_key (Socket.send_command T) (Socket.query T) c k
    = Socket.extend c evs lines
    /\ SocketCli.written evs = SocketCli.frame k
    /\ (List.length (filter Socket.is_read evs)
        <= (if Proc.is_question k then 1 else 0))%nat.
Proof.
  intros Hsock.
  assert (Quiet : Proc.is_command k = false ->
            exists evs lines,
              c = Socket.extend c evs lines
              /\ SocketCli.written evs = SocketCli.frame k
              /\ (List.length (filter Socket.is_read evs)
                  <= (if Proc.is_question k then 1 else 0))%nat).
  { intros Hq. exists [], []. rewrite SocketFacts.extend_nil.
    unfold SocketCli.frame. rewrite Hq. cbn. repeat split. lia. }
  destruct k as [text | |]; cbn [Proc.apply_key];
    try (apply Quiet; reflexivity).
  destruct (Proc.is_empty (strip text)) eqn:Em.
  { apply Quiet. unfold Proc.is_command. cbn [Proc.typed]. now rewrite Em. }
  unfold SocketCli.frame, Proc.is_command, Proc.is_question.
  cbn [Proc.typed]. rewrite Em. cbn [negb].
  destruct (encode (Socket.terminate (strip text))) as [d |] eqn:Henc.
  2:{ destruct (Proc.endswith_question (strip text)).
      - rewrite (@SocketFacts.query_unencodable T c (strip text) h Hsock
                   Henc).
        cbn [fst]. rewrite SocketFacts.emit_extend.
        eexists _, _. split; [reflexivity |]. cbn. split; [reflexivity | lia].
      - rewrite (@SocketFacts.send_unencodable T c (strip text) h Hsock
                   Henc).
        cbn [fst]. rewrite SocketFacts.emit_extend.
        eexists _, _. split; [reflexivity |]. cbn. split; [reflexivity | lia].
  }
  destruct (Socket.t_sendall T (Socket.calls c) h d) as [e |] eqn:Hw.
  - destruct (Proc.endswith_question (strip text)).
    + rewrite (@SocketFacts.query_write_failed T c (strip text) h Hsock d
                 Henc e Hw).
      cbn [fst]. SocketFacts.to_extend.
      eexists _, _. split; [reflexivity |]. cbn. split; [reflexivity | lia].
    + rewrite (@SocketFacts.send_write_failed T c (strip text) h Hsock d
                 Henc e Hw).
      cbn [fst]. SocketFacts.to_extend.
      eexists _, _. split; [reflexivity |]. cbn. split; [reflexivity | lia].
  - destruct (Proc.endswith_question (strip text)).
    + destruct (SocketFacts.query_written T c (strip text) Hsock Henc Hw)
        as (lines & v & E).
      rewrite E. cbn [fst]. unfold Socket.round_trip.
      eexists _, _. split; [reflexivity |]. cbn. split; [reflexivity | lia].
    + rewrite (@SocketFacts.send_written T c (strip text) h Hsock d Henc Hw).
      cbn [fst]. SocketFacts.to_extend.
      eexists _, _. split; [reflexivity |]. cbn. split; [reflexivity | lia].
Qed.

Lemma session_attempts (T : Socket.transport) (h : Socket.handle)
  (ks : list Proc.key) :
  forall c,
    Socket.socket (Socket.self c) = Some h ->
    exists evs lines,
      fold_left (Proc.apply_key (Socket.send_command T) (Socket.query T))
        ks c
      = Socket.extend c evs lines
      /\ SocketCli.written evs = flat_map SocketCli.frame ks
      /\ (List.length (filter Socket.is_read evs)
          <= List.length (filter Proc.is_question ks))%nat.
Proof.
  induction ks as [| k ks IH]; intros c Hsock.
  - exists [], []. cbn. rewrite SocketFacts.extend_nil.
    repeat split. lia.
  - cbn [fold_left flat_map filter].
    destruct (apply_key_attempt T c k Hsock) as (evs & lines & E & Hw & Hr).
    rewrite E.
    destruct (IH (Socket.extend c evs lines) Hsock)
      as (evs' & lines' & E' & Hw' & Hr').
    rewrite E', SocketFacts.extend_extend.
    eexists _, _. split; [reflexivity |].
    rewrite written_app, Hw, Hw', filter_app, length_app.
    split; [reflexivity |].
    destruct (Proc.is_question k); cbn [List.length]; lia.
Qed.

Lemma send_returns (T : Socket.transport) (command : str)
  (c : Socket.state) :
  snd (Socket.send_command T command c) = inr tt.
Proof.
  destruct (SocketFacts.send_command_paths T command c)
    as (evs & lines & E & _).
  now rewrite E.
Qed.

Lemma query_returns (T : Socket.transport) (command : str)
  (c : Socket.state) :
  exists v, snd (Socket.query T command c) = inr v.
Proof.
  destruct (SocketFacts.query_paths T command c)
    as (evs & lines & v & E & _).
  rewrite E. now exists v.
Qed.

(** A lifted [send_command] or [query] returns to the script. *)
Lemma bind_send {B} (T : Socket.transport) (command : str)
  (k : unit -> SocketCli.P B) (s : SocketCli.state) :
  Proc.bind (SocketCli.lift (Socket.send_command T command)) k s
  = k tt (Proc.moved Socket.stdout SocketCli.Class
            (fst (Socket.send_command T command (Proc.conn s))) s).
Proof.
  unfold Proc.bind, SocketCli.lift.
  now rewrite ProcFacts.lift_eq, send_returns.
Qed.

Lemma bind_query {B} (T : Socket.transport) (command : str)
  (k : SocketCli.P B) (s : SocketCli.state) :
  Proc.bind (SocketCli.lift (Socket.query T command)) (fun _ => k) s
  = k (Proc.moved Socket.stdout SocketCli.Class
         (fst (Socket.query T command (Proc.conn s))) s).
Proof.
  unfold Proc.bind, SocketCli.lift.
  rewrite ProcFacts.lift_eq.
  destruct (query_returns T command (Proc.conn s)) as [v ->].
  reflexivity.
Qed.

(** [basic_configuration] returns, has slept two seconds, and has done to
    the connection what its seven commands do, in program order. *)
Lemma basic_configuration_runs (T : Socket.transport) (s : SocketCli.state) :
  snd (SocketCli.basic_configuration T s) = Proc.Returned tt
  /\ Proc.naps (fst (SocketCli.basic_configuration T s)) = Proc.naps s ++ [2%Z]
  /\ Proc.keys (fst (SocketCli.basic_configuration T s)) = Proc.keys s
  /\ Proc.conn (fst (SocketCli.basic_configuration T s))
     = fold_left (Proc.apply_key (Socket.send_command T) (Socket.query T))
         (List.map Proc.Line
            [lit "VOLT:MODE AC"; lit "VOLT:AC 100"; lit "FREQ 60";
             lit "OUTP 1;"; lit ":*OPC?"; lit "MEAS:VOLT?";
             lit "MEAS:FREQ?"])
         (Proc.conn s).
Proof.
  assert (H : exists s',
            SocketCli.basic_configuration T s = (s', Proc.Returned tt)
            /\ Proc.naps s' = Proc.naps s ++ [2%Z]
            /\ Proc.keys s' = Proc.keys s
            /\ Proc.conn s'
               = fold_left
                   (Proc.apply_key (Socket.send_command T) (Socket.query T))
                   (List.map Proc.Line
                      [lit "VOLT:MODE AC"; lit "VOLT:AC 100"; lit "FREQ 60";
                       lit "OUTP 1;"; lit ":*OPC?"; lit "MEAS:VOLT?";
                       lit "MEAS:FREQ?"])
                   (Proc.conn s)).
  { unfold SocketCli.basic_configuration.
    unfold Proc.bind at 1. cbn [Proc.print].
    unfold Proc.bind at 1. cbn [Proc.sleep].
    rewrite !bind_send, !bind_query. cbn [Proc.print].
    eexists. split; [reflexivity |].
    cbn [Proc.naps Proc.keys Proc.conn Proc.emit Proc.moved].
    repeat split. }
  destruct H as (s' & E & H1 & H2 & H3). rewrite E. auto.
Qed.

(** On a connection that holds a socket, [basic_configuration] attempts
    the writes of its seven commands, in program order, and makes at most
    three reads. *)
Lemma basic_configuration_written (T : Socket.transport)
  (s : SocketCli.state) (h : Socket.handle) :
  Socket.socket (Socket.self (Proc.conn s)) = Some h ->
  SocketCli.written
    (SocketCli.new_calls s (fst (SocketCli.basic_configuration T s)))
  = [Demo.ascii_bytes "VOLT:MODE AC" ++ [LF_byte];
     Demo.ascii_bytes "VOLT:AC 100" ++ [LF_byte];
     Demo.ascii_bytes "FREQ 60" ++ [LF_byte];
     Demo.ascii_bytes "OUTP 1;" ++ [LF_byte];
     Demo.ascii_bytes ":*OPC?" ++ [LF_byte];
     Demo.ascii_bytes "MEAS:VOLT?" ++ [LF_byte];
     Demo.ascii_bytes "MEAS:FREQ?" ++ [LF_byte]]
  /\ (List.length
        (filter Socket.is_read
           (SocketCli.new_calls s
              (fst (SocketCli.basic_configuration T s)))) <= 3)%nat.
Proof.
  intros Hsock.
  destruct (basic_configuration_runs T s) as (_ & _ & _ & Hc).
  unfold SocketCli.new_calls. rewrite Hc.
  match goal with
  | |- context [fold_left _ ?ks _] =>
      destruct (session_attempts T ks (Proc.conn s) Hsock)
        as (evs & lines & E & Hw & Hr)
  end.
  rewrite E, SocketFacts.new_calls_extend.
  split; [exact Hw | exact Hr].
Qed.

End ScriptFacts.

(** X10.  On a connection that holds a socket, a session of scpi_command
    attempts the write of every command typed, in the order typed,
    whatever the writes and reads do: the byte strings handed to the
    transport are exactly the framed UTF-8 encodings of the lines that are
    not blank (and can be encoded), up to the key that ends the session.  A
    failed command neither stops the session nor is it retried. *)
Theorem X10_session_attempts_every_command :
  forall T s h,
    Socket.socket (Socket.self (Proc.conn s)) = Some h ->
    SocketCli.written
      (SocketCli.new_calls s (fst (SocketCli.scpi_command T s)))
    = flat_map SocketCli.frame (Proc.before_end (Proc.keys s)).
Proof.
  intros T s h Hsock.
  unfold SocketCli.new_calls, SocketCli.scpi_command.
  destruct (ProcFacts.scpi_command_runs Socket.stdout SocketCli.Class
              (Socket.send_command T) (Socket.query T)
              SocketCli.PrEnterCommands SocketCli.PrUseQuestionMark
              SocketCli.PromptSCPI SocketCli.PrExiting SocketCli.PrError s)
    as (_ & _ & _ & Hc).
  rewrite Hc.
  destruct (ScriptFacts.session_attempts T (Proc.before_end (Proc.keys s))
              (Proc.conn s) Hsock) as (evs & lines & E & Hw & _).
  now rewrite E, SocketFacts.new_calls_extend.
Qed.

(** The session of [Play.typing] after a connect that was refused: every
    write fails, and the three commands typed before EXIT are all
    attempted. *)
Lemma X10_session_attempts_every_command_witness :
  SocketCli.written
    (SocketCli.new_calls (SocketCli.holding Demo.refused Play.typing)
       (fst (SocketCli.scpi_command (Socket.tcp false [])
               (SocketCli.holding Demo.refused Play.typing))))
  = flat_map SocketCli.frame
      (Proc.before_end
         (Proc.keys (SocketCli.holding Demo.refused Play.typing))).
Proof.
  apply (@X10_session_attempts_every_command (Socket.tcp false [])
           (SocketCli.holding Demo.refused Play.typing) 0%nat).
  reflexivity.
Defined.

(** X11.  basic_configuration never raises and needs no input.  It sleeps
    two seconds once.  On a connection that holds a socket it attempts its
    seven commands in program order whatever fails, each framed by one
    terminator, and makes at most three reads; on a connection without
    socket it makes no transport call at all. *)
Theorem X11_basic_configuration_attempts_all_seven :
  (forall T s,
     snd (SocketCli.basic_configuration T s) = Proc.Returned tt
     /\ Proc.naps (fst (SocketCli.basic_configuration T s))
        = Proc.naps s ++ [2%Z]
     /\ Proc.keys (fst (SocketCli.basic_configuration T s)) = Proc.keys s)
  /\ (forall T s h,
        Socket.socket (Socket.self (Proc.conn s)) = Some h ->
        SocketCli.written
          (SocketCli.new_calls s (fst (SocketCli.basic_configuration T s)))
        = [Demo.ascii_bytes "VOLT:MODE AC" ++ [LF_byte];
           Demo.ascii_bytes "VOLT:AC 100" ++ [LF_byte];
           Demo.ascii_bytes "FREQ 60" ++ [LF_byte];
           Demo.ascii_bytes "OUTP 1;" ++ [LF_byte];
           Demo.ascii_bytes ":*OPC?" ++ [LF_byte];
           Demo.ascii_bytes "MEAS:VOLT?" ++ [LF_byte];
           Demo.ascii_bytes "MEAS:FREQ?" ++ [LF_byte]]
        /\ (List.length
              (filter Socket.is_read
                 (SocketCli.new_calls s
                    (fst (SocketCli.basic_configuration T s)))) <= 3)%nat)
  /\ (forall T s,
        Socket.socket (Socket.self (Proc.conn s)) = None ->
        SocketCli.new_calls s (fst (SocketCli.basic_configuration T s))
        = []).
Proof.
  split; [| split].
  - intros T s.
    destruct (ScriptFacts.basic_configuration_runs T s) as (H1 & H2 & H3 & _).
    auto.
  - intros T s h Hsock.
    exact (ScriptFacts.basic_configuration_written T s Hsock).
  - intros T s Hsock.
    destruct (ScriptFacts.basic_configuration_runs T s) as (_ & _ & _ & Hc).
    unfold SocketCli.new_calls. rewrite Hc.
    cbn [List.map fold_left Proc.apply_key].
    repeat
      (match goal with
       | |- context [Socket.send_command T ?c ?x] =>
           rewrite (@SocketFacts.send_no_socket T x c)
             by (try rewrite !SocketFacts.emit_extend,
                   ?SocketFacts.extend_extend; exact Hsock)
       | |- context [Socket.query T ?c ?x] =>
           rewrite (@SocketFacts.query_no_socket T x c)
             by (try rewrite !SocketFacts.emit_extend,
                   ?SocketFacts.extend_extend; exact Hsock)
       end;
       cbn -[Socket.send_command Socket.query Socket.new_calls Socket.emit]).
    rewrite !SocketFacts.emit_extend, ?SocketFacts.extend_extend.
    apply SocketFacts.new_calls_extend.
Qed.

(** The basic configuration on a channel whose connect was refused: all
    seven writes are attempted on socket 0. *)
Lemma X11_basic_configuration_attempts_all_seven_witness :
  SocketCli.written
    (SocketCli.new_calls (SocketCli.holding Demo.refused [])
       (fst (SocketCli.basic_configuration (Socket.tcp false [])
               (SocketCli.holding Demo.refused []))))
  = [Demo.ascii_bytes "VOLT:MODE AC" ++ [LF_byte];
     Demo.ascii_bytes "VOLT:AC 100" ++ [LF_byte];
     Demo.ascii_bytes "FREQ 60" ++ [LF_byte];
     Demo.ascii_bytes "OUTP 1;" ++ [LF_byte];
     Demo.ascii_bytes ":*OPC?" ++ [LF_byte];
     Demo.ascii_bytes "MEAS:VOLT?" ++ [LF_byte];
     Demo.ascii_bytes "MEAS:FREQ?" ++ [LF_byte]]
  /\ (List.length
        (filter Socket.is_read
           (SocketCli.new_calls (SocketCli.holding Demo.refused [])
              (fst (SocketCli.basic_configuration (Socket.tcp false [])
                      (SocketCli.holding Demo.refused []))))) <= 3)%nat
  /\ SocketCli.new_calls (SocketCli.holding Demo.created [])
       (fst (SocketCli.basic_configuration (Socket.tcp false [])
               (SocketCli.holding Demo.created []))) = [].
Proof.
  split; [| split].
  - apply (proj1 (proj2 X11_basic_configuration_attempts_all_seven)
             (Socket.tcp false []) (SocketCli.holding Demo.refused [])
             0%nat eq_refl).
  - apply (proj1 (proj2 X11_basic_configuration_attempts_all_seven)
             (Socket.tcp false []) (SocketCli.holding Demo.refused [])
             0%nat eq_refl).
  - apply (proj2 (proj2 X11_basic_configuration_attempts_all_seven)
             (Socket.tcp false []) (SocketCli.holding Demo.created [])).
    reflexivity.
Defined.

(** ** [main] over SocketConnection *)

Module MainFacts.
Import Py.

(** A connect that returns True from a connection just constructed has
    left socket 0 in it. *)
Lemma connected_socket (T : Socket.transport) (ip : str) (port t : Z) :
  Socket.outcome (Socket.connect T (Socket.fresh ip port t)) = inr true ->
  Socket.socket
    (Socket.self (Socket.after (Socket.connect T) (Socket.fresh ip port t)))
  = Some 0%nat.
Proof.
  destruct (SocketFacts.connect_paths T ip port t)
    as (evs & lines & o & b & E & P).
  unfold Socket.outcome, Socket.after. rewrite E. cbn [fst snd].
  intros [= ->]. now inversion P.
Qed.

(** What the keys of a session do to the connection keeps its object. *)
Lemma session_self (T : Socket.transport) (ks : list Proc.key)
  (c : Socket.state) :
  Socket.self
    (fold_left (Proc.apply_key (Socket.send_command T) (Socket.query T))
       ks c)
  = Socket.self c.
Proof.
  destruct (SocketCliFacts.session_turns T ks c) as (evss & lines & E & _).
  now rewrite E.
Qed.

(** [disconnect] on a connection that holds socket [h]. *)
Lemma disconnect_holding (T : Socket.transport) (c : Socket.state)
  (h : Socket.handle) :
  Socket.socket (Socket.self c) = Some h ->
  Socket.new_calls c (Socket.after (Socket.disconnect T) c)
  = [Socket.EvClose h (Socket.t_close T (Socket.calls c) h)]
  /\ snd (Socket.disconnect T c)
     = match Socket.t_close T (Socket.calls c) h with
       | Some e => inl e
       | None => inr tt
       end.
Proof.
  intros Hsock. unfold Socket.after.
  destruct (Socket.t_close T (Socket.calls c) h) as [e |] eqn:Hc.
  - rewrite (@SocketFacts.disconnect_close_failed T c h Hsock e Hc).
    cbn [fst snd]. now rewrite SocketFacts.new_calls_extend.
  - rewrite (@SocketFacts.disconnect_closed T c h Hsock Hc).
    cbn [fst snd]. now rewrite SocketFacts.new_calls_extend.
Qed.

Section Main.

Variable T : Socket.transport.
Variable t : SocketCli.script.
Variable session : SocketCli.P unit.
Variables (ip : str) (port : Z) (ks : list Proc.key).

(** [main] when connect returns False: the five lines of advice, one key,
    and exit status 1; the session never starts and disconnect is not
    called. *)
Lemma main_of_refused :
  Socket.outcome
    (Socket.connect T (Socket.fresh ip port Socket.CONNECTION_TIMEOUT))
  = inr false ->
  snd (SocketCli.main_of T t session ip port (SocketCli.boot ks))
  = match ks with
    | [] => Proc.Blocked
    | _ :: _ => Proc.Exited 1
    end
  /\ Proc.conn (fst (SocketCli.main_of T t session ip port (SocketCli.boot ks)))
     = Socket.after (Socket.connect T)
         (Socket.fresh ip port Socket.CONNECTION_TIMEOUT)
  /\ Proc.keys (fst (SocketCli.main_of T t session ip port (SocketCli.boot ks)))
     = tl ks.
Proof.
  intros H. unfold Socket.outcome in H.
  unfold SocketCli.main_of, SocketCli.boot, Socket.after.
  cbn -[Socket.connect Socket.disconnect].
  unfold SocketCli.lift. rewrite ProcFacts.bind_lift.
  cbn [Proc.conn Proc.moved Proc.emit].
  change {| Socket.self := Socket.init ip port Socket.CONNECTION_TIMEOUT;
            Socket.calls := []; Socket.stdout := [] |}
    with (Socket.fresh ip port Socket.CONNECTION_TIMEOUT).
  rewrite H. cbn [negb].
  unfold Proc.bind at 1.
  repeat (unfold Proc.bind at 1; cbn [Proc.print]).
  rewrite ProcFacts.wait_for_key_press_runs.
  cbn [Proc.keys Proc.emit Proc.moved].
  destruct ks; cbn; auto.
Qed.

(** [main] when connect returns True: the session runs in the state
    connect left, inside the try statement. *)
Lemma main_of_connected :
  Socket.outcome
    (Socket.connect T (Socket.fresh ip port Socket.CONNECTION_TIMEOUT))
  = inr true ->
  exists s2,
    Proc.conn s2
    = Socket.after (Socket.connect T)
        (Socket.fresh ip port Socket.CONNECTION_TIMEOUT)
    /\ Proc.keys s2 = ks
    /\ SocketCli.main_of T t session ip port (SocketCli.boot ks)
       = Proc.try_finally
           (Proc.try_except session
              (Proc.print SocketCli.PrInterrupted)
              (fun e =>
                 Proc.bind (Proc.print (SocketCli.PrUnexpected e)) (fun _ =>
                 Proc.bind (Proc.print (SocketCli.PrTraceback e)) (fun _ =>
                 Proc.wait_for_key_press SocketCli.PromptPressEnter))))
           (Proc.bind (SocketCli.lift (Socket.disconnect T)) (fun _ =>
            Proc.bind (Proc.print SocketCli.PrFinished) (fun _ =>
            Proc.wait_for_key_press SocketCli.PromptPressEnter)))
           s2.
Proof.
  intros H. unfold Socket.outcome in H.
  unfold SocketCli.main_of, SocketCli.boot, Socket.after.
  cbn -[Socket.connect Socket.disconnect].
  unfold SocketCli.lift at 1. rewrite ProcFacts.bind_lift.
  cbn [Proc.conn Proc.moved Proc.emit].
  change {| Socket.self := Socket.init ip port Socket.CONNECTION_TIMEOUT;
            Socket.calls := []; Socket.stdout := [] |}
    with (Socket.fresh ip port Socket.CONNECTION_TIMEOUT).
  rewrite H. cbn [negb].
  unfold Proc.bind at 1. cbn [Proc.ret].
  eexists. split; [| split; [| reflexivity]]; reflexivity.
Qed.

End Main.

(** The [finally] clause of [main] on a connection that holds socket [h]:
    close is called on it; when close raises, the exception leaves [main];
    otherwise the last line is printed and one more key is awaited. *)
Lemma closing (T : Socket.transport) (s : SocketCli.state)
  (h : Socket.handle) :
  Socket.socket (Socket.self (Proc.conn s)) = Some h ->
  Proc.conn
    (fst (Proc.bind (SocketCli.lift (Socket.disconnect T)) (fun _ =>
          Proc.bind (Proc.print SocketCli.PrFinished) (fun _ =>
          Proc.wait_for_key_press SocketCli.PromptPressEnter)) s))
  = Socket.after (Socket.disconnect T) (Proc.conn s)
  /\ snd (Proc.bind (SocketCli.lift (Socket.disconnect T)) (fun _ =>
          Proc.bind (Proc.print SocketCli.PrFinished) (fun _ =>
          Proc.wait_for_key_press SocketCli.PromptPressEnter)) s)
     = match Socket.t_close T (Socket.calls (Proc.conn s)) h with
       | Some e => Proc.Raised e
       | None =>
           match Proc.keys s with
           | [] => Proc.Blocked
           | _ :: _ => Proc.Returned tt
           end
       end.
Proof.
  intros Hsock.
  destruct (disconnect_holding T (Proc.conn s) Hsock) as (_ & Hr).
  assert (E : Proc.bind (SocketCli.lift (Socket.disconnect T)) (fun _ =>
              Proc.bind (Proc.print SocketCli.PrFinished) (fun _ =>
              Proc.wait_for_key_press SocketCli.PromptPressEnter)) s
              = match Socket.t_close T (Socket.calls (Proc.conn s)) h with
                | Some e =>
                    (Proc.moved Socket.stdout SocketCli.Class
                       (fst (Socket.disconnect T (Proc.conn s))) s,
                     Proc.Raised e)
                | None =>
                    Proc.wait_for_key_press SocketCli.PromptPressEnter
                      (Proc.emit SocketCli.PrFinished
                         (Proc.moved Socket.stdout SocketCli.Class
                            (fst (Socket.disconnect T (Proc.conn s))) s))
                end).
  { unfold SocketCli.lift. rewrite ProcFacts.bind_lift, Hr.
    now destruct (Socket.t_close T (Socket.calls (Proc.conn s)) h). }
  rewrite E. unfold Socket.after.
  destruct (Socket.t_close T (Socket.calls (Proc.conn s)) h); [now cbn |].
  rewrite ProcFacts.wait_for_key_press_runs.
  cbn [Proc.keys Proc.emit Proc.moved].
  destruct (Proc.keys s); cbn; auto.
Qed.

(** [main] once its session has returned or is waiting for input. *)
Lemma main_of_session (T : Socket.transport) (t : SocketCli.script)
  (session : SocketCli.P unit) (ip : str) (port : Z) (ks : list Proc.key) :
  Socket.outcome
    (Socket.connect T (Socket.fresh ip port Socket.CONNECTION_TIMEOUT))
  = inr true ->
  exists s2,
    Proc.conn s2
    = Socket.after (Socket.connect T)
        (Socket.fresh ip port Socket.CONNECTION_TIMEOUT)
    /\ Proc.keys s2 = ks
    /\ (snd (session s2) = Proc.Blocked ->
        SocketCli.main_of T t session ip port (SocketCli.boot ks)
        = (fst (session s2), Proc.Blocked))
    /\ (forall h,
          snd (session s2) = Proc.Returned tt ->
          Socket.socket (Socket.self (Proc.conn (fst (session s2))))
          = Some h ->
          Proc.conn
            (fst (SocketCli.main_of T t session ip port (SocketCli.boot ks)))
          = Socket.after (Socket.disconnect T) (Proc.conn (fst (session s2)))
          /\ snd (SocketCli.main_of T t session ip port (SocketCli.boot ks))
             = match
                 Socket.t_close T
                   (Socket.calls (Proc.conn (fst (session s2)))) h
               with
               | Some e => Proc.Raised e
               | None =>
                   match Proc.keys (fst (session s2)) with
                   | [] => Proc.Blocked
                   | _ :: _ => Proc.Returned tt
                   end
               end).
Proof.
  intros H.
  destruct (main_of_connected T t session ip port ks H)
    as (s2 & Hc & Hk & E).
  exists s2. split; [exact Hc |]. split; [exact Hk |].
  rewrite E. unfold Proc.try_finally, Proc.try_except.
  destruct (session s2) as [s3 o]. cbn [fst snd].
  split.
  - intros ->. reflexivity.
  - intros h -> Hsock.
    destruct (closing T s3 Hsock) as (Hconn & Hout).
    destruct (Proc.bind (SocketCli.lift (Socket.disconnect T)) _ s3)
      as [s4 o4].
    cbn [fst snd] in *. subst o4.
    destruct (Socket.t_close T (Socket.calls (Proc.conn s3)) h);
      [auto |].
    destruct (Proc.keys s3); auto.
Qed.

End MainFacts.

(** X12.  When connect returns False, main (of both socket scripts)
    prints its advice, waits for one key, whatever it is, and exits with
    status 1: the session never starts, nothing is written to or read
    from the transport, and disconnect is not called, so a socket that
    connect created is left unclosed. *)
Theorem X12_main_exits_when_connect_fails :
  forall T ip port ks,
    Socket.outcome
      (Socket.connect T (Socket.fresh ip port Socket.CONNECTION_TIMEOUT))
    = inr false ->
    (snd (SocketCli.main T ip port (SocketCli.boot ks))
     = match ks with
       | [] => Proc.Blocked
       | _ :: _ => Proc.Exited 1
       end
     /\ Proc.conn (fst (SocketCli.main T ip port (SocketCli.boot ks)))
        = Socket.after (Socket.connect T)
            (Socket.fresh ip port Socket.CONNECTION_TIMEOUT)
     /\ Proc.keys (fst (SocketCli.main T ip port (SocketCli.boot ks)))
        = tl ks)
    /\ (snd (SocketCli.main_basic T ip port (SocketCli.boot ks))
        = match ks with
          | [] => Proc.Blocked
          | _ :: _ => Proc.Exited 1
          end
        /\ Proc.conn
             (fst (SocketCli.main_basic T ip port (SocketCli.boot ks)))
           = Socket.after (Socket.connect T)
               (Socket.fresh ip port Socket.CONNECTION_TIMEOUT)
        /\ Proc.keys
             (fst (SocketCli.main_basic T ip port (SocketCli.boot ks)))
           = tl ks)
    /\ forallb
         (fun ev =>
            negb (Socket.is_write ev || Socket.is_read ev
                  || SocketCli.is_close ev))
         (Socket.calls
            (Socket.after (Socket.connect T)
               (Socket.fresh ip port Socket.CONNECTION_TIMEOUT))) = true.
Proof.
  intros T ip port ks H.
  split; [| split].
  - exact (MainFacts.main_of_refused T SocketCli.ScpiCommands
             (SocketCli.scpi_command T) ip port ks H).
  - exact (MainFacts.main_of_refused T SocketCli.BasicConfiguration
             (SocketCli.basic_configuration T) ip port ks H).
  - destruct (ClassFacts.connect_extends T
                (Socket.fresh ip port Socket.CONNECTION_TIMEOUT))
      as (evs & lines & o & b & E & Hev & _).
    unfold Socket.after. rewrite E. exact Hev.
Qed.

(** A refused connection, with the user pressing Ctrl-C at the last
    prompt. *)
Lemma X12_main_exits_when_connect_fails_witness :
  snd (SocketCli.main (Socket.tcp false []) Demo.ip 5025
         (SocketCli.boot [Proc.CtrlC]))
  = Proc.Exited 1
  /\ snd (SocketCli.main_basic (Socket.tcp false []) Demo.ip 5025
            (SocketCli.boot [Proc.CtrlC]))
     = Proc.Exited 1.
Proof.
  destruct (@X12_main_exits_when_connect_fails (Socket.tcp false []) Demo.ip
              5025%Z [Proc.CtrlC] eq_refl)
    as ((H1 & _) & (H2 & _) & _).
  split; [exact H1 | exact H2].
Defined.

(** X13.  When connect returns True, main of the interactive script runs
    the session on the connected socket and, as soon as the session ends
    (exit, quit or Ctrl-C), calls close on that socket as its last
    transport call.  It then returns after one more key, or raises what
    close raised.  While no key ends the session main waits for input and
    the socket is not closed. *)
Theorem X13_main_closes_the_socket_after_the_session :
  forall T ip port ks,
    Socket.outcome
      (Socket.connect T (Socket.fresh ip port Socket.CONNECTION_TIMEOUT))
    = inr true ->
    (existsb Proc.ends_session ks = false ->
     snd (SocketCli.main T ip port (SocketCli.boot ks)) = Proc.Blocked
     /\ Proc.conn (fst (SocketCli.main T ip port (SocketCli.boot ks)))
        = fold_left
            (Proc.apply_key (Socket.send_command T) (Socket.query T))
            (Proc.before_end ks)
            (Socket.after (Socket.connect T)
               (Socket.fresh ip port Socket.CONNECTION_TIMEOUT)))
    /\ (existsb Proc.ends_session ks = true ->
        Socket.new_calls
          (fold_left
             (Proc.apply_key (Socket.send_command T) (Socket.query T))
             (Proc.before_end ks)
             (Socket.after (Socket.connect T)
                (Socket.fresh ip port Socket.CONNECTION_TIMEOUT)))
          (Proc.conn (fst (SocketCli.main T ip port (SocketCli.boot ks))))
        = [Socket.EvClose 0
             (Socket.t_close T
                (Socket.calls
                   (fold_left
                      (Proc.apply_key (Socket.send_command T)
                         (Socket.query T))
                      (Proc.before_end ks)
                      (Socket.after (Socket.connect T)
                         (Socket.fresh ip port Socket.CONNECTION_TIMEOUT))))
                0%nat)]
        /\ snd (SocketCli.main T ip port (SocketCli.boot ks))
           = match
               Socket.t_close T
                 (Socket.calls
                    (fold_left
                       (Proc.apply_key (Socket.send_command T)
                          (Socket.query T))
                       (Proc.before_end ks)
                       (Socket.after (Socket.connect T)
                          (Socket.fresh ip port
                             Socket.CONNECTION_TIMEOUT)))) 0%nat
             with
             | Some e => Proc.Raised e
             | None =>
                 match Proc.after_end ks with
                 | [] => Proc.Blocked
                 | _ :: _ => Proc.Returned tt
                 end
             end).
Proof.
  intros T ip port ks H.
  destruct (MainFacts.main_of_session T SocketCli.ScpiCommands
              (SocketCli.scpi_command T) ip port ks H)
    as (s2 & Hc & Hk & Hblocked & Hreturned).
  destruct (ProcFacts.scpi_command_runs Socket.stdout SocketCli.Class
              (Socket.send_command T) (Socket.query T)
              SocketCli.PrEnterCommands SocketCli.PrUseQuestionMark
              SocketCli.PromptSCPI SocketCli.PrExiting SocketCli.PrError s2)
    as (Ho & Hk' & _ & Hc').
  fold (SocketCli.scpi_command T) in Ho, Hk', Hc'.
  rewrite Hk in Ho, Hk', Hc'. rewrite Hc in Hc'.
  unfold SocketCli.main.
  split; intros He; rewrite He in Ho.
  - rewrite (Hblocked Ho). cbn [fst snd]. split; [reflexivity | exact Hc'].
  - assert (Hsock : Socket.socket
                      (Socket.self
                         (Proc.conn (fst (SocketCli.scpi_command T s2))))
                    = Some 0%nat).
    { rewrite Hc', MainFacts.session_self.
      now apply MainFacts.connected_socket. }
    destruct (Hreturned 0%nat Ho Hsock) as (Hconn & Hout).
    rewrite Hconn, Hout, Hk'.
    rewrite Hc' in *.
    split; [| reflexivity].
    now apply MainFacts.disconnect_holding.
Qed.

(** The session of [Play.typing] against the scripted double: close is
    the last call, and main returns after the key that follows EXIT. *)
Lemma X13_main_closes_the_socket_after_the_session_witness :
  snd (SocketCli.main (Socket.tcp true Demo.replies) Demo.ip 5025
         (SocketCli.boot Play.typing))
  = Proc.Returned tt
  /\ snd (SocketCli.main (Socket.tcp true Demo.replies) Demo.ip 5025
            (SocketCli.boot [Proc.Line (lit "*OPC?"); Proc.Eof]))
     = Proc.Blocked.
Proof.
  split.
  - destruct (@X13_main_closes_the_socket_after_the_session
                (Socket.tcp true Demo.replies) Demo.ip 5025%Z Play.typing
                eq_refl) as (_ & H).
    destruct (H eq_refl) as (_ & Hout). exact Hout.
  - destruct (@X13_main_closes_the_socket_after_the_session
                (Socket.tcp true Demo.replies) Demo.ip 5025%Z
                [Proc.Line (lit "*OPC?"); Proc.Eof] eq_refl) as (H & _).
    destruct (H eq_refl) as (Hout & _). exact Hout.
Defined.

(** X14.  When connect returns True, main of the basic configuration
    script needs no input before its last prompt.  The connection it
    leaves is the one connect left, after the seven calls of
    basic_configuration in program order and then disconnect: between
    connect and disconnect the seven commands were handed to the
    transport's write, and disconnect added one call, close on socket 0,
    the last of the run.  main returns after one key, or raises what close
    raised. *)
Theorem X14_main_basic_configures_then_closes :
  forall T ip port ks,
    Socket.outcome
      (Socket.connect T (Socket.fresh ip port Socket.CONNECTION_TIMEOUT))
    = inr true ->
    let c1 :=
      Socket.after (Socket.connect T)
        (Socket.fresh ip port Socket.CONNECTION_TIMEOUT) in
    let c2 :=
      Socket.after (Socket.query T (lit "MEAS:FREQ?"))
        (Socket.after (Socket.query T (lit "MEAS:VOLT?"))
           (Socket.after (Socket.query T (lit ":*OPC?"))
              (Socket.after (Socket.send_command T (lit "OUTP 1;"))
                 (Socket.after (Socket.send_command T (lit "FREQ 60"))
                    (Socket.after (Socket.send_command T (lit "VOLT:AC 100"))
                       (Socket.after
                          (Socket.send_command T (lit "VOLT:MODE AC"))
                          c1)))))) in
    Proc.conn (fst (SocketCli.main_basic T ip port (SocketCli.boot ks)))
    = Socket.after (Socket.disconnect T) c2
    /\ (exists evs,
          Socket.calls c2 = Socket.calls c1 ++ evs
          /\ SocketCli.written evs
             = [Demo.ascii_bytes "VOLT:MODE AC" ++ [LF_byte];
                Demo.ascii_bytes "VOLT:AC 100" ++ [LF_byte];
                Demo.ascii_bytes "FREQ 60" ++ [LF_byte];
                Demo.ascii_bytes "OUTP 1;" ++ [LF_byte];
                Demo.ascii_bytes ":*OPC?" ++ [LF_byte];
                Demo.ascii_bytes "MEAS:VOLT?" ++ [LF_byte];
                Demo.ascii_bytes "MEAS:FREQ?" ++ [LF_byte]])
    /\ Socket.calls (Socket.after (Socket.disconnect T) c2)
       = Socket.calls c2
         ++ [Socket.EvClose 0 (Socket.t_close T (Socket.calls c2) 0%nat)]
    /\ snd (SocketCli.main_basic T ip port (SocketCli.boot ks))
       = match Socket.t_close T (Socket.calls c2) 0%nat with
         | Some e => Proc.Raised e
         | None =>
             match ks with
             | [] => Proc.Blocked
             | _ :: _ => Proc.Returned tt
             end
         end.
Proof.
  intros T ip port ks H c1 c2.
  destruct (MainFacts.main_of_session T SocketCli.BasicConfiguration
              (SocketCli.basic_configuration T) ip port ks H)
    as (s2 & Hc & Hk & _ & Hreturned).
  destruct (ScriptFacts.basic_configuration_runs T s2)
    as (Ho & _ & Hk' & Hc').
  pose proof (MainFacts.connected_socket T ip port _ H) as Hsock1.
  fold c1 in Hc, Hsock1. rewrite Hc in Hc'.
  assert (E2 : fold_left
                 (Proc.apply_key (Socket.send_command T) (Socket.query T))
                 (List.map Proc.Line
                    [lit "VOLT:MODE AC"; lit "VOLT:AC 100"; lit "FREQ 60";
                     lit "OUTP 1;"; lit ":*OPC?"; lit "MEAS:VOLT?";
                     lit "MEAS:FREQ?"]) c1 = c2) by reflexivity.
  assert (Hsock : Socket.socket (Socket.self c2) = Some 0%nat).
  { rewrite <- E2, MainFacts.session_self. exact Hsock1. }
  rewrite E2 in Hc'. rewrite Hc' in Hreturned.
  destruct (Hreturned 0%nat Ho Hsock) as (Hconn & Hout).
  unfold SocketCli.main_basic. rewrite Hconn, Hout, Hk', Hk.
  split; [reflexivity |]. split; [| split; [| reflexivity]].
  - match type of E2 with
    | fold_left _ ?l _ = _ =>
        destruct (ScriptFacts.session_attempts T l c1 Hsock1)
          as (evs & lines & E & Hw & _)
    end.
    exists evs. rewrite <- E2, E. split; [reflexivity | exact Hw].
  - unfold Socket.after.
    destruct (Socket.t_close T (Socket.calls c2) 0%nat) as [e |] eqn:Hclose.
    + now rewrite (@SocketFacts.disconnect_close_failed T c2 0%nat Hsock e
                     Hclose).
    + now rewrite (@SocketFacts.disconnect_closed T c2 0%nat Hsock Hclose).
Qed.

(** The basic configuration against the scripted double, with one key
    for the last prompt: the whole history of the run. *)
Lemma X14_main_basic_configures_then_closes_witness :
  Socket.calls
    (Proc.conn
       (fst (SocketCli.main_basic (Socket.tcp true Demo.replies) Demo.ip
               5025 (SocketCli.boot [Proc.Line []]))))
  = [Socket.EvSocket (inr 0%nat);
     Socket.EvSetTimeout 0 Socket.CONNECTION_TIMEOUT None;
     Socket.EvConnect 0 Demo.ip 5025 None;
     Socket.EvSendall 0 (Demo.ascii_bytes "VOLT:MODE AC" ++ [LF_byte]) None;
     Socket.EvSendall 0 (Demo.ascii_bytes "VOLT:AC 100" ++ [LF_byte]) None;
     Socket.EvSendall 0 (Demo.ascii_bytes "FREQ 60" ++ [LF_byte]) None;
     Socket.EvSendall 0 (Demo.ascii_bytes "OUTP 1;" ++ [LF_byte]) None;
     Socket.EvSendall 0 (Demo.ascii_bytes ":*OPC?" ++ [LF_byte]) None;
     Socket.EvRecv 0 Socket.BUFSIZE (inr Demo.opc_reply);
     Socket.EvSendall 0 (Demo.ascii_bytes "MEAS:VOLT?" ++ [LF_byte]) None;
     Socket.EvRecv 0 Socket.BUFSIZE (inr Demo.volt_reply);
     Socket.EvSendall 0 (Demo.ascii_bytes "MEAS:FREQ?" ++ [LF_byte]) None;
     Socket.EvRecv 0 Socket.BUFSIZE (inl TimeoutError);
     Socket.EvClose 0 None]
  /\ snd (SocketCli.main_basic (Socket.tcp true Demo.replies) Demo.ip 5025
            (SocketCli.boot [Proc.Line []]))
     = Proc.Returned tt.
Proof.
  destruct (@X14_main_basic_configures_then_closes
              (Socket.tcp true Demo.replies) Demo.ip 5025%Z [Proc.Line []]
              eq_refl) as (Hconn & _ & Hcalls & Hout).
  rewrite Hconn, Hcalls, Hout. split; reflexivity.
Defined.

(** ** [main] over VISAConnection *)

Module VisaMainFacts.
Import Py.

Lemma visa_connected_instrument (L : Visa.library) (name : str) (t : Z) :
  Visa.outcome (Visa.connect L (Visa.fresh name t)) = inr true ->
  Visa.instrument
    (Visa.self (Visa.after (Visa.connect L) (Visa.fresh name t)))
  = Some 1%nat.
Proof.
  destruct (VisaFacts.visa_connect_paths L name t)
    as (evs & lines & oi & om & b & E & P).
  unfold Visa.outcome, Visa.after. rewrite E. cbn [fst snd].
  intros [= ->]. now inversion P.
Qed.

Section Main.

Variable L : Visa.library.
Variables (resource : str) (timeout : Z) (ks : list Proc.key).

Lemma visa_main_refused :
  Visa.outcome (Visa.connect L (Visa.fresh resource timeout)) = inr false ->
  snd (VisaCli.main L resource timeout (VisaCli.boot ks))
  = match ks with
    | [] => Proc.Blocked
    | _ :: _ => Proc.Exited 1
    end
  /\ Proc.conn (fst (VisaCli.main L resource timeout (VisaCli.boot ks)))
     = Visa.after (Visa.connect L) (Visa.fresh resource timeout)
  /\ Proc.keys (fst (VisaCli.main L resource timeout (VisaCli.boot ks)))
     = tl ks.
Proof.
  intros H. unfold Visa.outcome in H.
  unfold VisaCli.main, VisaCli.boot, Visa.after.
  cbn -[Visa.connect Visa.disconnect VisaCli.session].
  unfold VisaCli.lift. rewrite ProcFacts.bind_lift.
  cbn [Proc.conn Proc.moved Proc.emit].
  change {| Visa.self := Visa.init resource timeout;
            Visa.calls := []; Visa.stdout := [] |}
    with (Visa.fresh resource timeout).
  rewrite H. cbn [negb].
  unfold Proc.bind at 1.
  repeat (unfold Proc.bind at 1; cbn [Proc.print]).
  rewrite ProcFacts.wait_for_key_press_runs.
  cbn [Proc.keys Proc.emit Proc.moved].
  destruct ks; cbn; auto.
Qed.

Lemma visa_main_connected :
  Visa.outcome (Visa.connect L (Visa.fresh resource timeout)) = inr true ->
  exists s2,
    Proc.conn s2 = Visa.after (Visa.connect L) (Visa.fresh resource timeout)
    /\ Proc.keys s2 = ks
    /\ VisaCli.main L resource timeout (VisaCli.boot ks)
       = Proc.try_finally
           (Proc.try_except (VisaCli.session L)
              (Proc.print VisaCli.PrInterrupted)
              (fun e =>
                 Proc.bind (Proc.print (VisaCli.PrUnexpected e)) (fun _ =>
                 Proc.bind (Proc.print (VisaCli.PrTraceback e)) (fun _ =>
                 Proc.wait_for_key_press VisaCli.PromptPressEnter))))
           (Proc.bind (VisaCli.lift (Visa.disconnect L)) (fun _ =>
            Proc.bind (Proc.print VisaCli.PrFinished) (fun _ =>
            Proc.wait_for_key_press VisaCli.PromptPressEnter)))
           s2.
Proof.
  intros H. unfold Visa.outcome in H.
  unfold VisaCli.main, VisaCli.boot, Visa.after.
  cbn -[Visa.connect Visa.disconnect VisaCli.session].
  unfold VisaCli.lift at 1. rewrite ProcFacts.bind_lift.
  cbn [Proc.conn Proc.moved Proc.emit].
  change {| Visa.self := Visa.init resource timeout;
            Visa.calls := []; Visa.stdout := [] |}
    with (Visa.fresh resource timeout).
  rewrite H. cbn [negb].
  unfold Proc.bind at 1. cbn [Proc.ret].
  eexists. split; [| split; [| reflexivity]]; reflexivity.
Qed.

End Main.

(** The session of [main]: the identification query, then the loop, its
    keys applied to the connection as the query left it. *)
Lemma visa_session_runs (L : Visa.library) (s : VisaCli.state) :
  snd (VisaCli.session L s)
  = (if existsb Proc.ends_session (Proc.keys s)
     then Proc.Returned tt else Proc.Blocked)
  /\ Proc.keys (fst (VisaCli.session L s)) = Proc.after_end (Proc.keys s)
  /\ Proc.conn (fst (VisaCli.session L s))
     = fold_left (Proc.apply_key (Visa.send_command L) (Visa.query L))
         (Proc.before_end (Proc.keys s))
         (Visa.after (Visa.query L (lit "*IDN?")) (Proc.conn s)).
Proof.
  assert (E0 : VisaCli.session L s
               = VisaCli.scpi_command L
                   (Proc.moved Visa.stdout VisaCli.Class
                      (fst (Visa.query L (lit "*IDN?") (Proc.conn s)))
                      (Proc.emit VisaCli.PrQueryingIdentification s))).
  { unfold VisaCli.session.
    unfold Proc.bind at 1. cbn [Proc.print].
    unfold VisaCli.lift. rewrite ProcFacts.bind_lift.
    cbn [Proc.conn Proc.emit].
    destruct (ClassFacts.visa_query_extends L (lit "*IDN?") (Proc.conn s))
      as (evs & lines & v & E).
    now rewrite E. }
  rewrite E0.
  match goal with
  | |- context [VisaCli.scpi_command L ?s1] =>
      destruct (ProcFacts.scpi_command_runs Visa.stdout VisaCli.Class
                  (Visa.send_command L) (Visa.query L)
                  VisaCli.PrEnterCommands VisaCli.PrUseQuestionMark
                  VisaCli.PromptSCPI VisaCli.PrExiting VisaCli.PrError s1)
        as (H1 & H2 & _ & H4)
  end.
  auto.
Qed.

(** The [finally] clause of [main]. *)
Lemma visa_closing (L : Visa.library) (s : VisaCli.state) :
  Proc.conn
    (fst (Proc.bind (VisaCli.lift (Visa.disconnect L)) (fun _ =>
          Proc.bind (Proc.print VisaCli.PrFinished) (fun _ =>
          Proc.wait_for_key_press VisaCli.PromptPressEnter)) s))
  = Visa.after (Visa.disconnect L) (Proc.conn s)
  /\ snd (Proc.bind (VisaCli.lift (Visa.disconnect L)) (fun _ =>
          Proc.bind (Proc.print VisaCli.PrFinished) (fun _ =>
          Proc.wait_for_key_press VisaCli.PromptPressEnter)) s)
     = match Visa.outcome (Visa.disconnect L (Proc.conn s)) with
       | inl e => Proc.Raised e
       | inr _ =>
           match Proc.keys s with
           | [] => Proc.Blocked
           | _ :: _ => Proc.Returned tt
           end
       end.
Proof.
  assert (E : Proc.bind (VisaCli.lift (Visa.disconnect L)) (fun _ =>
              Proc.bind (Proc.print VisaCli.PrFinished) (fun _ =>
              Proc.wait_for_key_press VisaCli.PromptPressEnter)) s
              = match snd (Visa.disconnect L (Proc.conn s)) with
                | inl e =>
                    (Proc.moved Visa.stdout VisaCli.Class
                       (fst (Visa.disconnect L (Proc.conn s))) s,
                     Proc.Raised e)
                | inr _ =>
                    Proc.wait_for_key_press VisaCli.PromptPressEnter
                      (Proc.emit VisaCli.PrFinished
                         (Proc.moved Visa.stdout VisaCli.Class
                            (fst (Visa.disconnect L (Proc.conn s))) s))
                end).
  { unfold VisaCli.lift. rewrite ProcFacts.bind_lift.
    now destruct (snd (Visa.disconnect L (Proc.conn s))). }
  rewrite E. unfold Visa.after, Visa.outcome.
  destruct (snd (Visa.disconnect L (Proc.conn s))) as [e | []];
    [now cbn |].
  rewrite ProcFacts.wait_for_key_press_runs.
  cbn [Proc.keys Proc.emit Proc.moved].
  destruct (Proc.keys s); cbn; auto.
Qed.

End VisaMainFacts.

(** X15.  main of the VISA script.  When connect returns False it waits
    for one key and exits with status 1 without calling anything else:
    disconnect is not called, so a resource manager that connect created is
    left open.  When connect returns True its first call on the instrument
    is the query *IDN?, whose answer, or failure, is ignored; the
    interactive session follows on the same connection, and as soon as it
    ends disconnect is called; main then returns after one more key, or
    raises what disconnect raised. *)
Theorem X15_visa_main_identifies_then_serves :
  forall L resource timeout ks,
    (Visa.outcome (Visa.connect L (Visa.fresh resource timeout)) = inr false ->
     snd (VisaCli.main L resource timeout (VisaCli.boot ks))
     = match ks with
       | [] => Proc.Blocked
       | _ :: _ => Proc.Exited 1
       end
     /\ Proc.conn (fst (VisaCli.main L resource timeout (VisaCli.boot ks)))
        = Visa.after (Visa.connect L) (Visa.fresh resource timeout))
    /\ (Visa.outcome (Visa.connect L (Visa.fresh resource timeout))
        = inr true ->
        Visa.new_calls
          (Visa.after (Visa.connect L) (Visa.fresh resource timeout))
          (Visa.after (Visa.query L (lit "*IDN?"))
             (Visa.after (Visa.connect L) (Visa.fresh resource timeout)))
        = [Visa.EvQuery 1 (lit "*IDN?")
             (Visa.v_query L
                (Visa.calls
                   (Visa.after (Visa.connect L)
                      (Visa.fresh resource timeout))) 1%nat (lit "*IDN?"))]
        /\ (existsb Proc.ends_session ks = false ->
            snd (VisaCli.main L resource timeout (VisaCli.boot ks))
            = Proc.Blocked
            /\ Proc.conn
                 (fst (VisaCli.main L resource timeout (VisaCli.boot ks)))
               = fold_left
                   (Proc.apply_key (Visa.send_command L) (Visa.query L))
                   (Proc.before_end ks)
                   (Visa.after (Visa.query L (lit "*IDN?"))
                      (Visa.after (Visa.connect L)
                         (Visa.fresh resource timeout))))
        /\ (existsb Proc.ends_session ks = true ->
            Proc.conn
              (fst (VisaCli.main L resource timeout (VisaCli.boot ks)))
            = Visa.after (Visa.disconnect L)
                (fold_left
                   (Proc.apply_key (Visa.send_command L) (Visa.query L))
                   (Proc.before_end ks)
                   (Visa.after (Visa.query L (lit "*IDN?"))
                      (Visa.after (Visa.connect L)
                         (Visa.fresh resource timeout))))
            /\ snd (VisaCli.main L resource timeout (VisaCli.boot ks))
               = match
                   Visa.outcome
                     (Visa.disconnect L
                        (fold_left
                           (Proc.apply_key (Visa.send_command L)
                              (Visa.query L))
                           (Proc.before_end ks)
                           (Visa.after (Visa.query L (lit "*IDN?"))
                              (Visa.after (Visa.connect L)
                                 (Visa.fresh resource timeout)))))
                 with
                 | inl e => Proc.Raised e
                 | inr _ =>
                     match Proc.after_end ks with
                     | [] => Proc.Blocked
                     | _ :: _ => Proc.Returned tt
                     end
                 end)).
Proof.
  intros L resource timeout ks. split.
  - intros H.
    destruct (VisaMainFacts.visa_main_refused L resource timeout ks H)
      as (H1 & H2 & _).
    auto.
  - intros H. split.
    + pose proof (VisaMainFacts.visa_connected_instrument L resource timeout H)
        as Hinst.
      set (c1 := Visa.after (Visa.connect L) (Visa.fresh resource timeout))
        in *.
      unfold Visa.after at 1.
      destruct (Visa.v_query L (Visa.calls c1) 1%nat (lit "*IDN?"))
        as [e | text] eqn:Hq.
      * rewrite (@VisaFacts.visa_query_failed L c1 (lit "*IDN?") 1%nat Hinst
                   e Hq), VisaFacts.visa_emit_record_extend.
        apply VisaCliFacts.visa_new_calls_extend.
      * rewrite (@VisaFacts.visa_query_answered L c1 (lit "*IDN?") 1%nat
                   Hinst text Hq).
        cbn [fst]. unfold Visa.new_calls, Visa.emit, Visa.record.
        cbn [Visa.calls].
        rewrite skipn_app, Nat.sub_diag, skipn_all. reflexivity.
    + destruct (VisaMainFacts.visa_main_connected L resource timeout ks H)
        as (s2 & Hc & Hk & E).
      destruct (VisaMainFacts.visa_session_runs L s2) as (Ho & Hk' & Hc').
      rewrite Hk in Ho, Hk', Hc'. rewrite Hc in Hc'.
      rewrite E. unfold Proc.try_finally, Proc.try_except.
      destruct (VisaCli.session L s2) as [s3 o]. cbn [fst snd] in *.
      subst o.
      split; intros He; rewrite He.
      * cbn [fst snd]. split; [reflexivity | exact Hc'].
      * destruct (VisaMainFacts.visa_closing L s3) as (Hconn & Hout).
        destruct (Proc.bind (VisaCli.lift (Visa.disconnect L)) _ s3)
          as [s4 o4].
        cbn [fst snd] in *. subst o4. rewrite Hc', Hk' in *.
        destruct (Visa.outcome (Visa.disconnect L _)) as [e | []];
          [auto |].
        destruct (Proc.after_end ks); auto.
Qed.

(** An absent instrument, and the session of [Play.typing] with an
    instrument on the bench. *)
Lemma X15_visa_main_identifies_then_serves_witness :
  snd (VisaCli.main (Visa.bench false []) Demo.resource 5000
         (VisaCli.boot [Proc.Eof]))
  = Proc.Exited 1
  /\ snd (VisaCli.main (Visa.bench true []) Demo.resource 5000
            (VisaCli.boot Play.typing))
     = Proc.Returned tt.
Proof.
  split.
  - destruct (@X15_visa_main_identifies_then_serves (Visa.bench false [])
                Demo.resource 5000%Z [Proc.Eof]) as (H & _).
    destruct (H eq_refl) as (Hout & _). exact Hout.
  - destruct (@X15_visa_main_identifies_then_serves (Visa.bench true [])
                Demo.resource 5000%Z Play.typing) as (_ & H).
    destruct (H eq_refl) as (_ & _ & Hend).
    destruct (Hend eq_refl) as (_ & Hout). exact Hout.
Defined.

(** ** [install_dependencies] *)

Module DepsFacts.
Import Py.

Ltac step :=
  unfold Deps.install_dependencies, Deps.find_missing, Deps.verify_installed,
    Deps.required_packages, Deps.import_module, Deps.run_pip, Deps.raise,
    Deps.log, Proc.bind, Proc.ret, Proc.print, Proc.try_except,
    Proc.sys_exit, Proc.emit;
  cbn [Proc.conn Proc.console Proc.keys Proc.naps fst snd app
       Deps.replace_dash Ascii.eqb Bool.eqb].

Ltac split_cases Y :=
  repeat
    (match goal with
     | |- context [Deps.sys_import Y ?h ?n] =>
         let E := fresh "Ei" in
         destruct (Deps.sys_import Y h n) eqn:E
     | |- context [Deps.sys_pip Y ?h ?m] =>
         let E := fresh "Ep" in
         destruct (Deps.sys_pip Y h m) as [? | [? ?]] eqn:E
     | |- context [(?c =? 0)%Z] =>
         let E := fresh "Ec" in destruct (c =? 0)%Z eqn:E
     | |- context [match ?l with [] => _ | _ :: _ => _ end] =>
         is_var l; destruct l
     end;
     cbn [Proc.conn Proc.console Proc.keys Proc.naps fst snd app
          Deps.returncode Deps.stderr]).

End DepsFacts.

(** X16.  install_dependencies returns normally only when pyvisa and
    pyvisa_py were both imported successfully during the call, at the first
    check or after a pip run.  Otherwise it ends the process with exit
    status 1, or, when an import of the first check raises something other
    than ImportError, lets that exception through without running pip. *)
Theorem X16_install_dependencies_returns_only_with_both_modules :
  forall Y,
    (snd (Deps.install_dependencies Y Deps.boot) = Proc.Returned tt
     /\ Deps.imported "pyvisa"
          (Proc.conn (fst (Deps.install_dependencies Y Deps.boot)))
     /\ Deps.imported "pyvisa-py"
          (Proc.conn (fst (Deps.install_dependencies Y Deps.boot))))
    \/ snd (Deps.install_dependencies Y Deps.boot) = Proc.Exited 1
    \/ (exists e name,
          snd (Deps.install_dependencies Y Deps.boot) = Proc.Raised e
          /\ In (Deps.EvImport name (Deps.Crashed e))
               (Proc.conn (fst (Deps.install_dependencies Y Deps.boot)))
          /\ filter Deps.is_pip
               (Proc.conn (fst (Deps.install_dependencies Y Deps.boot)))
             = []).
Proof.
  intros Y. unfold Deps.boot, Deps.imported. DepsFacts.step.
  DepsFacts.split_cases Y;
    first
      [ left; cbn; repeat split; tauto
      | right; left; reflexivity
      | right; right; eexists _, _; cbn;
        split; [reflexivity | split; [| reflexivity]]; tauto ].
Qed.

(** X17.  install_dependencies runs pip at most once, and only for
    packages whose import at the first check raised ImportError, all of
    them at once.  When both modules import at the first check it prints
    nothing, runs nothing and returns. *)
Theorem X17_install_dependencies_runs_pip_once_for_the_missing :
  forall Y,
    (List.length
       (filter Deps.is_pip
          (Proc.conn (fst (Deps.install_dependencies Y Deps.boot)))) <= 1)%nat
    /\ (forall packages r,
          In (Deps.EvPip packages r)
             (Proc.conn (fst (Deps.install_dependencies Y Deps.boot))) ->
          packages <> []
          /\ forall package,
               In package packages <->
               In package Deps.required_packages
               /\ In (Deps.EvImport (Deps.replace_dash package) Deps.NotFound)
                    (firstn 2
                       (Proc.conn
                          (fst (Deps.install_dependencies Y Deps.boot)))))
    /\ (Deps.sys_import Y [] "pyvisa" = Deps.Imported ->
        Deps.sys_import Y [Deps.EvImport "pyvisa" Deps.Imported] "pyvisa_py"
        = Deps.Imported ->
        Deps.install_dependencies Y Deps.boot
        = ({| Proc.conn :=
                [Deps.EvImport "pyvisa" Deps.Imported;
                 Deps.EvImport "pyvisa_py" Deps.Imported];
              Proc.console := []; Proc.keys := []; Proc.naps := [] |},
           Proc.Returned tt)).
Proof.
  intros Y. split; [| split].
  - unfold Deps.boot. DepsFacts.step.
    DepsFacts.split_cases Y; cbn; lia.
  - intros packages r. unfold Deps.boot. DepsFacts.step.
    DepsFacts.split_cases Y; cbn;
      intros Hin;
      repeat match goal with
      | H : _ \/ _ |- _ => destruct H
      | H : False |- _ => destruct H
      | H : _ = Deps.EvPip _ _ |- _ => inversion H; clear H; subst
      end;
      (split; [discriminate |]);
      intros package; cbn;
      (split;
       [ intros H;
         repeat match goal with
         | H : _ \/ _ |- _ => destruct H
         | H : False |- _ => destruct H
         end; subst; cbn; tauto
       | intros [Hreq Hnf];
         repeat match goal with
         | H : _ \/ _ |- _ => destruct H
         | H : False |- _ => destruct H
         | H : Deps.EvImport _ _ = Deps.EvImport _ _ |- _ =>
             inversion H; clear H
         end; subst; cbn in *; try discriminate; tauto ]).
  - intros H1 H2. unfold Deps.boot. DepsFacts.step.
    rewrite H1. cbn. rewrite H2. reflexivity.
Qed.

(** On a machine without the packages pip is run for both of them; on a
    machine that has them the call only imports. *)
Lemma X17_install_dependencies_runs_pip_once_for_the_missing_witness :
  (["pyvisa"; "pyvisa-py"]%string <> []
   /\ forall package,
        In package ["pyvisa"; "pyvisa-py"]%string <->
        In package Deps.required_packages
        /\ In (Deps.EvImport (Deps.replace_dash package) Deps.NotFound)
             (firstn 2
                (Proc.conn
                   (fst (Deps.install_dependencies Play.bare Deps.boot)))))
  /\ Deps.install_dependencies Play.ready Deps.boot
     = ({| Proc.conn :=
             [Deps.EvImport "pyvisa" Deps.Imported;
              Deps.EvImport "pyvisa_py" Deps.Imported];
           Proc.console := []; Proc.keys := []; Proc.naps := [] |},
        Proc.Returned tt).
Proof.
  split.
  - destruct (X17_install_dependencies_runs_pip_once_for_the_missing
                Play.bare) as (_ & H & _).
    apply (H ["pyvisa"; "pyvisa-py"]%string
             (inr {| Deps.returncode := 0; Deps.stderr := [] |})).
    vm_compute. tauto.
  - destruct (X17_install_dependencies_runs_pip_once_for_the_missing
                Play.ready) as (_ & _ & H).
    apply H; reflexivity.
Defined.
